(** * Fact-Checking Web App: claim verification pipeline

    A shallow embedding of [claim_extractor.py], [fact_verifier.py],
    [pdf_processor.py] and the analysis action of [app.py].

    Conventions of the embedding.
    - A Python [str] is a Rocq [string]; every [ascii] stands for one
      character (code points 0..255).  [len] is [String.length].
    - Python values that flow through the pipeline (claims, search
      responses, verdicts, decoded JSON) are dynamically typed; they are
      embedded in the inductive type [value].  A [dict] is an association
      list in insertion order, as Python dictionaries preserve it and
      [str] of a dictionary shows it.
    - A Python [float] is kept as the exact decimal of its literal,
      [VFloat m e] standing for [m * 10^e]; binary rounding, the sign
      of a zero and the range of floats are not modelled.
    - Exceptions are values of type [exn]; a computation that can raise
      returns [exn + A].  Calls to the outside world (secrets store, web
      search provider, completion provider, progress callback) go through
      the record [world] and are written to a trace of [event]s. *)

From Stdlib Require Import String Ascii List ZArith Lia Bool Arith.
From Stdlib Require Import DecimalString Permutation Sorted.
Import ListNotations.

Open Scope list_scope.
Open Scope string_scope.

(* ================================================================== *)
(** ** Characters and strings, as Python's [str] methods use them *)
(* ================================================================== *)

Module PyStr.

Definition dquote : ascii := ascii_of_nat 34.
Definition squote : ascii := ascii_of_nat 39.
Definition backslash : ascii := ascii_of_nat 92.
Definition newline : ascii := ascii_of_nat 10.
Definition carriage : ascii := ascii_of_nat 13.
Definition tab : ascii := ascii_of_nat 9.

Definition chr (c : ascii) : string := String c EmptyString.

Definition nl : string := chr newline.
Definition dq : string := chr dquote.

(** [quoted s] is [s] between two double quote characters. *)
Definition quoted (s : string) : string := dq ++ s ++ dq.

(** [str.isspace] on one character, restricted to code points 0..255:
    TAB, LF, VT, FF, CR, FS, GS, RS, US, SPACE, NEL and NBSP. *)
Definition isspace (c : ascii) : bool :=
  let n := nat_of_ascii c in
  (Nat.leb 9 n && Nat.leb n 13) || (Nat.leb 28 n && Nat.leb n 32)
  || Nat.eqb n 133 || Nat.eqb n 160.

(** [s.lstrip()] *)
Fixpoint lstrip (s : string) : string :=
  match s with
  | EmptyString => EmptyString
  | String c r => if isspace c then lstrip r else s
  end.

(** [s.rstrip()]: a character is kept when it is not white space or when
    something is kept after it. *)
Fixpoint rstrip (s : string) : string :=
  match s with
  | EmptyString => EmptyString
  | String c r =>
      match rstrip r with
      | EmptyString => if isspace c then EmptyString else chr c
      | r' => String c r'
      end
  end.

(** [s.strip()] *)
Definition strip (s : string) : string := rstrip (lstrip s).

(** [s.startswith(p)] *)
Definition startswith (s p : string) : bool := String.prefix p s.

(** [s[n:]] for a non-negative constant [n] *)
Fixpoint drop (n : nat) (s : string) : string :=
  match n, s with
  | O, _ => s
  | S _, EmptyString => EmptyString
  | S k, String _ r => drop k r
  end.

(** [s[:n]] for a non-negative constant [n] *)
Fixpoint take (n : nat) (s : string) : string :=
  match n, s with
  | O, _ => EmptyString
  | S _, EmptyString => EmptyString
  | S k, String c r => String c (take k r)
  end.

(** [s.split(sep)] for a non-empty separator: the pieces between the
    non-overlapping occurrences of [sep], scanned from the left.  [skip]
    counts the characters of an occurrence still to be passed over. *)
Fixpoint split_from (sep : string) (skip : nat) (s : string) : list string :=
  match s with
  | EmptyString => [EmptyString]
  | String c r =>
      match skip with
      | S k => split_from sep k r
      | O =>
          if String.prefix sep s
          then EmptyString :: split_from sep (String.length sep - 1) r
          else match split_from sep 0 r with
               | p :: ps => String c p :: ps
               | [] => [chr c]
               end
      end
  end.

Definition split (sep s : string) : list string := split_from sep 0 s.

(** [sep.join(parts)] *)
Definition join (sep : string) (parts : list string) : string :=
  String.concat sep parts.

(** [needle in s] *)
Fixpoint contains (needle s : string) : bool :=
  String.prefix needle s ||
  match s with
  | EmptyString => false
  | String _ r => contains needle r
  end.

(** Decimal rendering of an integer, as [str(int)] gives it. *)
Definition str_of_Z (z : Z) : string := NilZero.string_of_int (Z.to_int z).

Fixpoint repeat_string (n : nat) (s : string) : string :=
  match n with
  | O => EmptyString
  | S k => s ++ repeat_string k s
  end.

End PyStr.

Import PyStr.

(* ================================================================== *)
(** ** Python values *)
(* ================================================================== *)

(** The dynamically typed values of the pipeline.  [VDict] keeps its
    items in insertion order; keys are strings, as every dictionary of
    the program is built from string literals or decoded from JSON. *)
#[local] Set Warnings "-register-all".

Inductive value : Type :=
| VNone
| VBool (b : bool)
| VInt (z : Z)
| VFloat (m e : Z)
| VStr (s : string)
| VList (l : list value)
| VDict (d : list (string * value)).

Definition dict : Type := list (string * value).

(** The exception classes the program raises or catches by name. *)
Inductive exn_class : Type :=
| ValueError
| JSONDecodeError
| AttributeError
| TypeError
| IndexError
| RecursionError
| OtherError (name : string).

(** An exception: its class and [str(e)]. *)
Record exn : Type := Exn { exn_cls : exn_class; exn_str : string }.

(** [result A]: a Python expression that returns an [A] or raises. *)
Definition result (A : Type) : Type := (exn + A)%type.

Definition raise {A : Type} (c : exn_class) (msg : string) : result A :=
  inl (Exn c msg).

(** [isinstance(e, json.JSONDecodeError)] *)
Definition is_json_decode_error (e : exn) : bool :=
  match exn_cls e with JSONDecodeError => true | _ => false end.

Module Py.

(** [d[k]] when present *)
Fixpoint lookup (k : string) (d : dict) : option value :=
  match d with
  | [] => None
  | (k', v) :: r => if String.eqb k k' then Some v else lookup k r
  end.

(** [d.get(k, default)] *)
Definition dict_get (d : dict) (k : string) (default : value) : value :=
  match lookup k d with Some v => v | None => default end.

(** [d[k] = v]: an existing key keeps its position, a new key goes last. *)
Fixpoint dict_set (d : dict) (k : string) (v : value) : dict :=
  match d with
  | [] => [(k, v)]
  | (k', v') :: r =>
      if String.eqb k k' then (k', v) :: r else (k', v') :: dict_set r k v
  end.

(** [x.get(k, default)] on an arbitrary value: only a dictionary has the
    method. *)
Definition get (x : value) (k : string) (default : value) : result value :=
  match x with
  | VDict d => inr (dict_get d k default)
  | _ => raise AttributeError "object has no attribute 'get'"
  end.

(** [x[k] = v] on an arbitrary value, [k] a string: dictionaries accept
    it; lists want integer indices and the other values support no item
    assignment. *)
Definition set_item (x : value) (k : string) (v : value) : result value :=
  match x with
  | VDict d => inr (VDict (dict_set d k v))
  | VList _ => raise TypeError "list indices must be integers or slices, not str"
  | _ => raise TypeError "object does not support item assignment"
  end.

(** [bool(x)] *)
Definition truthy (x : value) : bool :=
  match x with
  | VNone => false
  | VBool b => b
  | VInt z => negb (Z.eqb z 0)
  | VFloat m _ => negb (Z.eqb m 0)
  | VStr s => negb (String.eqb s "")
  | VList l => match l with [] => false | _ => true end
  | VDict d => match d with [] => false | _ => true end
  end.

(** Two lowercase hexadecimal digits of a character code. *)
Definition hex_digit (n : nat) : ascii :=
  if Nat.ltb n 10 then ascii_of_nat (48 + n) else ascii_of_nat (87 + n).

Definition hex2 (c : ascii) : string :=
  let n := nat_of_ascii c in
  String (hex_digit (n / 16)) (String (hex_digit (n mod 16)) "").

(** [str.isprintable] on one character (code points 0..255). *)
Definition isprintable (c : ascii) : bool :=
  let n := nat_of_ascii c in
  (Nat.leb 32 n && Nat.leb n 126) || (Nat.leb 161 n && negb (Nat.eqb n 173)).

(** One character inside [repr] of a string delimited by [q]. *)
Definition repr_char (q c : ascii) : string :=
  if Ascii.eqb c q || Ascii.eqb c backslash then String backslash (chr c)
  else if Ascii.eqb c tab then String backslash "t"
  else if Ascii.eqb c newline then String backslash "n"
  else if Ascii.eqb c carriage then String backslash "r"
  else if isprintable c then chr c
  else String backslash ("x" ++ hex2 c).

Fixpoint repr_chars (q : ascii) (s : string) : string :=
  match s with
  | EmptyString => EmptyString
  | String c r => repr_char q c ++ repr_chars q r
  end.

(** [repr] of a string: single quotes, unless the string has a single
    quote and no double quote. *)
Definition repr_quote (s : string) : ascii :=
  if contains (chr squote) s && negb (contains dq s) then dquote else squote.

Definition repr_str (s : string) : string :=
  let q := repr_quote s in String q (repr_chars q s ++ chr q).

Fixpoint strip_trailing_zeros (s : string) : string :=
  match s with
  | EmptyString => EmptyString
  | String c r =>
      match strip_trailing_zeros r with
      | EmptyString => if Ascii.eqb c "0" then EmptyString else chr c
      | r' => String c r'
      end
  end.

(** [repr] of the float [m * 10^e]: the digits of the decimal, in
    positional notation when the decimal point falls within [-4, 16], in
    exponent notation otherwise. *)
Definition repr_float (m e : Z) : string :=
  if Z.eqb m 0 then "0.0" else
  let sign := if Z.ltb m 0 then "-" else "" in
  let all := str_of_Z (Z.abs m) in
  let ds := strip_trailing_zeros all in
  let n := Z.of_nat (String.length ds) in
  let decpt := (Z.of_nat (String.length all) + e)%Z in
  sign ++
  if (Z.ltb (-4) decpt && Z.leb decpt 16)%bool then
    if Z.leb decpt 0 then
      "0." ++ repeat_string (Z.to_nat (- decpt)) "0" ++ ds
    else if Z.leb n decpt then
      ds ++ repeat_string (Z.to_nat (decpt - n)) "0" ++ ".0"
    else
      take (Z.to_nat decpt) ds ++ "." ++ drop (Z.to_nat decpt) ds
  else
    let x := (decpt - 1)%Z in
    let xs := str_of_Z (Z.abs x) in
    take 1 ds ++ (if Z.ltb 1 n then "." ++ drop 1 ds else "")
    ++ "e" ++ (if Z.ltb x 0 then "-" else "+")
    ++ (if Nat.ltb (String.length xs) 2 then "0" ++ xs else xs).

(** [repr(x)] *)
Fixpoint repr (x : value) : string :=
  match x with
  | VNone => "None"
  | VBool true => "True"
  | VBool false => "False"
  | VInt z => str_of_Z z
  | VFloat m e => repr_float m e
  | VStr s => repr_str s
  | VList l =>
      "[" ++
      (fix items (l : list value) : string :=
         match l with
         | [] => ""
         | [y] => repr y
         | y :: r => repr y ++ ", " ++ items r
         end) l ++ "]"
  | VDict d =>
      "{" ++
      (fix items (d : dict) : string :=
         match d with
         | [] => ""
         | [(k, y)] => repr_str k ++ ": " ++ repr y
         | (k, y) :: r => repr_str k ++ ": " ++ repr y ++ ", " ++ items r
         end) d ++ "}"
  end.

(** [str(x)], which is also what an f-string and [str.format] put in
    place of a field. *)
Definition str (x : value) : string :=
  match x with
  | VStr s => s
  | _ => repr x
  end.

(** [x[:n]] *)
Definition slice_to (n : nat) (x : value) : result value :=
  match x with
  | VList l => inr (VList (firstn n l))
  | VStr s => inr (VStr (take n s))
  | _ => raise TypeError "object is not subscriptable"
  end.

(** The items a [for] loop visits. *)
Fixpoint chars (s : string) : list value :=
  match s with
  | EmptyString => []
  | String c r => VStr (chr c) :: chars r
  end.

Definition iter (x : value) : result (list value) :=
  match x with
  | VList l => inr l
  | VStr s => inr (chars s)
  | VDict d => inr (map (fun kv => VStr (fst kv)) d)
  | _ => raise TypeError "object is not iterable"
  end.

(** [hash(x)] succeeds: lists and dictionaries are unhashable. *)
Definition hashable (x : value) : bool :=
  match x with
  | VList _ | VDict _ => false
  | _ => true
  end.

(** [x == name] for a string literal [name]: only a string is equal to
    a string. *)
Definition eq_str (x : value) (name : string) : bool :=
  match x with
  | VStr s => String.eqb s name
  | _ => false
  end.

(** [m.get(k, default)] on a dictionary literal [m] whose keys are
    strings: the key is hashed first, and only a string finds an entry. *)
Definition literal_get {A : Type} (m : list (string * A)) (k : value)
    (default : A) : result A :=
  if hashable k then
    match k with
    | VStr s =>
        match find (fun kv => String.eqb s (fst kv)) m with
        | Some kv => inr (snd kv)
        | None => inr default
        end
    | _ => inr default
    end
  else raise TypeError "unhashable type".

(** A text given by its UTF-8 bytes. *)
Definition utf8 (bytes : list nat) : string :=
  fold_right (fun b s => String (ascii_of_nat b) s) EmptyString bytes.

End Py.

(* ================================================================== *)
(** ** [json.loads] *)
(* ================================================================== *)

(** The decoder of Python's standard library, for the JSON grammar:
    white space, [null], [true], [false], numbers, strings with their
    escapes, arrays and objects.  A number with a fraction or an exponent
    is a float, any other an integer.  An object becomes a dictionary in
    the order of its first occurrences, a repeated key keeping its last
    value.  The messages are those of the library without the position.
    Left out: the constants [NaN] and [Infinity], and escapes of code
    points above 255, which the alphabet of the embedding does not have;
    both are reported as decoding errors.  The recursion limit of the
    interpreter is left out as well: a deeply nested text is decoded,
    where the library raises [RecursionError]. *)
Module Json.

Inductive presult (A : Type) : Type :=
| POk (a : A) (rest : string)
| PErr (msg : string)
| PFuel.
Arguments POk {A} a rest.
Arguments PErr {A} msg.
Arguments PFuel {A}.

Definition pmap {A B : Type} (f : A -> B) (r : presult A) : presult B :=
  match r with
  | POk a rest => POk (f a) rest
  | PErr m => PErr m
  | PFuel => PFuel
  end.

Definition is_ws (c : ascii) : bool :=
  Ascii.eqb c " " || Ascii.eqb c tab || Ascii.eqb c newline
  || Ascii.eqb c carriage.

Fixpoint skip_ws (s : string) : string :=
  match s with
  | EmptyString => EmptyString
  | String c r => if is_ws c then skip_ws r else s
  end.

Definition is_digit (c : ascii) : bool :=
  let n := nat_of_ascii c in Nat.leb 48 n && Nat.leb n 57.

Definition digit_val (c : ascii) : Z := Z.of_nat (nat_of_ascii c - 48).

(** The longest prefix of digits, and what follows it. *)
Fixpoint span_digits (s : string) : string * string :=
  match s with
  | EmptyString => (EmptyString, EmptyString)
  | String c r =>
      if is_digit c
      then let (ds, rest) := span_digits r in (String c ds, rest)
      else (EmptyString, s)
  end.

Fixpoint Z_of_digits (acc : Z) (ds : string) : Z :=
  match ds with
  | EmptyString => acc
  | String c r => Z_of_digits (10 * acc + digit_val c) r
  end.

(** [head_is c s]: what follows [c] when [s] starts with it. *)
Definition head_is (c : ascii) (s : string) : option string :=
  match s with
  | String x r => if Ascii.eqb x c then Some r else None
  | EmptyString => None
  end.

(** The integer part: a single [0], or digits that start with [1]..[9]. *)
Definition int_part (s : string) : option (string * string) :=
  match s with
  | EmptyString => None
  | String c r =>
      if Ascii.eqb c "0" then Some ("0", r)
      else if is_digit c then Some (span_digits s)
      else None
  end.

(** The fraction, when a dot and at least one digit follow. *)
Definition frac_part (s : string) : option (string * string) :=
  match head_is "." s with
  | Some r =>
      match span_digits r with
      | (EmptyString, _) => None
      | (ds, rest) => Some (ds, rest)
      end
  | None => None
  end.

(** The exponent, when [e] or [E], an optional sign and at least one
    digit follow. *)
Definition exp_part (s : string) : option (Z * string) :=
  match s with
  | String c r =>
      if Ascii.eqb c "e" || Ascii.eqb c "E" then
        let (neg, r1) :=
          match head_is "-" r, head_is "+" r with
          | Some r', _ => (true, r')
          | None, Some r' => (false, r')
          | None, None => (false, r)
          end in
        match span_digits r1 with
        | (EmptyString, _) => None
        | (ds, rest) =>
            Some (if neg then (- Z_of_digits 0 ds)%Z else Z_of_digits 0 ds,
                  rest)
        end
      else None
  | EmptyString => None
  end.

(** The digits of a number after its sign. *)
Definition parse_unsigned (neg : bool) (s : string) : presult value :=
  let signed (z : Z) : Z := if neg then (- z)%Z else z in
  match int_part s with
  | None => PErr "Expecting value"
  | Some (ip, r1) =>
      match frac_part r1 with
      | None =>
          match exp_part r1 with
          | None => POk (VInt (signed (Z_of_digits 0 ip))) r1
          | Some (x, r3) => POk (VFloat (signed (Z_of_digits 0 ip)) x) r3
          end
      | Some (fp, r2) =>
          match exp_part r2 with
          | None =>
              POk (VFloat (signed (Z_of_digits 0 (ip ++ fp)))
                          (- Z.of_nat (String.length fp))) r2
          | Some (x, r3) =>
              POk (VFloat (signed (Z_of_digits 0 (ip ++ fp)))
                          (x - Z.of_nat (String.length fp))) r3
          end
      end
  end.

Definition parse_number (s : string) : presult value :=
  match head_is "-" s with
  | Some r => parse_unsigned true r
  | None => parse_unsigned false s
  end.

Definition hex_val (c : ascii) : option nat :=
  let n := nat_of_ascii c in
  if Nat.leb 48 n && Nat.leb n 57 then Some (n - 48)
  else if Nat.leb 97 n && Nat.leb n 102 then Some (n - 87)
  else if Nat.leb 65 n && Nat.leb n 70 then Some (n - 55)
  else None.

Definition hex4 (a b c d : ascii) : option nat :=
  match hex_val a, hex_val b, hex_val c, hex_val d with
  | Some x, Some y, Some z, Some w => Some (((x * 16 + y) * 16 + z) * 16 + w)
  | _, _, _, _ => None
  end.

(** The character a one-letter escape stands for. *)
Definition simple_escape (c : ascii) : option ascii :=
  if Ascii.eqb c dquote then Some dquote
  else if Ascii.eqb c backslash then Some backslash
  else if Ascii.eqb c "/" then Some "/"%char
  else if Ascii.eqb c "b" then Some (ascii_of_nat 8)
  else if Ascii.eqb c "f" then Some (ascii_of_nat 12)
  else if Ascii.eqb c "n" then Some newline
  else if Ascii.eqb c "r" then Some carriage
  else if Ascii.eqb c "t" then Some tab
  else None.

(** The characters of a string literal after its opening quote, up to the
    closing quote. *)
Fixpoint parse_string_body (s : string) : presult string :=
  match s with
  | EmptyString => PErr "Unterminated string starting at"
  | String c r =>
      if Ascii.eqb c dquote then POk EmptyString r
      else if Ascii.eqb c backslash then
        match r with
        | EmptyString => PErr "Unterminated string starting at"
        | String e r2 =>
            match simple_escape e with
            | Some ch => pmap (String ch) (parse_string_body r2)
            | None =>
                if Ascii.eqb e "u" then
                  match r2 with
                  | String h1 (String h2 (String h3 (String h4 r3))) =>
                      match hex4 h1 h2 h3 h4 with
                      | Some n =>
                          if Nat.ltb n 256
                          then pmap (String (ascii_of_nat n))
                                    (parse_string_body r3)
                          else PErr "Code point above 255"
                      | None => PErr "Invalid \uXXXX escape"
                      end
                  | _ => PErr "Invalid \uXXXX escape"
                  end
                else PErr "Invalid \escape"
            end
        end
      else if Nat.ltb (nat_of_ascii c) 32
      then PErr "Invalid control character at"
      else pmap (String c) (parse_string_body r)
  end.

(** [dict(pairs)] *)
Definition dict_of_pairs (kvs : list (string * value)) : dict :=
  fold_left (fun d kv => Py.dict_set d (fst kv) (snd kv)) kvs [].

(** The recursive descent, one production at a time; the arguments
    [pv], [pe] and [pm] are the productions for a nested value, for the
    elements of a nested array and for the members of a nested object.

    [value_step] reads one value at the head of [s]. *)
Definition value_step (pe : string -> presult (list value))
    (pm : string -> presult (list (string * value))) (s : string)
  : presult value :=
  match s with
  | EmptyString => PErr "Expecting value"
  | String c r =>
      if Ascii.eqb c dquote then pmap VStr (parse_string_body r)
      else if Ascii.eqb c "{" then
        match head_is "}" (skip_ws r) with
        | Some r' => POk (VDict []) r'
        | None => pmap (fun kvs => VDict (dict_of_pairs kvs))
                       (pm (skip_ws r))
        end
      else if Ascii.eqb c "[" then
        match head_is "]" (skip_ws r) with
        | Some r' => POk (VList []) r'
        | None => pmap VList (pe (skip_ws r))
        end
      else if String.prefix "null" s then POk VNone (drop 4 s)
      else if String.prefix "true" s then POk (VBool true) (drop 4 s)
      else if String.prefix "false" s then POk (VBool false) (drop 5 s)
      else if Ascii.eqb c "-" || is_digit c then parse_number s
      else PErr "Expecting value"
  end.

(** [elements_step] reads the elements of an array up to its closing
    bracket. *)
Definition elements_step (pv : string -> presult value)
    (pe : string -> presult (list value)) (s : string)
  : presult (list value) :=
  match pv s with
  | POk v r =>
      match head_is "," (skip_ws r), head_is "]" (skip_ws r) with
      | Some r', _ => pmap (cons v) (pe (skip_ws r'))
      | None, Some r' => POk [v] r'
      | None, None => PErr "Expecting ',' delimiter"
      end
  | PErr m => PErr m
  | PFuel => PFuel
  end.

(** [members_step] reads the members of an object up to its closing
    brace. *)
Definition members_step (pv : string -> presult value)
    (pm : string -> presult (list (string * value))) (s : string)
  : presult (list (string * value)) :=
  match head_is dquote s with
  | Some r =>
      match parse_string_body r with
      | POk k r1 =>
          match head_is ":" (skip_ws r1) with
          | Some r2 =>
              match pv (skip_ws r2) with
              | POk v r3 =>
                  match head_is "," (skip_ws r3), head_is "}" (skip_ws r3) with
                  | Some r4, _ => pmap (cons (k, v)) (pm (skip_ws r4))
                  | None, Some r4 => POk [(k, v)] r4
                  | None, None => PErr "Expecting ',' delimiter"
                  end
              | PErr m => PErr m
              | PFuel => PFuel
              end
          | None => PErr "Expecting ':' delimiter"
          end
      | PErr m => PErr m
      | PFuel => PFuel
      end
  | None => PErr "Expecting property name enclosed in double quotes"
  end.

(** Each call to a nested production takes one unit of [fuel]. *)
Fixpoint parse_value (fuel : nat) (s : string) : presult value :=
  match fuel with
  | O => PFuel
  | S f => value_step (parse_elements f) (parse_members f) s
  end

with parse_elements (fuel : nat) (s : string) : presult (list value) :=
  match fuel with
  | O => PFuel
  | S f => elements_step (parse_value f) (parse_elements f) s
  end

with parse_members (fuel : nat) (s : string)
  : presult (list (string * value)) :=
  match fuel with
  | O => PFuel
  | S f => members_step (parse_value f) (parse_members f) s
  end.

(** Fuel that no text exhausts (theorem [loads_never_out_of_fuel]). *)
Definition fuel_for (s : string) : nat := 2 + 2 * String.length s.

(** [json.loads(s)] *)
Definition loads (s : string) : result value :=
  match parse_value (fuel_for s) (skip_ws s) with
  | POk v r =>
      match skip_ws r with
      | EmptyString => inr v
      | _ => raise JSONDecodeError "Extra data"
      end
  | PErr m => raise JSONDecodeError m
  | PFuel => raise RecursionError "maximum recursion depth exceeded"
  end.

End Json.

(* ================================================================== *)
(** ** The outside world and the trace of calls *)
(* ================================================================== *)

(** What leaves the process: a request to the search provider
    ([client.search]), a request to the completion provider
    ([chat.completions.create]), and an invocation of the caller's
    progress callback. *)
Inductive event : Type :=
| EvSearch (api_key : string) (query : value) (search_depth : string)
           (max_results : Z) (include_answer : bool)
| EvCompletion (api_key base_url model prompt : string)
               (temperature : Z * Z) (max_tokens : Z)
| EvProgress (current total : Z) (claim_preview : string).

Definition is_network_call (ev : event) : bool :=
  match ev with
  | EvSearch _ _ _ _ _ | EvCompletion _ _ _ _ _ _ => true
  | EvProgress _ _ _ => false
  end.

Definition is_completion_call (ev : event) : bool :=
  match ev with
  | EvCompletion _ _ _ _ _ _ => true
  | _ => false
  end.

(** The requests the providers have received so far. *)
Definition network_calls (h : list event) : list event :=
  filter is_network_call h.

(** The environment of a run.
    - [secrets]: the secrets store, [None] when reading it raises (no
      secrets file).
    - [tavily_search calls key query n]: the answer of the search
      provider, given the requests made before; it returns the decoded
      response or raises.
    - [chat_completion calls key model prompt n]: the answer of the
      completion provider: the [message.content] of each element of
      [response.choices] ([None] for a missing content), or an
      exception. *)
Record world : Type := World {
  secrets : option (list (string * string));
  tavily_search : list event -> string -> value -> Z -> result value;
  chat_completion :
    list event -> string -> string -> string -> Z -> result (list (option string))
}.

(** A progress callback: given the trace and its three arguments, it
    returns ([None]) or raises. *)
Definition callback : Type := list event -> Z -> Z -> string -> option exn.

(** Computations over the trace that may raise. *)
Definition M (A : Type) : Type := list event -> result A * list event.

Definition ret {A : Type} (a : A) : M A := fun h => (inr a, h).

Definition bind {A B : Type} (m : M A) (k : A -> M B) : M B :=
  fun h =>
    match m h with
    | (inr a, h') => k a h'
    | (inl e, h') => (inl e, h')
    end.

Definition lift {A : Type} (r : result A) : M A := fun h => (r, h).

(** [try: m  except Exception as e: handler e] *)
Definition try_except {A : Type} (m : M A) (handler : exn -> M A) : M A :=
  fun h =>
    match m h with
    | (inr a, h') => (inr a, h')
    | (inl e, h') => handler e h'
    end.

Notation "x <- c1 ;; c2" := (bind c1 (fun x => c2))
  (at level 61, c1 at next level, right associativity).

(** [st.secrets.get(key, default)] *)
Definition secrets_get (W : world) (key default : string) : result string :=
  match secrets W with
  | None => raise (OtherError "StreamlitSecretNotFoundError") "No secrets found."
  | Some tbl =>
      match find (fun kv => String.eqb key (fst kv)) tbl with
      | Some kv => inr (snd kv)
      | None => inr default
      end
  end.

(** The block both gateways start with:
    [try: api_key = st.secrets.get(key, "")  except Exception: api_key = ""] *)
Definition read_api_key (W : world) (key : string) : string :=
  match secrets_get W key "" with
  | inr v => v
  | inl _ => ""
  end.

(** The handle of an OpenAI-compatible client. *)
Record openai_client : Type := OpenAI { api_key : string; base_url : string }.

(** The normalisation of a completion that [extract_claims]
    (claim_extractor.py, lines 95-102) and [verify_claim]
    (fact_verifier.py, lines 172-179) both apply before [json.loads]:
    [[
        content = <message content>.strip()
        if content.startswith("```"):
            content = content.split("```")[1]
            if content.startswith("json"):
                content = content[4:]
        content = content.strip()
    ]] *)
Definition strip_code_fence (raw : string) : result string :=
  let content := strip raw in
  if startswith content "```" then
    match nth_error (split "```" content) 1 with
    | None => raise IndexError "list index out of range"
    | Some content =>
        let content :=
          if startswith content "json" then drop 4 content else content in
        inr (strip content)
    end
  else inr (strip content).

(** [response.choices[0].message.content.strip()] followed by the
    normalisation above. *)
Definition message_content (choices : list (option string)) : result string :=
  match choices with
  | [] => raise IndexError "list index out of range"
  | None :: _ =>
      raise AttributeError "'NoneType' object has no attribute 'strip'"
  | Some raw :: _ => strip_code_fence raw
  end.

(* ================================================================== *)
(** ** claim_extractor.py *)
(* ================================================================== *)

Module ClaimExtractor.

Definition get_openai_client (W : world) : result openai_client :=
  let api_key := read_api_key W "OPENROUTER_API_KEY" in
  if String.eqb api_key "" then
    raise ValueError
      "API key not found in secrets. Please configure OPENROUTER_API_KEY."
  else inr (OpenAI api_key "https://openrouter.ai/api/v1").

Definition get_model_name (W : world) : string :=
  match secrets_get W "OpenAi_API_KEY" "google/gemma-2-9b-it" with
  | inr model => model
  | inl _ => "google/gemma-2-9b-it"
  end.

(** [CLAIM_EXTRACTION_PROMPT], the template up to its field
    [{document_text}] and after it. *)
Definition extraction_prompt_head : string :=
  join nl [
    "You are an expert fact-checker. Analyze the following document text and extract ALL verifiable claims that can be fact-checked against real-world data.";
    "";
    "Focus on extracting:";
    "1. Statistics and numerical data (percentages, amounts, counts)";
    "2. Dates and timelines (when events occurred or will occur)";
    "3. Financial figures (prices, GDP, market values, stock prices)";
    "4. Technical specifications and product details";
    "5. Company/organization statements and announcements";
    "6. Scientific or factual assertions";
    "";
    "For EACH claim, provide:";
    "- claim: The exact claim as stated in the document";
    "- category: One of [Statistics, Date/Timeline, Financial, Technical, Organizational, Scientific]";
    "- context: Brief context about what the claim relates to";
    "- verification_query: A specific search query to verify this claim";
    "";
    "Return your response as a JSON array of claim objects.";
    "";
    "DOCUMENT TEXT:";
    ""
  ].

Definition extraction_prompt_tail : string :=
  join nl [
    "";
    "";
    "IMPORTANT: Extract ALL factual claims, especially those involving specific numbers, dates, or named entities. Be thorough - the goal is to verify every checkable fact in the document.";
    "";
    "Return ONLY valid JSON array, no additional text."
  ].

(** [CLAIM_EXTRACTION_PROMPT.format(document_text=document_text)] *)
Definition CLAIM_EXTRACTION_PROMPT (document_text : string) : string :=
  extraction_prompt_head ++ document_text ++ extraction_prompt_tail.

Definition max_chars : Z := 50000.

(** Lines 76-79: the text that goes into the prompt. *)
Definition truncate_document (document_text : string) : string :=
  if Z.ltb max_chars (Z.of_nat (String.length document_text))
  then take (Z.to_nat max_chars) document_text ++ nl ++ "...[truncated]"
  else document_text.

(** The body of the [try] block, lines 82-109. *)
Definition request_claims (W : world) (client : openai_client)
    (document_text : string) : M (list value) :=
  fun h =>
    let model_name := get_model_name W in
    let prompt := CLAIM_EXTRACTION_PROMPT document_text in
    let h' :=
      (h ++ [EvCompletion (api_key client) (base_url client) model_name prompt
                        (1, -1)%Z 4000])%list in
    match chat_completion W (network_calls h) (api_key client) model_name
                          prompt 4000 with
    | inl e => (inl e, h')
    | inr choices =>
        match message_content choices with
        | inl e => (inl e, h')
        | inr content =>
            match Json.loads content with
            | inl e => (inl e, h')
            | inr (VList claims) => (inr claims, h')
            | inr claims => (inr [claims], h')
            end
        end
    end.

Definition extract_claims (W : world) (document_text : string)
  : M (list value) :=
  client <- lift (get_openai_client W) ;;
  let document_text := truncate_document document_text in
  try_except (request_claims W client document_text)
    (fun e =>
       if is_json_decode_error e then
         lift (raise ValueError
                 ("Failed to parse LLM response as JSON: " ++ exn_str e))
       else
         lift (raise ValueError ("Claim extraction failed: " ++ exn_str e))).

End ClaimExtractor.

(* ================================================================== *)
(** ** fact_verifier.py *)
(* ================================================================== *)

Module FactVerifier.

(** The API key the Tavily client is built with. *)
Definition get_tavily_client (W : world) : result string :=
  let api_key := read_api_key W "TAVILY_API_KEY" in
  if String.eqb api_key "" then
    raise ValueError
      "Tavily API key not found in secrets. Please configure TAVILY_API_KEY."
  else inr api_key.

Definition get_openai_client (W : world) : result openai_client :=
  let api_key := read_api_key W "OPENROUTER_API_KEY" in
  if String.eqb api_key "" then
    raise ValueError
      "API key not found in secrets. Please configure OPENROUTER_API_KEY."
  else inr (OpenAI api_key "https://openrouter.ai/api/v1").

Definition get_model_name (W : world) : string :=
  match secrets_get W "OpenAi_API_KEY" "google/gemma-2-9b-it" with
  | inr model => model
  | inl _ => "google/gemma-2-9b-it"
  end.

Definition search_web (W : world) (query : value) (num_results : Z)
  : M value :=
  client <- lift (get_tavily_client W) ;;
  fun h =>
    let h' := (h ++ [EvSearch client query "advanced" num_results true])%list in
    match tavily_search W (network_calls h) client query num_results with
    | inr response => (inr response, h')
    | inl e => (raise ValueError ("Web search failed: " ++ exn_str e), h')
    end.

(** [VERIFICATION_PROMPT.format(claim=..., context=..., search_results=...)] *)
Definition VERIFICATION_PROMPT (claim context search_results : string)
  : string :=
  join nl [
    "You are an expert fact-checker. Analyze the following claim against the search results and determine its accuracy.";
    "";
    "CLAIM TO VERIFY:";
    claim;
    "";
    "CLAIM CONTEXT:";
    context;
    "";
    "SEARCH RESULTS:";
    search_results;
    "";
    "Analyze the claim and search results, then provide your assessment in the following JSON format:";
    "{";
    "    " ++ quoted "status" ++ ": " ++ quoted "Verified" ++ " | "
      ++ quoted "Inaccurate" ++ " | " ++ quoted "False" ++ " | "
      ++ quoted "Unverifiable" ++ ",";
    "    " ++ quoted "confidence" ++ ": 0.0-1.0,";
    "    " ++ quoted "explanation" ++ ": "
      ++ quoted "Brief explanation of why this claim is verified/inaccurate/false"
      ++ ",";
    "    " ++ quoted "correct_information" ++ ": "
      ++ quoted "If the claim is inaccurate or false, provide the correct information found. Otherwise, leave empty."
      ++ ",";
    "    " ++ quoted "sources" ++ ": ["
      ++ quoted "List of source URLs that support your conclusion" ++ "]";
    "}";
    "";
    "IMPORTANT GUIDELINES:";
    "- " ++ quoted "Verified" ++ ": The claim matches current, reliable data";
    "- " ++ quoted "Inaccurate"
      ++ ": The claim contains outdated or partially incorrect information (e.g., old statistics)";
    "- " ++ quoted "False"
      ++ ": The claim is demonstrably wrong or no evidence supports it";
    "- " ++ quoted "Unverifiable"
      ++ ": Cannot determine accuracy from available sources";
    "";
    "Pay special attention to:";
    "- Dates and whether information might be outdated";
    "- Specific numbers that may have changed";
    "- Events that may or may not have occurred";
    "";
    "Return ONLY valid JSON, no additional text."
  ].

(** The dictionary both [except] branches of [verify_claim] return
    (lines 127-135 and 190-198); they differ by the explanation. *)
Definition unverifiable (claim_text category : value) (explanation : string)
  : value :=
  VDict [
    ("claim", claim_text);
    ("category", category);
    ("status", VStr "Unverifiable");
    ("confidence", VFloat 0 (-1));
    ("explanation", VStr explanation);
    ("correct_information", VStr "");
    ("sources", VList [])
  ].

(** One entry of the evidence block, lines 143-147. *)
Definition format_result (r : value) : result string :=
  match r with
  | VDict d =>
      inr ("Source: " ++ Py.str (Py.dict_get d "url" (VStr "Unknown")) ++ nl
           ++ "Title: " ++ Py.str (Py.dict_get d "title" (VStr "No title")) ++ nl
           ++ "Content: "
           ++ Py.str (Py.dict_get d "content" (VStr "No content")) ++ nl)
  | _ => raise AttributeError "object has no attribute 'get'"
  end.

Fixpoint format_results (rs : list value) : result (list string) :=
  match rs with
  | [] => inr []
  | r :: rest =>
      match format_result r with
      | inl e => inl e
      | inr t =>
          match format_results rest with
          | inl e => inl e
          | inr ts => inr (t :: ts)
          end
      end
  end.

(** Lines 137-149: the evidence block handed to the model. *)
Definition format_search_results (search_results : value) : result string :=
  match search_results with
  | VDict d =>
      let summary :=
        if Py.truthy (Py.dict_get d "answer" VNone)
        then ["AI Summary: " ++ Py.str (Py.dict_get d "answer" VNone)]
        else [] in
      match Py.slice_to 5 (Py.dict_get d "results" (VList [])) with
      | inl e => inl e
      | inr top =>
          match Py.iter top with
          | inl e => inl e
          | inr rs =>
              match format_results rs with
              | inl e => inl e
              | inr entries => inr (join (nl ++ nl) (summary ++ entries)%list)
              end
          end
      end
  | _ => raise AttributeError "object has no attribute 'get'"
  end.

(** The body of the second [try] block, lines 155-187. *)
Definition judge (W : world) (client : openai_client)
    (claim_text context category : value) (search_text : string) : M value :=
  fun h =>
    let model_name := get_model_name W in
    let prompt :=
      VERIFICATION_PROMPT (Py.str claim_text) (Py.str context) search_text in
    let h' :=
      (h ++ [EvCompletion (api_key client) (base_url client) model_name prompt
                        (1, -1)%Z 1000])%list in
    match chat_completion W (network_calls h) (api_key client) model_name
                          prompt 1000 with
    | inl e => (inl e, h')
    | inr choices =>
        match message_content choices with
        | inl e => (inl e, h')
        | inr content =>
            match Json.loads content with
            | inl e => (inl e, h')
            | inr parsed =>
                match Py.set_item parsed "claim" claim_text with
                | inl e => (inl e, h')
                | inr r1 => (Py.set_item r1 "category" category, h')
                end
            end
        end
    end.

Definition verify_claim (W : world) (claim : value) : M value :=
  claim_text <- lift (Py.get claim "claim" (VStr "")) ;;
  context <- lift (Py.get claim "context" (VStr "")) ;;
  query <- lift (Py.get claim "verification_query" claim_text) ;;
  category <- lift (Py.get claim "category" (VStr "Unknown")) ;;
  fun h =>
    match search_web W query 5 h with
    | (inl e, h1) =>
        (inr (unverifiable claim_text category
                ("Could not search web: " ++ exn_str e)), h1)
    | (inr search_results, h1) =>
        (search_text <- lift (format_search_results search_results) ;;
         openai_client <- lift (get_openai_client W) ;;
         try_except
           (judge W openai_client claim_text context category search_text)
           (fun e =>
              ret (unverifiable claim_text category
                     ("Verification analysis failed: " ++ exn_str e)))) h1
    end.

(** [claim.get("claim", "")[:50] + "..."], the third argument of the
    callback. *)
Definition claim_preview (claim : value) : result string :=
  match Py.get claim "claim" (VStr "") with
  | inl e => inl e
  | inr (VStr s) => inr (take 50 s ++ "...")
  | inr (VList _) =>
      raise TypeError "can only concatenate list (not 'str') to list"
  | inr _ => raise TypeError "object is not subscriptable"
  end.

(** [if progress_callback: progress_callback(i, total, preview)] *)
Definition report_progress (cb : option callback) (i total : Z)
    (claim : value) : M unit :=
  match cb with
  | None => ret tt
  | Some f =>
      preview <- lift (claim_preview claim) ;;
      fun h =>
        let h' := (h ++ [EvProgress i total preview])%list in
        match f h i total preview with
        | None => (inr tt, h')
        | Some e => (inl e, h')
        end
  end.

(** The loop of [verify_all_claims] from index [i] on. *)
Fixpoint verify_from (W : world) (cb : option callback) (total : Z)
    (i : Z) (claims : list value) : M (list value) :=
  match claims with
  | [] => ret []
  | claim :: rest =>
      _ <- report_progress cb i total claim ;;
      result <- verify_claim W claim ;;
      results <- verify_from W cb total (i + 1)%Z rest ;;
      ret (result :: results)
  end.

Definition verify_all_claims (W : world) (claims : list value)
    (progress_callback : option callback) : M (list value) :=
  verify_from W progress_callback (Z.of_nat (List.length claims)) 0%Z claims.

(** The four signs of the status maps: U+2705, U+26A0 U+FE0F, U+274C
    and U+2753. *)
Definition check_mark : string := Py.utf8 [226; 156; 133].
Definition warning : string := Py.utf8 [226; 154; 160; 239; 184; 143].
Definition cross_mark : string := Py.utf8 [226; 157; 140].
Definition question_mark : string := Py.utf8 [226; 157; 147].

(** [get_status_emoji], lines 225-233. *)
Definition get_status_emoji (status : value) : result string :=
  Py.literal_get
    [("Verified", check_mark); ("Inaccurate", warning);
     ("False", cross_mark); ("Unverifiable", question_mark)]
    status question_mark.

(** [get_status_color], lines 236-244. *)
Definition get_status_color (status : value) : result string :=
  Py.literal_get
    [("Verified", "green"); ("Inaccurate", "orange");
     ("False", "red"); ("Unverifiable", "gray")]
    status "gray".

End FactVerifier.

(* ================================================================== *)
(** ** pdf_processor.py *)
(* ================================================================== *)

Module PdfProcessor.

Fixpoint page_blocks (page_num : Z) (pages : list (option string))
  : list string :=
  match pages with
  | [] => []
  | page_text :: rest =>
      match page_text with
      | Some t =>
          if String.eqb t "" then page_blocks (page_num + 1)%Z rest
          else ("--- Page " ++ str_of_Z page_num ++ " ---" ++ nl ++ t)
               :: page_blocks (page_num + 1)%Z rest
      | None => page_blocks (page_num + 1)%Z rest
      end
  end.

(** [pages] is what pdfplumber yields for the uploaded file: the result
    of [extract_text] on each page, or the exception raised on the way. *)
Definition extract_text_from_pdf (pages : result (list (option string)))
  : result string :=
  match pages with
  | inl e => raise ValueError ("Failed to extract text from PDF: " ++ exn_str e)
  | inr ps =>
      match page_blocks 1 ps with
      | [] =>
          raise ValueError
            "No text could be extracted from the PDF. The document may be scanned or image-based."
      | text_content => inr (join (nl ++ nl) text_content)
      end
  end.

(** The uploaded file as pdfplumber presents it: [pdfplumber.open]
    raises, or gives the pages, each with the outcome of its
    [extract_text]. *)
Definition document : Type := result (list (result (option string))).

(** What the loop of [extract_text_from_pdf] reads from the pages: their
    texts, or the first exception on the way. *)
Fixpoint read_pages (pages : list (result (option string)))
  : result (list (option string)) :=
  match pages with
  | [] => inr []
  | page :: rest =>
      match page with
      | inl e => inl e
      | inr page_text =>
          match read_pages rest with
          | inl e => inl e
          | inr texts => inr (page_text :: texts)
          end
      end
  end.

Definition page_texts (doc : document) : result (list (option string)) :=
  match doc with
  | inl e => inl e
  | inr pages => read_pages pages
  end.

(** [get_pdf_info], lines 38-63: the number of pages, and whether the
    first page has text other than white space. *)
Definition get_pdf_info (doc : document) : result value :=
  match doc with
  | inl e => raise ValueError ("Failed to read PDF: " ++ exn_str e)
  | inr pages =>
      let num_pages := VInt (Z.of_nat (List.length pages)) in
      match pages with
      | [] => inr (VDict [("num_pages", num_pages); ("has_text", VBool false)])
      | inl e :: _ => raise ValueError ("Failed to read PDF: " ++ exn_str e)
      | inr first_page_text :: _ =>
          let has_text :=
            match first_page_text with
            | None => false
            | Some t =>
                if String.eqb t "" then false
                else negb (String.eqb (strip t) "")
            end in
          inr (VDict [("num_pages", num_pages); ("has_text", VBool has_text)])
      end
  end.

End PdfProcessor.

(* ================================================================== *)
(** ** app.py: the analysis action of [main] *)
(* ================================================================== *)

Module App.

(** What the page shows through [st.error] and [st.info]. *)
Inductive message : Type :=
| StError (text : string)
| StInfo (text : string).

Definition is_error (m : message) : bool :=
  match m with StError _ => true | StInfo _ => false end.

Definition message_text (m : message) : string :=
  match m with StError t | StInfo t => t end.

Definition get_secret (W : world) (key default : string) : string :=
  match secrets_get W key default with
  | inr v => v
  | inl _ => default
  end.

(** The warning sign that opens the error message, U+26A0 U+FE0F, as its
    UTF-8 bytes. *)
Definition warning_sign : string :=
  String (ascii_of_nat 226) (String (ascii_of_nat 154)
  (String (ascii_of_nat 160) (String (ascii_of_nat 239)
  (String (ascii_of_nat 184) (String (ascii_of_nat 143) ""))))).

Definition keys_error : message :=
  StError (warning_sign
           ++ " Please configure API keys in Streamlit secrets to use this app.").

Definition keys_info : message :=
  StInfo "Add OPENROUTER_API_KEY and TAVILY_API_KEY to your secrets.toml file or Streamlit Cloud secrets.".

(** [priority_order], line 372. *)
Definition priority_order : list (string * Z) :=
  [("False", 0); ("Inaccurate", 1); ("Unverifiable", 2); ("Verified", 3)]%Z.

(** [priority_order.get(k, 4)]: the key is hashed first. *)
Definition priority_get (k : value) (default : Z) : result Z :=
  if Py.hashable k then
    match k with
    | VStr s =>
        match find (fun kv => String.eqb s (fst kv)) priority_order with
        | Some kv => inr (snd kv)
        | None => inr default
        end
    | _ => inr default
    end
  else raise TypeError "unhashable type".

(** [lambda x: priority_order.get(x.get("status", ""), 4)] *)
Definition sort_key (x : value) : result Z :=
  match Py.get x "status" (VStr "") with
  | inl e => inl e
  | inr status => priority_get status 4
  end.

(** [sorted(xs, key=f)]: the keys are computed once, from left to right,
    and the items are put in non-decreasing order of key by a stable
    sort. *)
Fixpoint decorate (xs : list value) : result (list (Z * value)) :=
  match xs with
  | [] => inr []
  | x :: rest =>
      match sort_key x with
      | inl e => inl e
      | inr k =>
          match decorate rest with
          | inl e => inl e
          | inr kxs => inr ((k, x) :: kxs)
          end
      end
  end.

Fixpoint insert (kx : Z * value) (l : list (Z * value)) : list (Z * value) :=
  match l with
  | [] => [kx]
  | ky :: r =>
      if Z.leb (fst kx) (fst ky) then kx :: l else ky :: insert kx r
  end.

Fixpoint stable_sort (l : list (Z * value)) : list (Z * value) :=
  match l with
  | [] => []
  | kx :: r => insert kx (stable_sort r)
  end.

Definition sorted_results (results : list value) : result (list value) :=
  match decorate results with
  | inl e => inl e
  | inr kxs => inr (map snd (stable_sort kxs))
  end.

(** The payload of the download button: [data=str(results)]. *)
Definition download_data (results : list value) : string :=
  Py.str (VList results).

(** [update_progress] moves the progress bar and writes a line; it
    returns normally. *)
Definition update_progress : callback := fun _ _ _ _ => None.

(** How a click on the analysis button ends, up to the display list and
    the download payload.  [Done] says that the pipeline and the sort
    returned; the widgets [main] then draws from the display list
    ([display_result]) are outside the embedding, and they can still
    raise on a verdict whose fields are not of the expected types. *)
Inductive outcome : Type :=
| Blocked (shown : list message)
| Failed (shown : message)
| Crashed (e : exn)
| Done (display : list value) (download : string).

(** Lines 332-352, inside the [try]. *)
Definition pipeline (W : world) (pages : result (list (option string)))
  : M (list value) :=
  document_text <- lift (PdfProcessor.extract_text_from_pdf pages) ;;
  claims <- ClaimExtractor.extract_claims W document_text ;;
  FactVerifier.verify_all_claims W claims (Some update_progress).

(** Lines 323-387 of [main]: the key check, the pipeline, the severity
    sort and the download payload.  The rendering of the page
    ([display_stats], [display_result], the progress bar) is left out. *)
Definition analyze (W : world) (pages : result (list (option string)))
    (h : list event) : outcome * list event :=
  let openai_key := get_secret W "OPENROUTER_API_KEY" "" in
  if String.eqb openai_key "" || String.eqb (get_secret W "TAVILY_API_KEY" "") ""
  then (Blocked [keys_error; keys_info], h)
  else
    match pipeline W pages h with
    | (inl e, h') => (Failed (StError ("An error occurred: " ++ exn_str e)), h')
    | (inr results, h') =>
        match sorted_results results with
        | inl e => (Crashed e, h')
        | inr display => (Done display (download_data results), h')
        end
    end.

(** [sum(1 for r in results if r.get("status") == name)] *)
Fixpoint count_status (name : string) (results : list value) : result Z :=
  match results with
  | [] => inr 0%Z
  | r :: rest =>
      match Py.get r "status" VNone with
      | inl e => inl e
      | inr status =>
          match count_status name rest with
          | inl e => inl e
          | inr n => inr (if Py.eq_str status name then n + 1 else n)%Z
          end
      end
  end.

(** [display_stats], lines 161-166: the four numbers the cards show, for
    "Verified", "Inaccurate", "False" and "Unverifiable" in this order.
    The markup around them is left out. *)
Definition display_stats (results : list value) : result (Z * Z * Z * Z) :=
  match count_status "Verified" results with
  | inl e => inl e
  | inr verified =>
      match count_status "Inaccurate" results with
      | inl e => inl e
      | inr inaccurate =>
          match count_status "False" results with
          | inl e => inl e
          | inr false' =>
              match count_status "Unverifiable" results with
              | inl e => inl e
              | inr unverifiable =>
                  inr (verified, inaccurate, false', unverifiable)
              end
          end
      end
  end.

(** [get_status_badge], lines 203-213. *)
Definition get_status_badge (status : value) : result string :=
  match
    Py.literal_get
      [("Verified", "status-verified"); ("Inaccurate", "status-inaccurate");
       ("False", "status-false"); ("Unverifiable", "status-unverifiable")]
      status "status-unverifiable"
  with
  | inl e => inl e
  | inr css_class =>
      match FactVerifier.get_status_emoji status with
      | inl e => inl e
      | inr emoji =>
          inr ("<span class=" ++ quoted css_class ++ ">" ++ emoji ++ " "
               ++ Py.str status ++ "</span>")
      end
  end.

End App.

(* ================================================================== *)
(** ** Vocabulary of the properties *)
(* ================================================================== *)

(** The fields of a verdict, read as [verdict.get(field)]. *)
Definition field (name : string) (verdict : value) : value :=
  match verdict with
  | VDict d => Py.dict_get d name VNone
  | _ => VNone
  end.

(** The four values of the status enumeration. *)
Definition valid_status (verdict : value) : bool :=
  match field "status" verdict with
  | VStr s =>
      String.eqb s "Verified" || String.eqb s "Inaccurate"
      || String.eqb s "False" || String.eqb s "Unverifiable"
  | _ => false
  end.

(** [0 <= m * 10^e <= 1] *)
Definition in_unit_interval (m e : Z) : bool :=
  (Z.leb 0 m &&
   if Z.leb 0 e then Z.leb (m * 10 ^ e) 1 else Z.leb m (10 ^ (- e)))%Z.

(** The confidence is a number between 0 and 1. *)
Definition valid_confidence (verdict : value) : bool :=
  match field "confidence" verdict with
  | VFloat m e => in_unit_interval m e
  | VInt z => Z.leb 0 z && Z.leb z 1
  | _ => false
  end.

(** The query [verify_claim] searches for, lines 119-121. *)
Definition query_of (d : dict) : value :=
  Py.dict_get d "verification_query" (Py.dict_get d "claim" (VStr "")).

Definition claim_text_of (d : dict) : value := Py.dict_get d "claim" (VStr "").
Definition context_of (d : dict) : value := Py.dict_get d "context" (VStr "").
Definition category_of (d : dict) : value :=
  Py.dict_get d "category" (VStr "Unknown").

Definition is_dict (x : value) : bool :=
  match x with VDict _ => true | _ => false end.

(** A search response of the documented shape: a dictionary whose
    [results], when present, is a list with dictionaries in its first
    five places. *)
Definition well_formed_response (r : value) : bool :=
  match r with
  | VDict d =>
      match Py.dict_get d "results" (VList []) with
      | VList l => forallb is_dict (firstn 5 l)
      | _ => false
      end
  | _ => false
  end.

(** A completion wrapped in a code fence, with the language tag [tag]
    on the opening fence. *)
Definition fenced (tag payload : string) : string :=
  "```" ++ tag ++ nl ++ payload ++ nl ++ "```".

(** The parse step of both modules: normalise, then decode. *)
Definition parse_response (raw : string) : result value :=
  match strip_code_fence raw with
  | inl e => inl e
  | inr content => Json.loads content
  end.

(** The status a verdict is sorted by. *)
Definition status_of (verdict : value) : value :=
  match verdict with
  | VDict d => Py.dict_get d "status" (VStr "")
  | _ => VStr ""
  end.

Definition has_status (s : string) (verdict : value) : bool :=
  match status_of verdict with
  | VStr s' => String.eqb s' s
  | _ => false
  end.

Definition other_status (verdict : value) : bool :=
  negb (has_status "False" verdict || has_status "Inaccurate" verdict
        || has_status "Unverifiable" verdict || has_status "Verified" verdict).

(** A verdict the sort key is defined on: a dictionary whose status can
    be hashed. *)
Definition sortable (verdict : value) : bool :=
  match verdict with
  | VDict d => Py.hashable (Py.dict_get d "status" (VStr ""))
  | _ => false
  end.

(** A text that does not start with white space. *)
Definition starts_clean (s : string) : Prop :=
  match s with
  | EmptyString => True
  | String c _ => isspace c = false
  end.

(** The sort key as a total function of the status. *)
Definition priority (verdict : value) : Z :=
  match status_of verdict with
  | VStr s =>
      match find (fun kv => String.eqb s (fst kv)) App.priority_order with
      | Some kv => snd kv
      | None => 4%Z
      end
  | _ => 4%Z
  end.

(** The items of priority [k], in their order. *)
Definition of_priority (k : Z) (l : list value) : list value :=
  filter (fun v => Z.eqb (priority v) k) l.

(** The stable insertion sort, on the items themselves. *)
Fixpoint insert_by_priority (x : value) (l : list value) : list value :=
  match l with
  | [] => [x]
  | y :: r =>
      if Z.leb (priority x) (priority y) then x :: l
      else y :: insert_by_priority x r
  end.

Fixpoint sort_by_priority (l : list value) : list value :=
  match l with
  | [] => []
  | x :: r => insert_by_priority x (sort_by_priority r)
  end.

(** A text ends cleanly when it is not empty and [rstrip] leaves it as it
    is. *)
Definition clean_end (u : string) : Prop := u <> "" /\ rstrip u = u.

(** What may follow a run of digits: anything but a digit. *)
Definition after_digits (t : string) : bool :=
  match t with
  | EmptyString => true
  | String c _ => negb (Json.is_digit c)
  end.

(** What may follow a number: anything but a digit, a dot or an exponent
    mark. *)
Definition after_number (t : string) : bool :=
  match t with
  | EmptyString => true
  | String c _ =>
      negb (Json.is_digit c || Ascii.eqb c "." || Ascii.eqb c "e"
            || Ascii.eqb c "E")
  end.

(** A production is local when it reads a text [u] and nothing beyond:
    whatever follows [u], as long as [ok] accepts it, is handed back
    untouched. *)
Definition local {A : Type} (ok : string -> bool)
    (p : string -> Json.presult A) : Prop :=
  forall s a r,
    p s = Json.POk a r ->
    exists u,
      s = u ++ r /\ clean_end u
      /\ forall t, ok t = true -> p (u ++ t) = Json.POk a t.

Definition any_text (t : string) : bool := true.

(** Two productions agree wherever the first one has fuel enough to
    answer. *)
Definition agree {A : Type} (p p' : string -> Json.presult A) : Prop :=
  forall s, p s <> Json.PFuel -> p' s = p s.

(** Both key names occur in a text. *)
Definition names_both_keys (text : string) : bool :=
  contains "OPENROUTER_API_KEY" text && contains "TAVILY_API_KEY" text.

(** The verdicts of a batch, one after the other: each claim is reported
    and verified in the trace the previous one left. *)
Inductive verified_in_order (W : world) (cb : option callback) (total : Z)
  : Z -> list value -> list event -> list value -> list event -> Prop :=
| vio_nil : forall i h, verified_in_order W cb total i [] h [] h
| vio_cons : forall i claim claims h h1 h2 h3 verdict verdicts,
    FactVerifier.report_progress cb i total claim h = (inr tt, h1) ->
    FactVerifier.verify_claim W claim h1 = (inr verdict, h2) ->
    verified_in_order W cb total (i + 1)%Z claims h2 verdicts h3 ->
    verified_in_order W cb total i (claim :: claims) h (verdict :: verdicts) h3.

(** The invocations of the progress callback in a trace. *)
Definition progress_calls (h : list event) : list event :=
  filter (fun ev => negb (is_network_call ev)) h.

(** The preview of a claim, when it has one. *)
Definition preview_of (claim : value) : string :=
  match FactVerifier.claim_preview claim with
  | inr preview => preview
  | inl _ => ""
  end.

(** One invocation per claim: the claim at position [i], counted from
    [start], is reported with index [i], the size of the batch and its
    preview. *)
Definition expected_progress (total : Z) (start : nat) (claims : list value)
  : list event :=
  map (fun ic => EvProgress (Z.of_nat (fst ic)) total (preview_of (snd ic)))
      (combine (seq start (List.length claims)) claims).

(** [if page_text:] on what [extract_text] gave for a page. *)
Definition page_has_text (page_text : option string) : bool :=
  match page_text with
  | Some t => negb (String.eqb t "")
  | None => false
  end.

(** A request as the program is configured to send it: a search with the
    Tavily key, depth "advanced", five results and the answer included;
    a completion through OpenRouter with the OpenRouter key, the
    configured model, temperature 0.1 and 4000 or 1000 tokens. *)
Definition configured_request (W : world) (ev : event) : Prop :=
  match ev with
  | EvSearch key _ search_depth max_results include_answer =>
      key = read_api_key W "TAVILY_API_KEY"
      /\ search_depth = "advanced"
      /\ max_results = 5%Z
      /\ include_answer = true
  | EvCompletion key url model _ temperature max_tokens =>
      key = read_api_key W "OPENROUTER_API_KEY"
      /\ url = "https://openrouter.ai/api/v1"
      /\ model = FactVerifier.get_model_name W
      /\ temperature = (1, -1)%Z
      /\ (max_tokens = 4000%Z \/ max_tokens = 1000%Z)
  | EvProgress _ _ _ => True
  end.

(* ================================================================== *)
(** ** Sample environments *)
(* ================================================================== *)

Module Sample.

Definition both_keys : option (list (string * string)) :=
  Some [("OPENROUTER_API_KEY", "sk-or"); ("TAVILY_API_KEY", "tvly")].

(** An environment whose providers give the same answer to every
    request. *)
Definition constant_world (keys : option (list (string * string)))
    (search : result value) (completion : result (list (option string)))
  : world :=
  World keys (fun _ _ _ _ => search) (fun _ _ _ _ _ => completion).

Definition evidence : value :=
  VDict [("answer", VStr "Revenue grew 12% in 2023.");
         ("results",
          VList [VDict [("url", VStr "https://example.org/report");
                        ("title", VStr "Annual report");
                        ("content", VStr "Revenue grew 12%.")]])].

(** [{"status": "False", "confidence": 0.9, "explanation": "12%, not 40%",
      "correct_information": "12%", "sources": []}] *)
Definition judgment : string :=
  "{" ++ quoted "status" ++ ": " ++ quoted "False" ++ ", "
  ++ quoted "confidence" ++ ": 0.9, "
  ++ quoted "explanation" ++ ": " ++ quoted "12%, not 40%" ++ ", "
  ++ quoted "correct_information" ++ ": " ++ quoted "12%" ++ ", "
  ++ quoted "sources" ++ ": []}".

(** [{"status": "Maybe", "confidence": 7}] *)
Definition loose_judgment : string :=
  "{" ++ quoted "status" ++ ": " ++ quoted "Maybe" ++ ", "
  ++ quoted "confidence" ++ ": 7}".

Definition claim_dict : dict :=
  [("claim", VStr "Company X grew revenue 40% in 2023.");
   ("category", VStr "Financial");
   ("context", VStr "Annual results");
   ("verification_query", VStr "Company X revenue growth 2023")].

Definition claim : value := VDict claim_dict.

Definition timeout : exn := Exn (OtherError "TimeoutError") "timed out".

Definition healthy : world :=
  constant_world both_keys (inr evidence) (inr [Some judgment]).

Definition search_down : world :=
  constant_world both_keys (inl timeout) (inr [Some judgment]).

Definition no_judgment_key : world :=
  constant_world (Some [("TAVILY_API_KEY", "tvly")]) (inr evidence)
                 (inr [Some judgment]).

Definition no_search_key : world :=
  constant_world (Some [("OPENROUTER_API_KEY", "sk-or")]) (inr evidence)
                 (inr [Some judgment]).

Definition no_keys : world :=
  constant_world None (inr evidence) (inr [Some judgment]).

Definition loose_model : world :=
  constant_world both_keys (inr evidence) (inr [Some loose_judgment]).

(** The model answers in prose. *)
Definition garbled : world :=
  constant_world both_keys (inr evidence) (inr [Some "I cannot answer."]).

(** The completion provider times out. *)
Definition completion_down : world :=
  constant_world both_keys (inr evidence) (inl timeout).

(** An environment for the whole pipeline: the completion provider
    answers the extraction request (the one with [max_tokens=4000]) with
    [extraction] and every judgment request with [judgment]. *)
Definition scripted (extraction judgment : string) : world :=
  World both_keys
    (fun _ _ _ _ => inr evidence)
    (fun _ _ _ _ max_tokens =>
       if Z.eqb max_tokens 4000 then inr [Some extraction]
       else inr [Some judgment]).

(** [[{"claim": "Company X grew revenue 40% in 2023.",
       "category": "Financial"}]], in a code fence. *)
Definition one_claim : string :=
  fenced "json"
    ("[{" ++ quoted "claim" ++ ": "
     ++ quoted "Company X grew revenue 40% in 2023." ++ ", "
     ++ quoted "category" ++ ": " ++ quoted "Financial" ++ "}]").

(** A callback that raises on every invocation. *)
Definition broken_callback : callback :=
  fun _ _ _ _ => Some (Exn (OtherError "RuntimeError") "widget is gone").


End Sample.

(* ================================================================== *)
(** ** Strings *)
(* ================================================================== *)

Lemma append_assoc (a b c : string) : (a ++ b) ++ c = a ++ b ++ c.
Proof. induction a as [| x a IH]; simpl; [reflexivity | now rewrite IH]. Qed.

Lemma append_empty_r (a : string) : a ++ "" = a.
Proof. induction a as [| x a IH]; simpl; [reflexivity | now rewrite IH]. Qed.

(** *** [strip] *)

Lemma lstrip_starts_clean (s : string) : starts_clean (lstrip s).
Proof.
  induction s as [| c r IH]; simpl; [exact I |].
  destruct (isspace c) eqn:E; [exact IH | exact E].
Qed.

Lemma lstrip_clean (s : string) : starts_clean s -> lstrip s = s.
Proof. destruct s as [| c r]; simpl; [reflexivity | now intros ->]. Qed.

Lemma rstrip_starts_clean (s : string) :
  starts_clean s -> starts_clean (rstrip s).
Proof.
  destruct s as [| c r]; simpl; [trivial |].
  intros E. destruct (rstrip r); [rewrite E |]; exact E.
Qed.

Lemma rstrip_idempotent (s : string) : rstrip (rstrip s) = rstrip s.
Proof.
  induction s as [| c r IH]; simpl; [reflexivity |].
  destruct (rstrip r) as [| c' r'] eqn:E.
  - destruct (isspace c) eqn:Ec; simpl; [reflexivity | now rewrite Ec].
  - cbn [rstrip] in IH |- *. rewrite IH. reflexivity.
Qed.

Lemma strip_idempotent (s : string) : strip (strip s) = strip s.
Proof.
  unfold strip.
  rewrite (lstrip_clean (rstrip (lstrip s))).
  - apply rstrip_idempotent.
  - apply rstrip_starts_clean, lstrip_starts_clean.
Qed.

Lemma rstrip_app_space (s : string) (c : ascii) :
  isspace c = true -> rstrip (s ++ chr c) = rstrip s.
Proof.
  intros Ec. induction s as [| x r IH]; simpl.
  - now rewrite Ec.
  - now rewrite IH.
Qed.

Lemma lstrip_app_space (s : string) (c : ascii) :
  isspace c = true ->
  lstrip (s ++ chr c) = lstrip s ++ chr c
  \/ (lstrip s = "" /\ lstrip (s ++ chr c) = "").
Proof.
  intros Ec. induction s as [| x r IH]; simpl.
  - right. now rewrite Ec.
  - destruct (isspace x); [exact IH | now left].
Qed.

Lemma strip_app_space (s : string) (c : ascii) :
  isspace c = true -> strip (s ++ chr c) = strip s.
Proof.
  intros Ec. unfold strip.
  destruct (lstrip_app_space s c Ec) as [-> | [-> ->]].
  - now apply rstrip_app_space.
  - reflexivity.
Qed.

(** White space lines around a payload do not survive [strip]. *)
Lemma strip_between_newlines (payload : string) :
  strip (nl ++ payload ++ nl) = strip payload.
Proof.
  change (nl ++ payload ++ nl) with (String newline (payload ++ chr newline)).
  unfold strip at 1. cbn [lstrip].
  change (isspace newline) with true. cbv iota.
  apply (strip_app_space payload newline). reflexivity.
Qed.

Lemma rstrip_fence (s : string) : rstrip (s ++ "```") = s ++ "```".
Proof.
  induction s as [| c r IH]; [reflexivity |].
  cbn [append rstrip]. rewrite IH.
  destruct r; reflexivity.
Qed.

(** The pieces [strip] removes. *)
Lemma lstrip_suffix (s : string) : exists w, s = w ++ lstrip s.
Proof.
  induction s as [| c r [w IH]]; simpl.
  - now exists "".
  - destruct (isspace c).
    + exists (String c w). simpl. now rewrite <- IH.
    + now exists "".
Qed.

Lemma rstrip_prefix (s : string) : exists w, s = rstrip s ++ w.
Proof.
  induction s as [| c r [w IH]]; simpl.
  - now exists "".
  - destruct (rstrip r) as [| c' r'] eqn:E.
    + destruct (isspace c).
      * exists (String c r). reflexivity.
      * exists r. reflexivity.
    + exists w. simpl. simpl in IH. now rewrite <- IH.
Qed.

(** *** Occurrences of a separator *)

Lemma prefix_app (n a w : string) :
  String.prefix n a = true -> String.prefix n (a ++ w) = true.
Proof.
  revert a. induction n as [| x n IH]; intros a;
    [intros _; now destruct (a ++ w) |].
  destruct a as [| y a]; simpl; [discriminate |].
  destruct (ascii_dec x y); [apply IH | discriminate].
Qed.

Lemma contains_suffix (n w s : string) :
  contains n s = true -> contains n (w ++ s) = true.
Proof.
  intros H. induction w as [| c w IH]; cbn [contains append]; [exact H |].
  rewrite IH. apply orb_true_r.
Qed.

Lemma contains_prefix_of (n a w : string) :
  contains n a = true -> contains n (a ++ w) = true.
Proof.
  induction a as [| c a IH].
  - cbn [contains append]. rewrite orb_false_r. intros H.
    destruct n; [now destruct w | discriminate].
  - cbn [contains append]. intros H. apply orb_prop in H as [H | H].
    + change (String c (a ++ w)) with (String c a ++ w).
      now rewrite (prefix_app n (String c a) w H).
    + rewrite (IH H). apply orb_true_r.
Qed.

Lemma contains_strip (n s : string) :
  contains n (strip s) = true -> contains n s = true.
Proof.
  intros H. unfold strip in H.
  destruct (lstrip_suffix s) as [w1 E1].
  destruct (rstrip_prefix (lstrip s)) as [w2 E2].
  rewrite E1, E2. apply contains_suffix, contains_prefix_of, H.
Qed.

Lemma prefix_contains (n s : string) :
  String.prefix n s = true -> contains n s = true.
Proof. intros H. destruct s; cbn [contains]; rewrite H; reflexivity. Qed.

(** A fence cannot begin in front of a line break. *)
Lemma prefix_fence_before_newline (s x : string) :
  String.prefix "```" (s ++ nl ++ x) = true -> String.prefix "```" s = true.
Proof.
  destruct s as [| a [| b [| c s]]]; cbn [append String.prefix nl chr].
  - destruct (ascii_dec "`" newline); discriminate.
  - destruct (ascii_dec "`" a); [| discriminate].
    destruct (ascii_dec "`" newline); discriminate.
  - destruct (ascii_dec "`" a); [| discriminate].
    destruct (ascii_dec "`" b); [| discriminate].
    destruct (ascii_dec "`" newline); discriminate.
  - destruct (ascii_dec "`" a); [| discriminate].
    destruct (ascii_dec "`" b); [| discriminate].
    destruct (ascii_dec "`" c); [| discriminate].
    intros _. now destruct s.
Qed.

(** A text without a fence, followed by a line break and the closing
    fence, splits into the text with its line break and the empty
    piece. *)
Lemma split_closing_fence (s : string) :
  contains "```" s = false ->
  split_from "```" 0 (s ++ nl ++ "```") = [s ++ nl; ""].
Proof.
  induction s as [| c r IH]; intros H; [reflexivity |].
  cbn [contains] in H. apply orb_false_elim in H as [Hp Hr].
  change (String c r ++ nl ++ "```") with (String c (r ++ nl ++ "```")).
  cbn [split_from].
  destruct (String.prefix "```" (String c (r ++ nl ++ "```"))) eqn:E.
  - apply (prefix_fence_before_newline (String c r) "```") in E.
    rewrite E in Hp. discriminate.
  - rewrite (IH Hr). reflexivity.
Qed.

Lemma split_fenced (tag payload : string) :
  tag = "" \/ tag = "json" ->
  contains "```" payload = false ->
  split "```" (fenced tag payload) = [""; tag ++ nl ++ payload ++ nl; ""].
Proof.
  intros [-> | ->] H; unfold split, fenced; cbn [append split_from];
    cbn [String.prefix String.length Nat.sub nl chr append]; cbv iota.
  - destruct (ascii_dec "`" newline) as [E | _]; [discriminate E |].
    change (String newline (payload ++ String newline "```"))
      with (String newline (payload ++ nl ++ "```")).
    destruct (String.prefix "```" (String newline (payload ++ nl ++ "```")))
      eqn:E; [discriminate E |].
    cbn [split_from String.prefix]. cbv iota.
    destruct (ascii_dec "`" newline) as [E' | _]; [discriminate E' |].
    now rewrite (split_closing_fence payload H).
  - change (payload ++ String newline "```") with (payload ++ nl ++ "```").
    cbn [split_from String.prefix]. cbv iota.
    repeat match goal with
           | |- context [ascii_dec ?a ?b] =>
               destruct (ascii_dec a b) as [E | _]; [discriminate E |]
           end.
    now rewrite (split_closing_fence payload H).
Qed.

(** What the normalisation makes of a fenced payload, and of the payload
    on its own. *)
Lemma strip_code_fence_fenced (tag payload : string) :
  tag = "" \/ tag = "json" ->
  contains "```" payload = false ->
  strip_code_fence (fenced tag payload) = inr (strip payload).
Proof.
  intros Htag H. unfold strip_code_fence.
  assert (Hs : strip (fenced tag payload) = fenced tag payload).
  { unfold strip, fenced. cbn [append lstrip].
    change (isspace "`") with false. cbv iota.
    change (String "`" (String "`" (String "`"
              (tag ++ nl ++ payload ++ nl ++ "```"))))
      with ("```" ++ tag ++ nl ++ payload ++ nl ++ "```").
    rewrite <- !append_assoc. apply rstrip_fence. }
  rewrite Hs.
  assert (Hp : startswith (fenced tag payload) "```" = true).
  { unfold startswith, fenced. cbn [append].
    generalize (tag ++ nl ++ payload ++ nl ++ "```"). intros s.
    now destruct s. }
  rewrite Hp, (split_fenced tag payload Htag H). cbn [nth_error].
  destruct Htag as [-> | ->].
  - change (startswith ("" ++ nl ++ payload ++ nl) "json") with false.
    cbv iota. change ("" ++ nl ++ payload ++ nl) with (nl ++ payload ++ nl).
    now rewrite (strip_between_newlines payload).
  - change (startswith ("json" ++ nl ++ payload ++ nl) "json") with true.
    cbv iota. change (drop 4 ("json" ++ nl ++ payload ++ nl))
      with (nl ++ payload ++ nl).
    now rewrite (strip_between_newlines payload).
Qed.

Lemma strip_code_fence_plain (payload : string) :
  contains "```" payload = false ->
  strip_code_fence payload = inr (strip payload).
Proof.
  intros H. unfold strip_code_fence.
  destruct (startswith (strip payload) "```") eqn:E.
  - unfold startswith in E.
    apply prefix_contains, contains_strip in E. rewrite E in H. discriminate.
  - now rewrite strip_idempotent.
Qed.

(* ================================================================== *)
(** ** The decoder always answers *)
(* ================================================================== *)

Lemma skip_ws_length (s : string) :
  String.length (Json.skip_ws s) <= String.length s.
Proof.
  induction s as [| c r IH]; simpl; [lia |].
  destruct (Json.is_ws c); simpl; lia.
Qed.

Lemma head_is_length (c : ascii) (s r : string) :
  Json.head_is c s = Some r -> String.length s = S (String.length r).
Proof.
  destruct s as [| x s]; simpl; [discriminate |].
  destruct (Ascii.eqb x c); [| discriminate].
  intros H; inversion H; reflexivity.
Qed.

Lemma drop_length (n : nat) (s : string) :
  String.length (drop n s) <= String.length s.
Proof.
  revert s. induction n as [| n IH]; intros s; [simpl; lia |].
  destruct s as [| c r]; simpl; [lia |]. specialize (IH r). lia.
Qed.

Lemma span_digits_length (s ds rest : string) :
  Json.span_digits s = (ds, rest) ->
  String.length s = String.length ds + String.length rest.
Proof.
  revert ds rest. induction s as [| c r IH]; intros ds rest; simpl.
  - intros H; inversion H; reflexivity.
  - destruct (Json.is_digit c).
    + destruct (Json.span_digits r) as [ds' rest'] eqn:E.
      intros H; inversion H; subst. simpl. now rewrite (IH ds' rest).
    + intros H; inversion H; subst. reflexivity.
Qed.

Lemma int_part_shrinks (s ip r : string) :
  Json.int_part s = Some (ip, r) -> String.length r < String.length s.
Proof.
  destruct s as [| c s]; [discriminate |].
  unfold Json.int_part.
  destruct (Ascii.eqb c "0").
  - intros H; inversion H; subst. simpl. lia.
  - destruct (Json.is_digit c) eqn:Ed; [| discriminate].
    intros H. assert (H1 : Json.span_digits (String c s) = (ip, r))
      by congruence.
    pose proof (span_digits_length _ _ _ H1) as Hl.
    simpl in H1. rewrite Ed in H1.
    destruct (Json.span_digits s); inversion H1; subst.
    simpl in Hl |- *. lia.
Qed.

Lemma frac_part_shrinks (s fp r : string) :
  Json.frac_part s = Some (fp, r) -> String.length r < String.length s.
Proof.
  unfold Json.frac_part.
  destruct (Json.head_is "." s) as [r0 |] eqn:Eh; [| discriminate].
  apply head_is_length in Eh.
  destruct (Json.span_digits r0) as [ds rest] eqn:Es.
  apply span_digits_length in Es.
  destruct ds; [discriminate |].
  intros H; inversion H; subst. lia.
Qed.

Lemma exp_part_shrinks (s r : string) (x : Z) :
  Json.exp_part s = Some (x, r) -> String.length r < String.length s.
Proof.
  destruct s as [| c s]; [discriminate |].
  unfold Json.exp_part.
  destruct (Ascii.eqb c "e" || Ascii.eqb c "E"); [| discriminate].
  assert (Hsign : forall neg r1,
             match Json.head_is "-" s, Json.head_is "+" s with
             | Some r', _ => (true, r')
             | None, Some r' => (false, r')
             | None, None => (false, s)
             end = (neg, r1) ->
             String.length r1 <= String.length s).
  { intros neg r1.
    destruct (Json.head_is "-" s) eqn:E1;
      [| destruct (Json.head_is "+" s) eqn:E2];
      intros H; inversion H; subst;
      try (apply head_is_length in E1); try (apply head_is_length in E2);
      lia. }
  destruct (match Json.head_is "-" s, Json.head_is "+" s with
            | Some r', _ => (true, r')
            | None, Some r' => (false, r')
            | None, None => (false, s)
            end) as [neg r1] eqn:En.
  specialize (Hsign neg r1 eq_refl).
  destruct (Json.span_digits r1) as [ds rest] eqn:Es.
  apply span_digits_length in Es.
  destruct ds; [discriminate |].
  intros H; inversion H; subst. simpl. lia.
Qed.

Lemma parse_unsigned_shrinks (neg : bool) (s r : string) (v : value) :
  Json.parse_unsigned neg s = Json.POk v r ->
  String.length r < String.length s.
Proof.
  unfold Json.parse_unsigned.
  destruct (Json.int_part s) as [[ip r1] |] eqn:Ei; [| discriminate].
  apply int_part_shrinks in Ei.
  destruct (Json.frac_part r1) as [[fp r2] |] eqn:Ef.
  - apply frac_part_shrinks in Ef.
    destruct (Json.exp_part r2) as [[x r3] |] eqn:Ee;
      [apply exp_part_shrinks in Ee |];
      intros H; inversion H; subst; lia.
  - destruct (Json.exp_part r1) as [[x r3] |] eqn:Ee;
      [apply exp_part_shrinks in Ee |];
      intros H; inversion H; subst; lia.
Qed.

Lemma parse_number_shrinks (s r : string) (v : value) :
  Json.parse_number s = Json.POk v r -> String.length r < String.length s.
Proof.
  unfold Json.parse_number.
  destruct (Json.head_is "-" s) as [s1 |] eqn:Eh.
  - apply head_is_length in Eh. intros H.
    apply parse_unsigned_shrinks in H. lia.
  - apply parse_unsigned_shrinks.
Qed.

Lemma parse_unsigned_answers (neg : bool) (s : string) :
  Json.parse_unsigned neg s <> Json.PFuel.
Proof.
  unfold Json.parse_unsigned.
  destruct (Json.int_part s) as [[ip r1] |]; [| discriminate].
  destruct (Json.frac_part r1) as [[fp r2] |].
  - destruct (Json.exp_part r2) as [[x r3] |]; discriminate.
  - destruct (Json.exp_part r1) as [[x r3] |]; discriminate.
Qed.

Lemma parse_number_answers (s : string) : Json.parse_number s <> Json.PFuel.
Proof.
  unfold Json.parse_number.
  destruct (Json.head_is "-" s); apply parse_unsigned_answers.
Qed.

Lemma pmap_ok {A B : Type} (f : A -> B) (x : Json.presult A) (b : B)
    (r : string) :
  Json.pmap f x = Json.POk b r -> exists a, x = Json.POk a r /\ b = f a.
Proof.
  destruct x; simpl; intros H; inversion H; subst. eauto.
Qed.

Lemma pmap_answers {A B : Type} (f : A -> B) (x : Json.presult A) :
  x <> Json.PFuel -> Json.pmap f x <> Json.PFuel.
Proof. destruct x; simpl; congruence. Qed.

Lemma parse_string_body_spec (n : nat) :
  forall s, String.length s <= n ->
    Json.parse_string_body s <> Json.PFuel
    /\ forall k r, Json.parse_string_body s = Json.POk k r ->
                   String.length r < String.length s.
Proof.
  induction n as [| n IH]; intros s Hn.
  - destruct s; [| simpl in Hn; lia]. simpl. split; [discriminate |].
    intros k r H; discriminate H.
  - destruct s as [| c r0]; [simpl; split; [discriminate |];
                             intros k r H; discriminate H |].
    cbn [Json.parse_string_body]. simpl in Hn.
    destruct (Ascii.eqb c dquote).
    { split; [discriminate |]. intros k r H; inversion H; subst. simpl. lia. }
    destruct (Ascii.eqb c backslash).
    { destruct r0 as [| e r2]; [split; [discriminate |];
                                 intros k r H; discriminate H |].
      simpl in Hn.
      destruct (Json.simple_escape e).
      { destruct (IH r2 ltac:(lia)) as [Ha Hs]. split.
        - now apply pmap_answers.
        - intros k r H. apply pmap_ok in H as [k' [H _]].
          apply Hs in H. simpl. lia. }
      destruct (Ascii.eqb e "u");
        [| split; [discriminate | intros k r H; discriminate H]].
      destruct r2 as [| h1 [| h2 [| h3 [| h4 r3]]]];
        try (split; [discriminate | intros k r H; discriminate H]).
      simpl in Hn.
      destruct (Json.hex4 h1 h2 h3 h4);
        [| split; [discriminate | intros k r H; discriminate H]].
      destruct (Nat.ltb n0 256);
        [| split; [discriminate | intros k r H; discriminate H]].
      destruct (IH r3 ltac:(lia)) as [Ha Hs]. split.
      - now apply pmap_answers.
      - intros k r H. apply pmap_ok in H as [k' [H _]].
        apply Hs in H. simpl. lia. }
    destruct (Nat.ltb (nat_of_ascii c) 32);
      [split; [discriminate | intros k r H; discriminate H] |].
    destruct (IH r0 ltac:(lia)) as [Ha Hs]. split.
    + now apply pmap_answers.
    + intros k r H. apply pmap_ok in H as [k' [H _]].
      apply Hs in H. simpl. lia.
Qed.

Lemma parse_string_body_shrinks (s k r : string) :
  Json.parse_string_body s = Json.POk k r ->
  String.length r < String.length s.
Proof.
  apply (proj2 (parse_string_body_spec (String.length s) s (le_n _))).
Qed.

Lemma parse_string_body_answers (s : string) :
  Json.parse_string_body s <> Json.PFuel.
Proof.
  apply (proj1 (parse_string_body_spec (String.length s) s (le_n _))).
Qed.

(** Every production consumes at least one character. *)
Lemma parse_shrinks (f : nat) :
  (forall s v r, Json.parse_value f s = Json.POk v r ->
                 String.length r < String.length s)
  /\ (forall s vs r, Json.parse_elements f s = Json.POk vs r ->
                     String.length r < String.length s)
  /\ (forall s kvs r, Json.parse_members f s = Json.POk kvs r ->
                      String.length r < String.length s).
Proof.
  induction f as [| f [IHv [IHe IHm]]];
    [repeat split; intros; discriminate |].
  repeat split.
  - intros s v r. cbn [Json.parse_value]. unfold Json.value_step.
    destruct s as [| c r0]; [discriminate |].
    pose proof (skip_ws_length r0) as Hw.
    destruct (Ascii.eqb c dquote).
    { intros H. apply pmap_ok in H as [k [H _]].
      apply parse_string_body_shrinks in H. simpl. lia. }
    destruct (Ascii.eqb c "{").
    { destruct (Json.head_is "}" (Json.skip_ws r0)) eqn:Eh.
      - apply head_is_length in Eh.
        intros H; inversion H; subst. simpl. lia.
      - intros H. apply pmap_ok in H as [k [H _]].
        apply IHm in H. simpl. lia. }
    destruct (Ascii.eqb c "[").
    { destruct (Json.head_is "]" (Json.skip_ws r0)) eqn:Eh.
      - apply head_is_length in Eh.
        intros H; inversion H; subst. simpl. lia.
      - intros H. apply pmap_ok in H as [k [H _]].
        apply IHe in H. simpl. lia. }
    destruct (String.prefix "null" (String c r0)).
    { intros H; inversion H; subst.
      pose proof (drop_length 3 r0) as Hd. simpl in Hd |- *. lia. }
    destruct (String.prefix "true" (String c r0)).
    { intros H; inversion H; subst.
      pose proof (drop_length 3 r0) as Hd. simpl in Hd |- *. lia. }
    destruct (String.prefix "false" (String c r0)).
    { intros H; inversion H; subst.
      pose proof (drop_length 4 r0) as Hd. simpl in Hd |- *. lia. }
    destruct (Ascii.eqb c "-" || Json.is_digit c); [| discriminate].
    apply parse_number_shrinks.
  - intros s vs r. cbn [Json.parse_elements]. unfold Json.elements_step.
    destruct (Json.parse_value f s) as [v r1 | |] eqn:Ev; try discriminate.
    apply IHv in Ev. pose proof (skip_ws_length r1) as Hw.
    destruct (Json.head_is "," (Json.skip_ws r1)) as [r2 |] eqn:E1.
    { apply head_is_length in E1. pose proof (skip_ws_length r2) as Hw2.
      intros H. apply pmap_ok in H as [k [H _]].
      apply IHe in H. lia. }
    destruct (Json.head_is "]" (Json.skip_ws r1)) as [r2 |] eqn:E2;
      [| discriminate].
    apply head_is_length in E2.
    intros H; inversion H; subst. lia.
  - intros s kvs r. cbn [Json.parse_members]. unfold Json.members_step.
    destruct (Json.head_is dquote s) as [r0 |] eqn:E0; [| discriminate].
    apply head_is_length in E0.
    destruct (Json.parse_string_body r0) as [k r1 | |] eqn:Ek;
      try discriminate.
    apply parse_string_body_shrinks in Ek.
    pose proof (skip_ws_length r1) as Hw1.
    destruct (Json.head_is ":" (Json.skip_ws r1)) as [r2 |] eqn:Ec;
      [| discriminate].
    apply head_is_length in Ec. pose proof (skip_ws_length r2) as Hw2.
    destruct (Json.parse_value f (Json.skip_ws r2)) as [v r3 | |] eqn:Ev;
      try discriminate.
    apply IHv in Ev. pose proof (skip_ws_length r3) as Hw3.
    destruct (Json.head_is "," (Json.skip_ws r3)) as [r4 |] eqn:E1.
    { apply head_is_length in E1. pose proof (skip_ws_length r4) as Hw4.
      intros H. apply pmap_ok in H as [k' [H _]].
      apply IHm in H. lia. }
    destruct (Json.head_is "}" (Json.skip_ws r3)) as [r4 |] eqn:E2;
      [| discriminate].
    apply head_is_length in E2.
    intros H; inversion H; subst. lia.
Qed.

(** Two units of fuel per character, and one more, are never used up. *)
Lemma parse_enough (f : nat) :
  (forall s, 2 * String.length s + 1 <= f ->
             Json.parse_value f s <> Json.PFuel)
  /\ (forall s, 2 * String.length s + 2 <= f ->
                Json.parse_elements f s <> Json.PFuel)
  /\ (forall s, 2 * String.length s + 1 <= f ->
                Json.parse_members f s <> Json.PFuel).
Proof.
  induction f as [| f [IHv [IHe IHm]]]; [repeat split; intros; lia |].
  repeat split.
  - intros s Hf. cbn [Json.parse_value]. unfold Json.value_step.
    destruct s as [| c r0]; [discriminate |].
    pose proof (skip_ws_length r0) as Hw. simpl in Hf.
    destruct (Ascii.eqb c dquote);
      [apply pmap_answers, parse_string_body_answers |].
    destruct (Ascii.eqb c "{").
    { destruct (Json.head_is "}" (Json.skip_ws r0)); [discriminate |].
      apply pmap_answers, IHm. lia. }
    destruct (Ascii.eqb c "[").
    { destruct (Json.head_is "]" (Json.skip_ws r0)); [discriminate |].
      apply pmap_answers, IHe. lia. }
    destruct (String.prefix "null" (String c r0)); [discriminate |].
    destruct (String.prefix "true" (String c r0)); [discriminate |].
    destruct (String.prefix "false" (String c r0)); [discriminate |].
    destruct (Ascii.eqb c "-" || Json.is_digit c); [| discriminate].
    apply parse_number_answers.
  - intros s Hf. cbn [Json.parse_elements]. unfold Json.elements_step.
    destruct (Json.parse_value f s) as [v r1 | |] eqn:Ev;
      [| discriminate | exact (fun _ => IHv s ltac:(lia) Ev)].
    apply (proj1 (parse_shrinks f)) in Ev.
    pose proof (skip_ws_length r1) as Hw.
    destruct (Json.head_is "," (Json.skip_ws r1)) as [r2 |] eqn:E1.
    { apply head_is_length in E1. pose proof (skip_ws_length r2) as Hw2.
      apply pmap_answers, IHe. lia. }
    destruct (Json.head_is "]" (Json.skip_ws r1)); discriminate.
  - intros s Hf. cbn [Json.parse_members]. unfold Json.members_step.
    destruct (Json.head_is dquote s) as [r0 |] eqn:E0; [| discriminate].
    apply head_is_length in E0.
    destruct (Json.parse_string_body r0) as [k r1 | |] eqn:Ek;
      [| discriminate | exact (fun _ => parse_string_body_answers r0 Ek)].
    apply parse_string_body_shrinks in Ek.
    pose proof (skip_ws_length r1) as Hw1.
    destruct (Json.head_is ":" (Json.skip_ws r1)) as [r2 |] eqn:Ec;
      [| discriminate].
    apply head_is_length in Ec. pose proof (skip_ws_length r2) as Hw2.
    destruct (Json.parse_value f (Json.skip_ws r2)) as [v r3 | |] eqn:Ev;
      [| discriminate
       | exact (fun _ => IHv (Json.skip_ws r2) ltac:(lia) Ev)].
    apply (proj1 (parse_shrinks f)) in Ev.
    pose proof (skip_ws_length r3) as Hw3.
    destruct (Json.head_is "," (Json.skip_ws r3)) as [r4 |] eqn:E1.
    { apply head_is_length in E1. pose proof (skip_ws_length r4) as Hw4.
      apply pmap_answers, IHm. lia. }
    destruct (Json.head_is "}" (Json.skip_ws r3)); discriminate.
Qed.

(** [Json.loads] decodes or reports a syntax error; the fuel of the
    recursive descent never runs out. *)
Theorem loads_never_out_of_fuel (s : string) :
  match Json.loads s with
  | inr _ => True
  | inl e => exn_cls e = JSONDecodeError
  end.
Proof.
  unfold Json.loads.
  destruct (Json.parse_value (Json.fuel_for s) (Json.skip_ws s))
    as [v r | m |] eqn:E.
  - destruct (Json.skip_ws r); [exact I | reflexivity].
  - reflexivity.
  - exfalso. revert E. apply (proj1 (parse_enough (Json.fuel_for s))).
    pose proof (skip_ws_length s). unfold Json.fuel_for. lia.
Qed.

(* ================================================================== *)
(** ** The decoder reads no further than the value *)
(* ================================================================== *)

Lemma append_cons_assoc (a b : string) (c : ascii) :
  (a ++ chr c) ++ b = a ++ String c b.
Proof. now rewrite append_assoc. Qed.

Lemma clean_end_chr (c : ascii) : isspace c = false -> clean_end (chr c).
Proof. intros E. split; [discriminate |]. simpl. now rewrite E. Qed.

Lemma clean_end_app (a b : string) : clean_end b -> clean_end (a ++ b).
Proof.
  intros [Hne Hb]. split.
  - destruct a; [exact Hne | discriminate].
  - induction a as [| c a IH]; [exact Hb |].
    cbn [append rstrip]. rewrite IH.
    destruct a; [destruct b; [contradiction | reflexivity] | reflexivity].
Qed.

Lemma clean_end_cons (c : ascii) (u : string) :
  clean_end u -> clean_end (String c u).
Proof. apply (clean_end_app (chr c) u). Qed.

Lemma is_ws_isspace (c : ascii) : Json.is_ws c = true -> isspace c = true.
Proof.
  destruct c as [[] [] [] [] [] [] [] []]; intros H;
    try reflexivity; discriminate H.
Qed.

Lemma is_digit_not_space (c : ascii) :
  Json.is_digit c = true -> isspace c = false.
Proof.
  destruct c as [[] [] [] [] [] [] [] []]; intros H;
    try reflexivity; discriminate H.
Qed.

Lemma after_number_digits (t : string) :
  after_number t = true -> after_digits t = true.
Proof.
  destruct t as [| c t]; [reflexivity |]. simpl.
  destruct (Json.is_digit c); [discriminate | reflexivity].
Qed.

Lemma head_is_cons (c d : ascii) (x : string) :
  Json.head_is c (String d x) = if Ascii.eqb d c then Some x else None.
Proof. reflexivity. Qed.

Lemma head_is_eq (c : ascii) (s r : string) :
  Json.head_is c s = Some r -> s = String c r.
Proof.
  destruct s as [| d x]; [discriminate |]. rewrite head_is_cons.
  destruct (Ascii.eqb_spec d c) as [-> | _]; [| discriminate].
  now intros H; inversion H.
Qed.

(** *** Digits and numbers *)

Lemma span_digits_stop (t : string) :
  after_digits t = true -> Json.span_digits t = ("", t).
Proof.
  destruct t as [| c t]; [reflexivity |]. simpl.
  now destruct (Json.is_digit c).
Qed.

Lemma span_digits_local (s ds r : string) :
  Json.span_digits s = (ds, r) ->
  s = ds ++ r
  /\ (ds <> "" -> clean_end ds)
  /\ forall t, after_digits t = true -> Json.span_digits (ds ++ t) = (ds, t).
Proof.
  revert ds r. induction s as [| c s IH]; intros ds r H.
  - inversion H; subst.
    split; [reflexivity | split]; [intros C; contradiction |].
    intros t Ht. now apply span_digits_stop.
  - cbn [Json.span_digits] in H. destruct (Json.is_digit c) eqn:Ec.
    + destruct (Json.span_digits s) as [ds' r'] eqn:Es.
      inversion H; subst. destruct (IH ds' r eq_refl) as [-> [Hc Hl]].
      split; [reflexivity | split].
      * intros _. destruct ds' as [| d ds'].
        -- apply clean_end_chr, is_digit_not_space, Ec.
        -- apply clean_end_cons, Hc. discriminate.
      * intros t Ht. cbn [append Json.span_digits]. rewrite Ec.
        now rewrite (Hl t Ht).
    + inversion H; subst.
      split; [reflexivity | split]; [intros C; contradiction |].
      intros t Ht. now apply span_digits_stop.
Qed.

Lemma int_part_local (s ip r : string) :
  Json.int_part s = Some (ip, r) ->
  s = ip ++ r /\ clean_end ip
  /\ forall t, after_digits t = true -> Json.int_part (ip ++ t) = Some (ip, t).
Proof.
  destruct s as [| c s]; [discriminate |]. unfold Json.int_part.
  destruct (Ascii.eqb_spec c "0") as [-> | Hc].
  - intros H; inversion H; subst.
    split; [reflexivity | split]; [now apply clean_end_chr |].
    intros t _. reflexivity.
  - destruct (Json.is_digit c) eqn:Ed; [| discriminate].
    intros H. assert (Hs : Json.span_digits (String c s) = (ip, r))
      by congruence.
    destruct (span_digits_local _ _ _ Hs) as [E [Hcl Hl]].
    assert (Hip : exists ds, ip = String c ds).
    { cbn [Json.span_digits] in Hs. rewrite Ed in Hs.
      destruct (Json.span_digits s); inversion Hs; eauto. }
    destruct Hip as [ds ->].
    split; [exact E | split]; [apply Hcl; discriminate |].
    intros t Ht. cbn [append].
    destruct (Ascii.eqb_spec c "0") as [-> | _]; [contradiction |].
    rewrite Ed. f_equal. exact (Hl t Ht).
Qed.

Lemma frac_part_head (c : ascii) (x : string) :
  Ascii.eqb c "." = false -> Json.frac_part (String c x) = None.
Proof. intros E. unfold Json.frac_part. now rewrite head_is_cons, E. Qed.

Lemma frac_part_stop (t : string) :
  after_number t = true -> Json.frac_part t = None.
Proof.
  destruct t as [| c t]; [reflexivity |]. intros H. apply frac_part_head.
  simpl in H. destruct (Ascii.eqb c "."); [| reflexivity].
  destruct (Json.is_digit c); discriminate H.
Qed.

Lemma frac_part_local (s fp r : string) :
  Json.frac_part s = Some (fp, r) ->
  s = String "." (fp ++ r) /\ clean_end fp
  /\ forall t, after_digits t = true ->
               Json.frac_part (String "." (fp ++ t)) = Some (fp, t).
Proof.
  unfold Json.frac_part.
  destruct (Json.head_is "." s) as [r0 |] eqn:Eh; [| discriminate].
  apply head_is_eq in Eh. subst s.
  destruct (Json.span_digits r0) as [ds rest] eqn:Es.
  destruct (span_digits_local _ _ _ Es) as [-> [Hcl Hl]].
  destruct ds as [| d ds]; [discriminate |].
  intros H; inversion H; subst.
  split; [reflexivity | split]; [apply Hcl; discriminate |].
  intros t Ht. rewrite head_is_cons. cbn [Ascii.eqb Bool.eqb].
  now rewrite (Hl t Ht).
Qed.

Lemma exp_part_stop (t : string) :
  after_number t = true -> Json.exp_part t = None.
Proof.
  destruct t as [| c t]; [reflexivity |]. simpl.
  destruct (Json.is_digit c); [discriminate |].
  destruct (Ascii.eqb c "."); [discriminate |].
  destruct (Ascii.eqb c "e"); [discriminate |].
  destruct (Ascii.eqb c "E"); [discriminate | reflexivity].
Qed.

Lemma exp_part_local (s r : string) (x : Z) :
  Json.exp_part s = Some (x, r) ->
  exists c u,
    s = String c (u ++ r)
    /\ Json.is_digit c = false /\ Ascii.eqb c "." = false
    /\ clean_end (String c u)
    /\ forall t, after_digits t = true ->
                 Json.exp_part (String c (u ++ t)) = Some (x, t).
Proof.
  destruct s as [| c s]; [discriminate |]. intros H.
  unfold Json.exp_part in H.
  destruct (Ascii.eqb c "e" || Ascii.eqb c "E") eqn:Ec; [| discriminate].
  assert (Hc : Json.is_digit c = false /\ Ascii.eqb c "." = false).
  { apply orb_prop in Ec as [Ec' | Ec']; apply Ascii.eqb_eq in Ec'; subst;
      split; reflexivity. }
  destruct Hc as [Hd Hdot].
  destruct (Json.head_is "-" s) as [r1 |] eqn:E1.
  - apply head_is_eq in E1. subst s.
    destruct (Json.span_digits r1) as [ds rest] eqn:Es.
    destruct (span_digits_local _ _ _ Es) as [-> [Hcl Hl]].
    destruct ds as [| d ds]; [discriminate |].
    injection H as Hx Hr. subst rest.
    exists c, (String "-" (String d ds)).
    split; [reflexivity |]. split; [exact Hd |]. split; [exact Hdot |].
    split.
    + apply clean_end_cons, clean_end_cons, Hcl. discriminate.
    + intros t Ht. unfold Json.exp_part. rewrite Ec.
      cbn [append]. rewrite !head_is_cons. cbn [Ascii.eqb Bool.eqb].
      change (String d (ds ++ t)) with (String d ds ++ t).
      rewrite (Hl t Ht). subst x. reflexivity.
  - destruct (Json.head_is "+" s) as [r1 |] eqn:E2.
    + apply head_is_eq in E2. subst s.
      destruct (Json.span_digits r1) as [ds rest] eqn:Es.
      destruct (span_digits_local _ _ _ Es) as [-> [Hcl Hl]].
      destruct ds as [| d ds]; [discriminate |].
      injection H as Hx Hr. subst rest.
      exists c, (String "+" (String d ds)).
      split; [reflexivity |]. split; [exact Hd |]. split; [exact Hdot |].
      split.
      * apply clean_end_cons, clean_end_cons, Hcl. discriminate.
      * intros t Ht. unfold Json.exp_part. rewrite Ec.
        cbn [append]. rewrite !head_is_cons. cbn [Ascii.eqb Bool.eqb].
        change (String d (ds ++ t)) with (String d ds ++ t).
        rewrite (Hl t Ht). subst x. reflexivity.
    + destruct (Json.span_digits s) as [ds rest] eqn:Es.
      destruct (span_digits_local _ _ _ Es) as [-> [Hcl Hl]].
      destruct ds as [| d ds]; [discriminate |].
      injection H as Hx Hr. subst rest.
      exists c, (String d ds).
      split; [reflexivity |]. split; [exact Hd |]. split; [exact Hdot |].
      split.
      * apply clean_end_cons, Hcl. discriminate.
      * intros t Ht. unfold Json.exp_part. rewrite Ec.
        cbn [append] in E1, E2 |- *.
        rewrite head_is_cons in E1, E2. rewrite !head_is_cons.
        destruct (Ascii.eqb d "-"); [discriminate E1 |].
        destruct (Ascii.eqb d "+"); [discriminate E2 |].
        change (String d (ds ++ t)) with (String d ds ++ t).
        rewrite (Hl t Ht). subst x. reflexivity.
Qed.

(** Bring appended texts to the form [a ++ String c (b ++ ...)]. *)
Ltac str_norm :=
  unfold chr; repeat first [rewrite !append_assoc | progress cbn [append]].

Lemma parse_unsigned_local (neg : bool) (s r : string) (v : value) :
  Json.parse_unsigned neg s = Json.POk v r ->
  exists u,
    s = u ++ r /\ clean_end u
    /\ forall t, after_number t = true ->
                 Json.parse_unsigned neg (u ++ t) = Json.POk v t.
Proof.
  intros H. unfold Json.parse_unsigned in H.
  destruct (Json.int_part s) as [[ip r1] |] eqn:Ei; [| discriminate].
  destruct (int_part_local _ _ _ Ei) as [-> [Hip Li]].
  destruct (Json.frac_part r1) as [[fp r2] |] eqn:Ef.
  - destruct (frac_part_local _ _ _ Ef) as [-> [Hfp Lf]].
    destruct (Json.exp_part r2) as [[x r3] |] eqn:Ee.
    + destruct (exp_part_local _ _ _ Ee) as [c [ue [-> [Hd [Hdot [Hue Le]]]]]].
      injection H as Hv Hr. subst r3.
      exists (ip ++ String "." (fp ++ String c ue)).
      split; [now str_norm |].
      split; [apply clean_end_app, clean_end_cons, clean_end_app, Hue |].
      intros t Ht. apply after_number_digits in Ht.
      str_norm. unfold Json.parse_unsigned.
      rewrite (Li (String "." (fp ++ String c (ue ++ t))) eq_refl).
      rewrite (Lf (String c (ue ++ t))) by (simpl; now rewrite Hd).
      rewrite (Le t Ht). now subst v.
    + injection H as Hv Hr. subst r2.
      exists (ip ++ String "." fp).
      split; [now str_norm |].
      split; [apply clean_end_app, clean_end_cons, Hfp |].
      intros t Ht. str_norm.
      unfold Json.parse_unsigned.
      rewrite (Li (String "." (fp ++ t)) eq_refl).
      rewrite (Lf t (after_number_digits t Ht)).
      rewrite (exp_part_stop t Ht). now subst v.
  - destruct (Json.exp_part r1) as [[x r3] |] eqn:Ee.
    + destruct (exp_part_local _ _ _ Ee) as [c [ue [-> [Hd [Hdot [Hue Le]]]]]].
      injection H as Hv Hr. subst r3.
      exists (ip ++ String c ue).
      split; [now str_norm |].
      split; [apply clean_end_app, Hue |].
      intros t Ht. apply after_number_digits in Ht.
      str_norm. unfold Json.parse_unsigned.
      rewrite (Li (String c (ue ++ t))) by (simpl; now rewrite Hd).
      rewrite (frac_part_head c (ue ++ t) Hdot).
      rewrite (Le t Ht). now subst v.
    + injection H as Hv Hr. subst r1.
      exists ip.
      split; [reflexivity |]. split; [exact Hip |].
      intros t Ht. unfold Json.parse_unsigned.
      rewrite (Li t (after_number_digits t Ht)).
      rewrite (frac_part_stop t Ht), (exp_part_stop t Ht). now subst v.
Qed.

Lemma parse_number_local (s r : string) (v : value) :
  Json.parse_number s = Json.POk v r ->
  exists u,
    s = u ++ r /\ clean_end u
    /\ forall t, after_number t = true ->
                 Json.parse_number (u ++ t) = Json.POk v t.
Proof.
  unfold Json.parse_number.
  destruct (Json.head_is "-" s) as [s1 |] eqn:Eh; intros H.
  - apply head_is_eq in Eh. subst s.
    destruct (parse_unsigned_local _ _ _ _ H) as [u [-> [Hu L]]].
    exists (String "-" u).
    split; [reflexivity |]. split; [now apply clean_end_cons |].
    intros t Ht. cbn [append]. rewrite head_is_cons.
    cbn [Ascii.eqb Bool.eqb]. exact (L t Ht).
  - destruct (parse_unsigned_local _ _ _ _ H) as [u [-> [Hu L]]].
    exists u. split; [reflexivity |]. split; [exact Hu |].
    intros t Ht.
    destruct u as [| d u]; [destruct Hu as [Hu _]; contradiction |].
    cbn [append] in Eh |- *. rewrite head_is_cons in Eh |- *.
    destruct (Ascii.eqb d "-"); [discriminate Eh |]. exact (L t Ht).
Qed.

(** *** Strings *)

Lemma parse_string_body_local (n : nat) :
  forall s k r, String.length s <= n ->
    Json.parse_string_body s = Json.POk k r ->
    exists b,
      s = b ++ String dquote r
      /\ forall t, Json.parse_string_body (b ++ String dquote t) = Json.POk k t.
Proof.
  induction n as [| n IH]; intros s k r Hn H.
  - destruct s; [discriminate H | simpl in Hn; lia].
  - destruct s as [| c r0]; [discriminate H |].
    cbn [Json.parse_string_body] in H. simpl in Hn.
    destruct (Ascii.eqb_spec c dquote) as [-> | Hq].
    { injection H as Hk Hr. subst. exists "". split; [reflexivity |].
      intros t. cbn [append Json.parse_string_body].
      now rewrite Ascii.eqb_refl. }
    destruct (Ascii.eqb c backslash) eqn:Eb.
    { destruct r0 as [| e r2]; [discriminate H |]. simpl in Hn.
      destruct (Json.simple_escape e) as [ch |] eqn:Ee.
      { apply pmap_ok in H as [k' [H ->]].
        destruct (IH r2 k' r ltac:(lia) H) as [b [-> L]].
        exists (String c (String e b)). split; [reflexivity |].
        intros t. cbn [append Json.parse_string_body].
        destruct (Ascii.eqb_spec c dquote); [contradiction |].
        now rewrite Eb, Ee, (L t). }
      destruct (Ascii.eqb e "u") eqn:Eu; [| discriminate H].
      destruct r2 as [| h1 [| h2 [| h3 [| h4 r3]]]]; try discriminate H.
      simpl in Hn.
      destruct (Json.hex4 h1 h2 h3 h4) as [code |] eqn:Eh;
        [| discriminate H].
      destruct (Nat.ltb code 256) eqn:El; [| discriminate H].
      apply pmap_ok in H as [k' [H ->]].
      destruct (IH r3 k' r ltac:(lia) H) as [b [-> L]].
      exists (String c (String e (String h1 (String h2 (String h3
                (String h4 b)))))).
      split; [reflexivity |].
      intros t. cbn [append Json.parse_string_body].
      destruct (Ascii.eqb_spec c dquote); [contradiction |].
      now rewrite Eb, Ee, Eu, Eh, El, (L t). }
    destruct (Nat.ltb (nat_of_ascii c) 32) eqn:Ectl; [discriminate H |].
    apply pmap_ok in H as [k' [H ->]].
    destruct (IH r0 k' r ltac:(lia) H) as [b [-> L]].
    exists (String c b). split; [reflexivity |].
    intros t. cbn [append Json.parse_string_body].
    destruct (Ascii.eqb_spec c dquote); [contradiction |].
    now rewrite Eb, Ectl, (L t).
Qed.

(** *** White space and literals *)

Lemma is_ws_after_number (c : ascii) (x : string) :
  Json.is_ws c = true -> after_number (String c x) = true.
Proof.
  destruct c as [[] [] [] [] [] [] [] []]; intros H;
    try reflexivity; discriminate H.
Qed.

(** The white space [skip_ws] passes over. *)
Lemma skip_ws_split (s r : string) (c : ascii) :
  Json.skip_ws s = String c r ->
  exists w,
    s = w ++ String c r
    /\ (forall x, Json.skip_ws (w ++ String c x) = String c x)
    /\ (forall x, after_number (String c x) = true ->
                  after_number (w ++ String c x) = true).
Proof.
  induction s as [| d s IH]; [discriminate |].
  cbn [Json.skip_ws]. destruct (Json.is_ws d) eqn:Ed.
  - intros H. destruct (IH H) as [w [-> [Hs Ha]]].
    exists (String d w). split; [reflexivity |]. split.
    + intros x. cbn [append Json.skip_ws]. now rewrite Ed.
    + intros x _. cbn [append]. now apply is_ws_after_number.
  - intros H. injection H as -> ->.
    exists "". split; [reflexivity |]. split.
    + intros x. cbn [append Json.skip_ws]. now rewrite Ed.
    + intros x Hx. exact Hx.
Qed.

Lemma skip_ws_split_app (s u r : string) :
  Json.skip_ws s = u ++ r -> u <> "" ->
  exists w,
    s = w ++ u ++ r
    /\ (forall x, Json.skip_ws (w ++ u ++ x) = u ++ x)
    /\ (forall x, after_number (u ++ x) = true ->
                  after_number (w ++ u ++ x) = true).
Proof.
  destruct u as [| c u]; [contradiction |]. intros H _.
  cbn [append] in H. destruct (skip_ws_split _ _ _ H) as [w [-> [Hs Ha]]].
  exists w. split; [reflexivity |]. split.
  - intros x. exact (Hs (u ++ x)).
  - intros x. exact (Ha (u ++ x)).
Qed.

Lemma prefix_app_self (p t : string) : String.prefix p (p ++ t) = true.
Proof.
  induction p as [| a p IH]; [now destruct t |].
  cbn [append String.prefix]. destruct (ascii_dec a a); [exact IH | contradiction].
Qed.

Lemma prefix_drop (p s : string) :
  String.prefix p s = true -> s = p ++ drop (String.length p) s.
Proof.
  revert s. induction p as [| a p IH]; intros s; [reflexivity |].
  destruct s as [| b s]; [discriminate |]. cbn [String.prefix].
  destruct (ascii_dec a b) as [-> | _]; [| discriminate].
  intros H. cbn [append String.length drop]. now rewrite <- (IH s H).
Qed.

(** A character that starts a number starts no literal. *)
Lemma number_start (c : ascii) (x : string) :
  Ascii.eqb c "-" || Json.is_digit c = true ->
  String.prefix "null" (String c x) = false
  /\ String.prefix "true" (String c x) = false
  /\ String.prefix "false" (String c x) = false.
Proof.
  destruct c as [[] [] [] [] [] [] [] []]; intros H;
    try discriminate H; repeat split; reflexivity.
Qed.

(** *** The three productions *)

Lemma value_step_local
    (pe : string -> Json.presult (list value))
    (pm : string -> Json.presult (list (string * value))) :
  local any_text pe -> local any_text pm ->
  local after_number (Json.value_step pe pm).
Proof.
  intros Le Lm s v r H. unfold Json.value_step in H.
  destruct s as [| c r0]; [discriminate H |].
  destruct (Ascii.eqb_spec c dquote) as [-> | Hq].
  { (* a string *)
    apply pmap_ok in H as [k [H ->]].
    destruct (parse_string_body_local _ _ _ _ (le_n _) H) as [b [-> L]].
    exists (String dquote (b ++ chr dquote)).
    split; [now str_norm |].
    split; [apply clean_end_cons, clean_end_app, clean_end_chr; reflexivity |].
    intros t _. str_norm. unfold Json.value_step.
    now rewrite Ascii.eqb_refl, (L t). }
  destruct (Ascii.eqb_spec c "{") as [-> | Hb].
  { (* an object *)
    destruct (Json.head_is "}" (Json.skip_ws r0)) as [r' |] eqn:Eh.
    - injection H as <- <-. apply head_is_eq in Eh.
      destruct (skip_ws_split _ _ _ Eh) as [w [-> [Hs _]]].
      exists (String "{" (w ++ chr "}")).
      split; [now str_norm |].
      split; [apply clean_end_cons, clean_end_app, clean_end_chr;
              reflexivity |].
      intros t _. str_norm. unfold Json.value_step.
      cbn [Ascii.eqb Bool.eqb dquote ascii_of_nat ascii_of_pos andb].
      rewrite (Hs t), head_is_cons. reflexivity.
    - apply pmap_ok in H as [kvs [H ->]].
      destruct (Lm _ _ _ H) as [um [Eu [Hum L]]].
      destruct (skip_ws_split_app _ _ _ Eu (proj1 Hum)) as [w [-> [Hs _]]].
      exists (String "{" (w ++ um)).
      split; [now str_norm |].
      split; [apply clean_end_cons, clean_end_app, Hum |].
      intros t _. str_norm. unfold Json.value_step.
      cbn [Ascii.eqb Bool.eqb dquote ascii_of_nat ascii_of_pos andb].
      rewrite (Hs t). rewrite Eu in Eh.
      destruct um as [| c0 um]; [destruct Hum as [Hne _]; contradiction |].
      cbn [append] in Eh |- *. rewrite head_is_cons in Eh |- *.
      destruct (Ascii.eqb c0 "}"); [discriminate Eh |].
      change (String c0 (um ++ t)) with (String c0 um ++ t).
      now rewrite (L t eq_refl). }
  destruct (Ascii.eqb_spec c "[") as [-> | Ha].
  { (* an array *)
    destruct (Json.head_is "]" (Json.skip_ws r0)) as [r' |] eqn:Eh.
    - injection H as <- <-. apply head_is_eq in Eh.
      destruct (skip_ws_split _ _ _ Eh) as [w [-> [Hs _]]].
      exists (String "[" (w ++ chr "]")).
      split; [now str_norm |].
      split; [apply clean_end_cons, clean_end_app, clean_end_chr;
              reflexivity |].
      intros t _. str_norm. unfold Json.value_step.
      cbn [Ascii.eqb Bool.eqb dquote ascii_of_nat ascii_of_pos andb].
      rewrite (Hs t), head_is_cons. reflexivity.
    - apply pmap_ok in H as [vs [H ->]].
      destruct (Le _ _ _ H) as [ue [Eu [Hue L]]].
      destruct (skip_ws_split_app _ _ _ Eu (proj1 Hue)) as [w [-> [Hs _]]].
      exists (String "[" (w ++ ue)).
      split; [now str_norm |].
      split; [apply clean_end_cons, clean_end_app, Hue |].
      intros t _. str_norm. unfold Json.value_step.
      cbn [Ascii.eqb Bool.eqb dquote ascii_of_nat ascii_of_pos andb].
      rewrite (Hs t). rewrite Eu in Eh.
      destruct ue as [| c0 ue]; [destruct Hue as [Hne _]; contradiction |].
      cbn [append] in Eh |- *. rewrite head_is_cons in Eh |- *.
      destruct (Ascii.eqb c0 "]"); [discriminate Eh |].
      change (String c0 (ue ++ t)) with (String c0 ue ++ t).
      now rewrite (L t eq_refl). }
  destruct (String.prefix "null" (String c r0)) eqn:En.
  { injection H as <- <-. apply prefix_drop in En.
    exists "null". split; [exact En |].
    split; [split; [discriminate | reflexivity] |].
    intros t _. now destruct t. }
  destruct (String.prefix "true" (String c r0)) eqn:Et.
  { injection H as <- <-. apply prefix_drop in Et.
    exists "true". split; [exact Et |].
    split; [split; [discriminate | reflexivity] |].
    intros t _. now destruct t. }
  destruct (String.prefix "false" (String c r0)) eqn:Ef.
  { injection H as <- <-. apply prefix_drop in Ef.
    exists "false". split; [exact Ef |].
    split; [split; [discriminate | reflexivity] |].
    intros t _. now destruct t. }
  destruct (Ascii.eqb c "-" || Json.is_digit c) eqn:Ed; [| discriminate H].
  destruct (parse_number_local _ _ _ H) as [u [Eu [Hu L]]].
  exists u. split; [exact Eu |]. split; [exact Hu |].
  intros t Ht.
  destruct u as [| c' u]; [destruct Hu as [Hne _]; contradiction |].
  cbn [append] in Eu. injection Eu as <- _.
  cbn [append]. unfold Json.value_step.
  destruct (Ascii.eqb_spec c dquote) as [E | _]; [contradiction |].
  destruct (Ascii.eqb_spec c "{") as [E | _]; [contradiction |].
  destruct (Ascii.eqb_spec c "[") as [E | _]; [contradiction |].
  destruct (number_start c (u ++ t) Ed) as [-> [-> ->]].
  rewrite Ed. exact (L t Ht).
Qed.

Lemma elements_step_local
    (pv : string -> Json.presult value)
    (pe : string -> Json.presult (list value)) :
  local after_number pv -> local any_text pe ->
  local any_text (Json.elements_step pv pe).
Proof.
  intros Lv Le s vs r H. unfold Json.elements_step in H.
  destruct (pv s) as [v r1 | |] eqn:Ev; try discriminate H.
  destruct (Lv _ _ _ Ev) as [uv [-> [Huv L1]]].
  destruct (Json.head_is "," (Json.skip_ws r1)) as [r2 |] eqn:E1.
  - apply head_is_eq in E1.
    destruct (skip_ws_split _ _ _ E1) as [w1 [-> [Hs1 Ha1]]].
    apply pmap_ok in H as [vs' [H ->]].
    destruct (Le _ _ _ H) as [ue [Eu [Hue L2]]].
    destruct (skip_ws_split_app _ _ _ Eu (proj1 Hue)) as [w2 [-> [Hs2 _]]].
    exists (uv ++ w1 ++ String "," (w2 ++ ue)).
    split; [now str_norm |].
    split; [apply clean_end_app, clean_end_app, clean_end_cons,
              clean_end_app, Hue |].
    intros t _. str_norm. unfold Json.elements_step.
    rewrite (L1 (w1 ++ String "," (w2 ++ ue ++ t))) by now apply Ha1.
    rewrite (Hs1 (w2 ++ ue ++ t)), head_is_cons.
    cbn [Ascii.eqb Bool.eqb]. now rewrite (Hs2 t), (L2 t eq_refl).
  - destruct (Json.head_is "]" (Json.skip_ws r1)) as [r2 |] eqn:E2;
      [| discriminate H].
    injection H as <- <-. apply head_is_eq in E2.
    destruct (skip_ws_split _ _ _ E2) as [w1 [-> [Hs1 Ha1]]].
    exists (uv ++ w1 ++ chr "]").
    split; [now str_norm |].
    split; [apply clean_end_app, clean_end_app, clean_end_chr; reflexivity |].
    intros t _. str_norm. unfold Json.elements_step.
    rewrite (L1 (w1 ++ String "]" t)) by now apply Ha1.
    rewrite (Hs1 t), !head_is_cons. reflexivity.
Qed.

Lemma members_step_local
    (pv : string -> Json.presult value)
    (pm : string -> Json.presult (list (string * value))) :
  local after_number pv -> local any_text pm ->
  local any_text (Json.members_step pv pm).
Proof.
  intros Lv Lm s kvs r H. unfold Json.members_step in H.
  destruct (Json.head_is dquote s) as [r0 |] eqn:E0; [| discriminate H].
  apply head_is_eq in E0. subst s.
  destruct (Json.parse_string_body r0) as [k r1 | |] eqn:Ek;
    try discriminate H.
  destruct (parse_string_body_local _ _ _ _ (le_n _) Ek) as [b [-> Lk]].
  destruct (Json.head_is ":" (Json.skip_ws r1)) as [r2 |] eqn:Ec;
    [| discriminate H].
  apply head_is_eq in Ec.
  destruct (skip_ws_split _ _ _ Ec) as [w1 [-> [Hs1 _]]].
  destruct (pv (Json.skip_ws r2)) as [v r3 | |] eqn:Ev; try discriminate H.
  destruct (Lv _ _ _ Ev) as [uv [Eu [Huv L1]]].
  destruct (skip_ws_split_app _ _ _ Eu (proj1 Huv)) as [w2 [-> [Hs2 _]]].
  destruct (Json.head_is "," (Json.skip_ws r3)) as [r4 |] eqn:E1.
  - apply head_is_eq in E1.
    destruct (skip_ws_split _ _ _ E1) as [w3 [-> [Hs3 Ha3]]].
    apply pmap_ok in H as [kvs' [H ->]].
    destruct (Lm _ _ _ H) as [um [Em [Hum L2]]].
    destruct (skip_ws_split_app _ _ _ Em (proj1 Hum)) as [w4 [-> [Hs4 _]]].
    exists (String dquote
              (b ++ String dquote
                 (w1 ++ String ":"
                    (w2 ++ uv ++ w3 ++ String "," (w4 ++ um))))).
    split; [now str_norm |].
    split; [apply clean_end_cons, clean_end_app, clean_end_cons,
              clean_end_app, clean_end_cons, clean_end_app, clean_end_app,
              clean_end_app, clean_end_cons, clean_end_app, Hum |].
    intros t _. str_norm. unfold Json.members_step.
    rewrite head_is_cons, Ascii.eqb_refl, Lk, Hs1, head_is_cons.
    cbn [Ascii.eqb Bool.eqb].
    rewrite (Hs2 (w3 ++ String "," (w4 ++ um ++ t))).
    rewrite (L1 (w3 ++ String "," (w4 ++ um ++ t))) by now apply Ha3.
    rewrite (Hs3 (w4 ++ um ++ t)), head_is_cons.
    cbn [Ascii.eqb Bool.eqb]. now rewrite (Hs4 t), (L2 t eq_refl).
  - destruct (Json.head_is "}" (Json.skip_ws r3)) as [r4 |] eqn:E2;
      [| discriminate H].
    injection H as <- <-. apply head_is_eq in E2.
    destruct (skip_ws_split _ _ _ E2) as [w3 [-> [Hs3 Ha3]]].
    exists (String dquote
              (b ++ String dquote
                 (w1 ++ String ":" (w2 ++ uv ++ w3 ++ chr "}")))).
    split; [now str_norm |].
    split; [apply clean_end_cons, clean_end_app, clean_end_cons,
              clean_end_app, clean_end_cons, clean_end_app, clean_end_app,
              clean_end_app, clean_end_chr; reflexivity |].
    intros t _. str_norm. unfold Json.members_step.
    rewrite head_is_cons, Ascii.eqb_refl, Lk, Hs1, head_is_cons.
    cbn [Ascii.eqb Bool.eqb].
    rewrite (Hs2 (w3 ++ String "}" t)).
    rewrite (L1 (w3 ++ String "}" t)) by now apply Ha3.
    rewrite (Hs3 t), !head_is_cons. reflexivity.
Qed.

(** The decoder reads a value and nothing beyond it. *)
Lemma parse_local (f : nat) :
  local after_number (Json.parse_value f)
  /\ local any_text (Json.parse_elements f)
  /\ local any_text (Json.parse_members f).
Proof.
  induction f as [| f [IHv [IHe IHm]]].
  - repeat split; intros s a r H; discriminate H.
  - split; [| split].
    + exact (value_step_local _ _ IHe IHm).
    + exact (elements_step_local _ _ IHv IHe).
    + exact (members_step_local _ _ IHv IHm).
Qed.

(** *** More fuel changes nothing *)

Lemma pmap_fuel {A B : Type} (g : A -> B) (x : Json.presult A) :
  Json.pmap g x <> Json.PFuel -> x <> Json.PFuel.
Proof. destruct x; simpl; congruence. Qed.

Lemma value_step_agree
    (pe pe' : string -> Json.presult (list value))
    (pm pm' : string -> Json.presult (list (string * value))) :
  agree pe pe' -> agree pm pm' ->
  agree (Json.value_step pe pm) (Json.value_step pe' pm').
Proof.
  intros He Hm s. unfold Json.value_step.
  destruct s as [| c r]; [reflexivity |].
  destruct (Ascii.eqb c dquote); [reflexivity |].
  destruct (Ascii.eqb c "{").
  { destruct (Json.head_is "}" (Json.skip_ws r)); [reflexivity |].
    intros H. apply pmap_fuel in H. now rewrite (Hm _ H). }
  destruct (Ascii.eqb c "[").
  { destruct (Json.head_is "]" (Json.skip_ws r)); [reflexivity |].
    intros H. apply pmap_fuel in H. now rewrite (He _ H). }
  reflexivity.
Qed.

Lemma elements_step_agree
    (pv pv' : string -> Json.presult value)
    (pe pe' : string -> Json.presult (list value)) :
  agree pv pv' -> agree pe pe' ->
  agree (Json.elements_step pv pe) (Json.elements_step pv' pe').
Proof.
  intros Hv He s. unfold Json.elements_step. intros H.
  assert (Hs : pv s <> Json.PFuel)
    by (intros E; rewrite E in H; now apply H).
  rewrite (Hv s Hs). destruct (pv s) as [v r | |]; try reflexivity.
  destruct (Json.head_is "," (Json.skip_ws r)); [| reflexivity].
  apply pmap_fuel in H. now rewrite (He _ H).
Qed.

Lemma members_step_agree
    (pv pv' : string -> Json.presult value)
    (pm pm' : string -> Json.presult (list (string * value))) :
  agree pv pv' -> agree pm pm' ->
  agree (Json.members_step pv pm) (Json.members_step pv' pm').
Proof.
  intros Hv Hm s. unfold Json.members_step. intros H.
  destruct (Json.head_is dquote s) as [r |]; [| reflexivity].
  destruct (Json.parse_string_body r) as [k r1 | |]; try reflexivity.
  destruct (Json.head_is ":" (Json.skip_ws r1)) as [r2 |]; [| reflexivity].
  assert (Hs : pv (Json.skip_ws r2) <> Json.PFuel)
    by (intros E; rewrite E in H; now apply H).
  rewrite (Hv _ Hs).
  destruct (pv (Json.skip_ws r2)) as [v r3 | |]; try reflexivity.
  destruct (Json.head_is "," (Json.skip_ws r3)); [| reflexivity].
  apply pmap_fuel in H. now rewrite (Hm _ H).
Qed.

Lemma parse_fuel_succ (f : nat) :
  agree (Json.parse_value f) (Json.parse_value (S f))
  /\ agree (Json.parse_elements f) (Json.parse_elements (S f))
  /\ agree (Json.parse_members f) (Json.parse_members (S f)).
Proof.
  induction f as [| f [IHv [IHe IHm]]].
  - repeat split; intros s H; now contradiction H.
  - split; [| split].
    + exact (value_step_agree _ _ _ _ IHe IHm).
    + exact (elements_step_agree _ _ _ _ IHv IHe).
    + exact (members_step_agree _ _ _ _ IHv IHm).
Qed.

Lemma parse_value_fuel (f f' : nat) (s : string) :
  f <= f' -> Json.parse_value f s <> Json.PFuel ->
  Json.parse_value f' s = Json.parse_value f s.
Proof.
  induction 1 as [| f' Hle IH]; [reflexivity |].
  intros H. rewrite <- (IH H).
  apply (proj1 (parse_fuel_succ f')). now rewrite (IH H).
Qed.

(** *** Surrounding white space *)

Lemma str_length_app (a b : string) :
  String.length (a ++ b) = String.length a + String.length b.
Proof. induction a as [| c a IH]; simpl; [reflexivity | now rewrite IH]. Qed.

Lemma number_start_not_space (c : ascii) :
  Ascii.eqb c "-" || Json.is_digit c = true -> isspace c = false.
Proof.
  destruct c as [[] [] [] [] [] [] [] []]; intros H;
    try reflexivity; discriminate H.
Qed.

(** A value starts with a character that is no white space. *)
Lemma value_starts_clean (f : nat) (s r : string) (v : value) :
  Json.parse_value f s = Json.POk v r -> starts_clean s.
Proof.
  destruct f as [| f]; [discriminate |]. cbn [Json.parse_value].
  unfold Json.value_step. destruct s as [| c r0]; [discriminate |].
  cbn [starts_clean].
  destruct (Ascii.eqb_spec c dquote) as [-> | _]; [reflexivity |].
  destruct (Ascii.eqb_spec c "{") as [-> | _]; [reflexivity |].
  destruct (Ascii.eqb_spec c "[") as [-> | _]; [reflexivity |].
  destruct (String.prefix "null" (String c r0)) eqn:En.
  { apply prefix_drop in En. injection En as -> _. reflexivity. }
  destruct (String.prefix "true" (String c r0)) eqn:Et.
  { apply prefix_drop in Et. injection Et as -> _. reflexivity. }
  destruct (String.prefix "false" (String c r0)) eqn:Ef.
  { apply prefix_drop in Ef. injection Ef as -> _. reflexivity. }
  destruct (Ascii.eqb c "-" || Json.is_digit c) eqn:Ed; [| discriminate].
  intros _. now apply number_start_not_space.
Qed.

Lemma lstrip_skip_ws (s : string) :
  starts_clean (Json.skip_ws s) -> lstrip s = Json.skip_ws s.
Proof.
  induction s as [| c s IH]; [reflexivity |].
  cbn [Json.skip_ws lstrip]. destruct (Json.is_ws c) eqn:Ec.
  - rewrite (is_ws_isspace c Ec). exact IH.
  - cbn [starts_clean]. now intros ->.
Qed.

Lemma skip_ws_clean (s : string) : starts_clean s -> Json.skip_ws s = s.
Proof.
  destruct s as [| c s]; [reflexivity |]. cbn [starts_clean Json.skip_ws].
  intros H. destruct (Json.is_ws c) eqn:Ec; [| reflexivity].
  rewrite (is_ws_isspace c Ec) in H. discriminate H.
Qed.

Lemma rstrip_app_ws (r : string) :
  Json.skip_ws r = "" -> forall u, rstrip (u ++ r) = rstrip u.
Proof.
  induction r as [| c r IH]; intros H u; [now rewrite append_empty_r |].
  cbn [Json.skip_ws] in H. destruct (Json.is_ws c) eqn:Ec; [| discriminate H].
  rewrite <- append_cons_assoc, (IH H).
  apply rstrip_app_space, is_ws_isspace, Ec.
Qed.

(** A text that decodes still decodes, to the same value, once stripped
    of its surrounding white space. *)
Theorem loads_strip (s : string) (v : value) :
  Json.loads s = inr v -> Json.loads (strip s) = inr v.
Proof.
  unfold Json.loads at 1.
  destruct (Json.parse_value (Json.fuel_for s) (Json.skip_ws s))
    as [v' r | m |] eqn:E; try discriminate.
  destruct (Json.skip_ws r) eqn:Er; [| discriminate].
  intros H. injection H as ->.
  pose proof (value_starts_clean _ _ _ _ E) as Hstart.
  destruct (proj1 (parse_local (Json.fuel_for s)) _ _ _ E) as [u [Eu [Hu L]]].
  assert (Hstrip : strip s = u).
  { unfold strip. rewrite (lstrip_skip_ws s Hstart), Eu.
    rewrite (rstrip_app_ws r Er u). exact (proj2 Hu). }
  assert (Hclean : starts_clean u).
  { rewrite Eu in Hstart. destruct u as [| c u]; [exact I | exact Hstart]. }
  assert (Hlen : String.length u <= String.length s).
  { pose proof (skip_ws_length s) as Hs. rewrite Eu, str_length_app in Hs.
    lia. }
  specialize (L "" eq_refl). rewrite append_empty_r in L.
  assert (Hfuel : Json.parse_value (Json.fuel_for u) u <> Json.PFuel).
  { apply (proj1 (parse_enough (Json.fuel_for u))).
    unfold Json.fuel_for. lia. }
  assert (Hu' : Json.parse_value (Json.fuel_for u) u = Json.POk v "").
  { rewrite <- L. symmetry. apply parse_value_fuel; [| exact Hfuel].
    unfold Json.fuel_for. lia. }
  rewrite Hstrip. unfold Json.loads.
  rewrite (skip_ws_clean u Hclean), Hu'. reflexivity.
Qed.
(* ================================================================== *)
(** ** Code fences *)
(* ================================================================== *)

(** Both modules run the parse step on the content of the first choice. *)
Lemma judge_runs_parse_response (W : world) (client : openai_client)
    (ct cx cat : value) (text raw : string) (rest : list (option string))
    (h : list event) :
  chat_completion W (network_calls h) (api_key client)
    (FactVerifier.get_model_name W)
    (FactVerifier.VERIFICATION_PROMPT (Py.str ct) (Py.str cx) text) 1000
  = inr (Some raw :: rest) ->
  fst (FactVerifier.judge W client ct cx cat text h)
  = match parse_response raw with
    | inl e => inl e
    | inr parsed =>
        match Py.set_item parsed "claim" ct with
        | inl e => inl e
        | inr r1 => Py.set_item r1 "category" cat
        end
    end.
Proof.
  intros Hc. unfold FactVerifier.judge, parse_response. rewrite Hc.
  unfold message_content.
  destruct (strip_code_fence raw) as [e | content]; [reflexivity |].
  destruct (Json.loads content) as [e | parsed]; [reflexivity |].
  destruct (Py.set_item parsed "claim" ct); reflexivity.
Qed.

Lemma request_claims_runs_parse_response (W : world) (client : openai_client)
    (document_text raw : string) (rest : list (option string))
    (h : list event) :
  chat_completion W (network_calls h) (api_key client)
    (ClaimExtractor.get_model_name W)
    (ClaimExtractor.CLAIM_EXTRACTION_PROMPT document_text) 4000
  = inr (Some raw :: rest) ->
  fst (ClaimExtractor.request_claims W client document_text h)
  = match parse_response raw with
    | inl e => inl e
    | inr (VList claims) => inr claims
    | inr claims => inr [claims]
    end.
Proof.
  intros Hc. unfold ClaimExtractor.request_claims, parse_response. rewrite Hc.
  unfold message_content.
  destruct (strip_code_fence raw) as [e | content]; [reflexivity |].
  destruct (Json.loads content) as [e | parsed]; [reflexivity |].
  destruct parsed; reflexivity.
Qed.

(** C7, as the code has it.  For a payload that holds no triple backtick
    of its own, wrapped in a code fence with or without the [json] tag,
    the normalisation yields the payload stripped of surrounding white
    space; the parse step gives what it gives for the unfenced payload,
    and when the payload is a JSON text it gives the very data
    [json.loads] decodes from the payload.  The step is the one both
    [extract_claims] and [verify_claim] run on [message_content]. *)
Theorem fenced_response_parses_like_unfenced (tag payload : string) :
  tag = "" \/ tag = "json" ->
  contains "```" payload = false ->
  strip_code_fence (fenced tag payload) = inr (strip payload)
  /\ parse_response (fenced tag payload) = parse_response payload
  /\ forall v, Json.loads payload = inr v ->
               parse_response (fenced tag payload) = inr v.
Proof.
  intros Htag H. unfold parse_response.
  rewrite (strip_code_fence_fenced tag payload Htag H),
    (strip_code_fence_plain payload H).
  split; [reflexivity | split]; [reflexivity |].
  intros v Hv. now apply loads_strip.
Qed.

Lemma fenced_response_parses_like_unfenced_witness :
  parse_response (fenced "json" Sample.judgment)
  = inr (VDict [("status", VStr "False"); ("confidence", VFloat 9 (-1));
                ("explanation", VStr "12%, not 40%");
                ("correct_information", VStr "12%"); ("sources", VList [])]).
Proof.
  destruct (fenced_response_parses_like_unfenced "json" Sample.judgment)
    as [_ [_ Hsame]].
  - right. reflexivity.
  - vm_compute. reflexivity.
  - apply Hsame. vm_compute. reflexivity.
Defined.

(** C7, as stated, fails: the array [["```"]] decodes on its own, and
    between fences the split at the first inner backticks leaves the
    decoder an unterminated string. *)
Lemma fenced_backticks_do_not_parse :
  Json.loads ("[" ++ quoted "```" ++ "]") = inr (VList [VStr "```"])
  /\ parse_response ("[" ++ quoted "```" ++ "]") = inr (VList [VStr "```"])
  /\ parse_response (fenced "json" ("[" ++ quoted "```" ++ "]"))
     = raise JSONDecodeError "Unterminated string starting at"
  /\ parse_response (fenced "" ("[" ++ quoted "```" ++ "]"))
     = raise JSONDecodeError "Unterminated string starting at".
Proof. repeat split; vm_compute; reflexivity. Qed.

(* ================================================================== *)
(** ** The Claim Verifier: one claim *)
(* ================================================================== *)

Section Verifier.

Variable W : world.

(** On a claim dictionary, [verify_claim] is the search followed by the
    evidence block, the client and the judgment. *)
Lemma verify_claim_dict (d : dict) (h : list event) :
  FactVerifier.verify_claim W (VDict d) h =
  match FactVerifier.search_web W (query_of d) 5 h with
  | (inl e, h1) =>
      (inr (FactVerifier.unverifiable (claim_text_of d) (category_of d)
              ("Could not search web: " ++ exn_str e)), h1)
  | (inr search_results, h1) =>
      match FactVerifier.format_search_results search_results with
      | inl e => (inl e, h1)
      | inr search_text =>
          match FactVerifier.get_openai_client W with
          | inl e => (inl e, h1)
          | inr client =>
              match FactVerifier.judge W client (claim_text_of d)
                      (context_of d) (category_of d) search_text h1 with
              | (inr verdict, h2) => (inr verdict, h2)
              | (inl e, h2) =>
                  (inr (FactVerifier.unverifiable (claim_text_of d)
                          (category_of d)
                          ("Verification analysis failed: " ++ exn_str e)), h2)
              end
          end
      end
  end.
Proof.
  unfold FactVerifier.verify_claim, bind, lift, try_except, ret,
    query_of, claim_text_of, context_of, category_of, Py.get.
  destruct (FactVerifier.search_web W _ 5 h) as [[e | sr] h1];
    [reflexivity |].
  destruct (FactVerifier.format_search_results sr); [reflexivity |].
  destruct (FactVerifier.get_openai_client W); reflexivity.
Qed.

(** A search appends at most its own request to the trace. *)
Lemma search_web_trace (q : value) (n : Z) (h h1 : list event)
    (r : result value) :
  FactVerifier.search_web W q n h = (r, h1) ->
  h1 = h \/ exists key, h1 = (h ++ [EvSearch key q "advanced" n true])%list.
Proof.
  unfold FactVerifier.search_web, bind, lift.
  destruct (FactVerifier.get_tavily_client W) as [e | key].
  - intros H; inversion H; now left.
  - destruct (tavily_search W (network_calls h) key q n);
      intros H; inversion H; right; now exists key.
Qed.

(** The judgment appends exactly its own request to the trace. *)
Lemma judge_trace (client : openai_client) (ct cx cat : value)
    (text : string) (h h1 : list event) (r : result value) :
  FactVerifier.judge W client ct cx cat text h = (r, h1) ->
  exists ev, is_completion_call ev = true /\ h1 = (h ++ [ev])%list.
Proof.
  unfold FactVerifier.judge.
  set (ev := EvCompletion _ _ _ _ _ _).
  intros H. exists ev. split; [reflexivity |].
  destruct (chat_completion W _ _ _ _ _) as [e | choices];
    [now inversion H |].
  destruct (message_content choices) as [e | content]; [now inversion H |].
  destruct (Json.loads content) as [e | parsed]; [now inversion H |].
  destruct (Py.set_item parsed "claim" ct); now inversion H.
Qed.

End Verifier.

(** A response of the documented shape always formats. *)
Lemma format_results_dicts (rs : list value) :
  forallb is_dict rs = true ->
  exists ts, FactVerifier.format_results rs = inr ts.
Proof.
  induction rs as [| r rs IH]; simpl; intros H.
  - now exists [].
  - apply andb_prop in H as [Hr Hrs].
    destruct r; try discriminate Hr.
    destruct (IH Hrs) as [ts Hts]. simpl. rewrite Hts. eauto.
Qed.

Lemma well_formed_response_formats (r : value) :
  well_formed_response r = true ->
  exists text, FactVerifier.format_search_results r = inr text.
Proof.
  destruct r as [| | | | | | d]; try discriminate.
  unfold well_formed_response, FactVerifier.format_search_results.
  destruct (Py.dict_get d "results" (VList [])) as [| | | | | l |];
    try discriminate.
  intros H. cbn [Py.slice_to Py.iter].
  destruct (format_results_dicts _ H) as [ts Hts]. rewrite Hts. eauto.
Qed.

(** Setting a key leaves the other keys as they were. *)
Lemma lookup_dict_set_other (d : dict) (k k' : string) (v : value) :
  k <> k' -> Py.lookup k (Py.dict_set d k' v) = Py.lookup k d.
Proof.
  intros Hne. induction d as [| [k0 v0] d IH]; simpl.
  - destruct (String.eqb_spec k k'); [contradiction | reflexivity].
  - destruct (String.eqb_spec k' k0) as [-> | Hk]; simpl.
    + destruct (String.eqb_spec k k0); [contradiction | reflexivity].
    + destruct (String.eqb_spec k k0); [reflexivity | exact IH].
Qed.

Lemma dict_get_set_other (d : dict) (k k' : string) (v dflt : value) :
  k <> k' -> Py.dict_get (Py.dict_set d k' v) k dflt = Py.dict_get d k dflt.
Proof.
  intros Hne. unfold Py.dict_get. now rewrite lookup_dict_set_other.
Qed.

(** C3. When the web search raises, [verify_claim] returns at once the
    verdict with status "Unverifiable", confidence 0.0, an empty
    [correct_information] and an empty list of sources, whose
    explanation names the search failure; what the call added to the
    trace holds no request to the completion provider. *)
Theorem search_failure_short_circuits
    (W : world) (d : dict) (h h1 : list event) (e : exn) :
  FactVerifier.search_web W (query_of d) 5 h = (inl e, h1) ->
  exists verdict evs,
    FactVerifier.verify_claim W (VDict d) h = (inr verdict, h1)
    /\ field "status" verdict = VStr "Unverifiable"
    /\ field "confidence" verdict = VFloat 0 (-1)
    /\ field "correct_information" verdict = VStr ""
    /\ field "sources" verdict = VList []
    /\ field "explanation" verdict
       = VStr ("Could not search web: " ++ exn_str e)
    /\ h1 = (h ++ evs)%list
    /\ existsb is_completion_call evs = false.
Proof.
  intros Hs.
  exists (FactVerifier.unverifiable (claim_text_of d) (category_of d)
            ("Could not search web: " ++ exn_str e)).
  destruct (search_web_trace W _ _ _ _ _ Hs) as [-> | [key ->]].
  - exists []. rewrite verify_claim_dict, Hs, app_nil_r.
    repeat split; reflexivity.
  - exists [EvSearch key (query_of d) "advanced" 5 true].
    rewrite verify_claim_dict, Hs. repeat split; reflexivity.
Qed.

Lemma search_failure_short_circuits_witness :
  exists verdict evs,
    FactVerifier.verify_claim Sample.search_down Sample.claim []
    = (inr verdict,
       [EvSearch "tvly" (VStr "Company X revenue growth 2023") "advanced" 5
                 true])
    /\ field "status" verdict = VStr "Unverifiable"
    /\ field "confidence" verdict = VFloat 0 (-1)
    /\ field "correct_information" verdict = VStr ""
    /\ field "sources" verdict = VList []
    /\ field "explanation" verdict
       = VStr ("Could not search web: "
               ++ exn_str (Exn ValueError "Web search failed: timed out"))
    /\ [EvSearch "tvly" (VStr "Company X revenue growth 2023") "advanced" 5
                 true] = ([] ++ evs)%list
    /\ existsb is_completion_call evs = false.
Proof.
  apply (search_failure_short_circuits Sample.search_down Sample.claim_dict
           [] _ (Exn ValueError "Web search failed: timed out")).
  reflexivity.
Defined.

(** The fields of the fallback verdict. *)
Lemma unverifiable_fields (ct cat : value) (msg : string) :
  let verdict := FactVerifier.unverifiable ct cat msg in
  field "status" verdict = VStr "Unverifiable"
  /\ field "confidence" verdict = VFloat 0 (-1)
  /\ field "explanation" verdict = VStr msg
  /\ valid_status verdict = true
  /\ valid_confidence verdict = true.
Proof. repeat split; reflexivity. Qed.

(** When the judgment returns, the model's first choice decoded to a JSON
    object, and the verdict is that object with [claim] and [category]
    set from the claim. *)
Lemma judge_success (W : world) (client : openai_client) (ct cx cat : value)
    (text : string) (h h1 : list event) (verdict : value) :
  FactVerifier.judge W client ct cx cat text h = (inr verdict, h1) ->
  exists raw rest parsed,
    chat_completion W (network_calls h) (api_key client)
      (FactVerifier.get_model_name W)
      (FactVerifier.VERIFICATION_PROMPT (Py.str ct) (Py.str cx) text) 1000
    = inr (Some raw :: rest)
    /\ parse_response raw = inr (VDict parsed)
    /\ verdict = VDict (Py.dict_set (Py.dict_set parsed "claim" ct)
                                    "category" cat).
Proof.
  unfold FactVerifier.judge, parse_response.
  destruct (chat_completion W _ _ _ _ _) as [e | [| [raw |] rest]];
    try (intros H; discriminate H).
  unfold message_content.
  destruct (strip_code_fence raw) as [e | content] eqn:Hc;
    [intros H; discriminate H |].
  destruct (Json.loads content) as [e | parsed] eqn:Hl;
    [intros H; discriminate H |].
  destruct parsed; try (intros H; discriminate H).
  cbn [Py.set_item]. intros H. inversion H; subst.
  exists raw, rest, d. rewrite Hc, Hl. repeat split; reflexivity.
Qed.

(** C1, as the code has it.  When the judgment client can be built (the
    key OPENROUTER_API_KEY is configured) and the search response, if
    there is one, has the documented shape, [verify_claim] returns
    exactly one verdict for every claim dictionary and raises nothing,
    and the verdict is determined by what the providers answered:
    - a failed search (a missing search key included) gives the fallback
      verdict with the reason "Could not search web: ...";
    - after a search, one completion request is sent, and a completion
      call that raises, a response without a first choice or without
      content, a content that [json.loads] rejects, and a decoded value
      that takes no [claim] entry each give the fallback verdict with
      the reason "Verification analysis failed: " followed by the
      message of that very exception;
    - a content that decodes to a JSON object gives that object with
      [claim] and [category] set.
    The fallback verdict has status "Unverifiable", confidence 0.0 and
    the reason in [explanation]. *)
Theorem verify_claim_converts_failures
    (W : world) (d : dict) (h : list event) (client : openai_client) :
  FactVerifier.get_openai_client W = inr client ->
  (forall key r,
      tavily_search W (network_calls h) key (query_of d) 5 = inr r ->
      well_formed_response r = true) ->
  let fallback reason :=
    FactVerifier.unverifiable (claim_text_of d) (category_of d) reason in
  let failed e := fallback ("Verification analysis failed: " ++ exn_str e) in
  exists verdict h',
    FactVerifier.verify_claim W (VDict d) h = (inr verdict, h')
    /\ ((exists e,
           FactVerifier.search_web W (query_of d) 5 h = (inl e, h')
           /\ verdict = fallback ("Could not search web: " ++ exn_str e))
        \/ (exists sr text h1 prompt,
              FactVerifier.search_web W (query_of d) 5 h = (inr sr, h1)
              /\ FactVerifier.format_search_results sr = inr text
              /\ prompt = FactVerifier.VERIFICATION_PROMPT
                            (Py.str (claim_text_of d)) (Py.str (context_of d))
                            text
              /\ h' = (h1 ++ [EvCompletion (api_key client) (base_url client)
                                (FactVerifier.get_model_name W) prompt
                                (1, -1)%Z 1000])%list
              /\ ((exists e,
                     chat_completion W (network_calls h1) (api_key client)
                       (FactVerifier.get_model_name W) prompt 1000 = inl e
                     /\ verdict = failed e)
                  \/ (exists choices,
                        chat_completion W (network_calls h1) (api_key client)
                          (FactVerifier.get_model_name W) prompt 1000
                        = inr choices
                        /\ ((exists e,
                               message_content choices = inl e
                               /\ verdict = failed e)
                            \/ (exists content,
                                  message_content choices = inr content
                                  /\ ((exists e,
                                         Json.loads content = inl e
                                         /\ verdict = failed e)
                                      \/ (exists decoded e,
                                            Json.loads content = inr decoded
                                            /\ Py.set_item decoded "claim"
                                                 (claim_text_of d) = inl e
                                            /\ verdict = failed e)
                                      \/ (exists parsed,
                                            Json.loads content
                                            = inr (VDict parsed)
                                            /\ verdict
                                               = VDict
                                                   (Py.dict_set
                                                      (Py.dict_set parsed
                                                         "claim"
                                                         (claim_text_of d))
                                                      "category"
                                                      (category_of d))))))))))
    /\ (forall reason,
          verdict = fallback reason ->
          field "status" verdict = VStr "Unverifiable"
          /\ field "confidence" verdict = VFloat 0 (-1)
          /\ field "explanation" verdict = VStr reason).
Proof.
  intros Hclient Hshape fallback failed.
  assert (Hfields : forall verdict reason,
             verdict = fallback reason ->
             field "status" verdict = VStr "Unverifiable"
             /\ field "confidence" verdict = VFloat 0 (-1)
             /\ field "explanation" verdict = VStr reason)
    by (intros verdict reason ->; repeat split; reflexivity).
  rewrite verify_claim_dict, Hclient.
  destruct (FactVerifier.search_web W (query_of d) 5 h) as [[e | sr] h1] eqn:Hs.
  - eexists; eexists; split; [reflexivity |].
    split; [| apply Hfields]. left. exists e. split; reflexivity.
  - assert (Hwf : well_formed_response sr = true).
    { revert Hs. unfold FactVerifier.search_web, bind, lift.
      destruct (FactVerifier.get_tavily_client W) as [e | key];
        [intros H; discriminate H |].
      destruct (tavily_search W (network_calls h) key (query_of d) 5)
        as [e | r] eqn:Hr; intros H; inversion H; subst.
      exact (Hshape key sr Hr). }
    destruct (well_formed_response_formats sr Hwf) as [text Htext].
    rewrite Htext. unfold FactVerifier.judge.
    set (prompt := FactVerifier.VERIFICATION_PROMPT _ _ text).
    destruct (chat_completion W (network_calls h1) (api_key client)
                (FactVerifier.get_model_name W) prompt 1000)
      as [e | choices] eqn:Hc.
    { eexists; eexists; split; [reflexivity |].
      split; [| apply Hfields]. right. exists sr, text, h1, prompt.
      do 4 (split; [first [reflexivity | eassumption] |]). left. exists e. split; [assumption | reflexivity]. }
    destruct (message_content choices) as [e | content] eqn:Hm.
    { eexists; eexists; split; [reflexivity |].
      split; [| apply Hfields]. right. exists sr, text, h1, prompt.
      do 4 (split; [first [reflexivity | eassumption] |]). right. exists choices.
      split; [assumption |]. left. exists e. split; [assumption | reflexivity]. }
    destruct (Json.loads content) as [e | decoded] eqn:Hl.
    { eexists; eexists; split; [reflexivity |].
      split; [| apply Hfields]. right. exists sr, text, h1, prompt.
      do 4 (split; [first [reflexivity | eassumption] |]). right. exists choices.
      split; [assumption |]. right. exists content.
      split; [assumption |]. left. exists e. split; [assumption | reflexivity]. }
    destruct (Py.set_item decoded "claim" (claim_text_of d)) as [e | r1] eqn:Hset.
    { eexists; eexists; split; [reflexivity |].
      split; [| apply Hfields]. right. exists sr, text, h1, prompt.
      do 4 (split; [first [reflexivity | eassumption] |]). right. exists choices.
      split; [assumption |]. right. exists content.
      split; [assumption |]. right; left. exists decoded, e.
      split; [assumption |]. split; [exact Hset | reflexivity]. }
    destruct decoded as [| | | | | | parsed]; try discriminate Hset.
    cbn [Py.set_item] in Hset. injection Hset as <-. cbn [Py.set_item].
    eexists; eexists; split; [reflexivity |].
    split; [| apply Hfields]. right. exists sr, text, h1, prompt.
    do 4 (split; [first [reflexivity | eassumption] |]). right. exists choices.
    split; [assumption |]. right. exists content.
    split; [assumption |]. right; right. exists parsed.
    split; [assumption | reflexivity].
Qed.

Lemma verify_claim_converts_failures_witness :
  let W := Sample.completion_down in
  let d := Sample.claim_dict in
  let client := OpenAI "sk-or" "https://openrouter.ai/api/v1" in
  let h : list event := [] in
  let fallback reason :=
    FactVerifier.unverifiable (claim_text_of d) (category_of d) reason in
  let failed e := fallback ("Verification analysis failed: " ++ exn_str e) in
  exists verdict h',
    FactVerifier.verify_claim W (VDict d) h = (inr verdict, h')
    /\ ((exists e,
           FactVerifier.search_web W (query_of d) 5 h = (inl e, h')
           /\ verdict = fallback ("Could not search web: " ++ exn_str e))
        \/ (exists sr text h1 prompt,
              FactVerifier.search_web W (query_of d) 5 h = (inr sr, h1)
              /\ FactVerifier.format_search_results sr = inr text
              /\ prompt = FactVerifier.VERIFICATION_PROMPT
                            (Py.str (claim_text_of d)) (Py.str (context_of d))
                            text
              /\ h' = (h1 ++ [EvCompletion (api_key client) (base_url client)
                                (FactVerifier.get_model_name W) prompt
                                (1, -1)%Z 1000])%list
              /\ ((exists e,
                     chat_completion W (network_calls h1) (api_key client)
                       (FactVerifier.get_model_name W) prompt 1000 = inl e
                     /\ verdict = failed e)
                  \/ (exists choices,
                        chat_completion W (network_calls h1) (api_key client)
                          (FactVerifier.get_model_name W) prompt 1000
                        = inr choices
                        /\ ((exists e,
                               message_content choices = inl e
                               /\ verdict = failed e)
                            \/ (exists content,
                                  message_content choices = inr content
                                  /\ ((exists e,
                                         Json.loads content = inl e
                                         /\ verdict = failed e)
                                      \/ (exists decoded e,
                                            Json.loads content = inr decoded
                                            /\ Py.set_item decoded "claim"
                                                 (claim_text_of d) = inl e
                                            /\ verdict = failed e)
                                      \/ (exists parsed,
                                            Json.loads content
                                            = inr (VDict parsed)
                                            /\ verdict
                                               = VDict
                                                   (Py.dict_set
                                                      (Py.dict_set parsed
                                                         "claim"
                                                         (claim_text_of d))
                                                      "category"
                                                      (category_of d))))))))))
    /\ (forall reason,
          verdict = fallback reason ->
          field "status" verdict = VStr "Unverifiable"
          /\ field "confidence" verdict = VFloat 0 (-1)
          /\ field "explanation" verdict = VStr reason).
Proof.
  intros W d client h.
  apply (verify_claim_converts_failures W d h client).
  - reflexivity.
  - intros key r H. injection H as <-. reflexivity.
Defined.

(** The verdict for a completion that is no JSON. *)
Example garbled_completion_example :
  fst (FactVerifier.verify_claim Sample.garbled Sample.claim [])
  = inr (FactVerifier.unverifiable
           (VStr "Company X grew revenue 40% in 2023.") (VStr "Financial")
           "Verification analysis failed: Expecting value").
Proof. vm_compute. reflexivity. Qed.

(** The verdict for a completion call that raises. *)
Example completion_failure_example :
  FactVerifier.verify_claim Sample.completion_down Sample.claim []
  = (inr (FactVerifier.unverifiable
            (VStr "Company X grew revenue 40% in 2023.") (VStr "Financial")
            "Verification analysis failed: timed out"),
     [EvSearch "tvly" (VStr "Company X revenue growth 2023") "advanced" 5 true;
      EvCompletion "sk-or" "https://openrouter.ai/api/v1"
        "google/gemma-2-9b-it"
        (FactVerifier.VERIFICATION_PROMPT "Company X grew revenue 40% in 2023."
           "Annual results"
           (match FactVerifier.format_search_results Sample.evidence with
            | inr t => t
            | inl _ => ""
            end))
        (1, -1)%Z 1000]).
Proof. vm_compute. reflexivity. Qed.

(** C1, as stated, fails: with the search key configured and the
    judgment key missing, the search succeeds and the [ValueError] of
    [get_openai_client], raised between the two [try] blocks, reaches the
    caller. *)
Lemma verify_claim_raises_without_judgment_key :
  FactVerifier.verify_claim Sample.no_judgment_key Sample.claim [] =
  (inl (Exn ValueError
          "API key not found in secrets. Please configure OPENROUTER_API_KEY."),
   [EvSearch "tvly" (VStr "Company X revenue growth 2023") "advanced" 5 true]).
Proof. vm_compute. reflexivity. Qed.

(** The evidence block is built outside the [try] blocks as well: a
    response whose [results] is [null] makes the slice [[:5]] raise, and
    the [TypeError] reaches the caller. *)
Remark verify_claim_raises_on_malformed_response :
  fst (FactVerifier.verify_claim
         (Sample.constant_world Sample.both_keys
            (inr (VDict [("results", VNone)])) (inr [Some Sample.judgment]))
         Sample.claim [])
  = inl (Exn TypeError "object is not subscriptable").
Proof. vm_compute. reflexivity. Qed.

(** C9, as the code has it.  A verdict [verify_claim] returns is either
    the fallback verdict, whose status is "Unverifiable" and whose
    confidence is 0.0, or the JSON object the model returned with [claim]
    and [category] set: its status and confidence are the model's,
    unchecked. *)
Theorem verdict_status_and_confidence
    (W : world) (d : dict) (h h' : list event) (verdict : value) :
  FactVerifier.verify_claim W (VDict d) h = (inr verdict, h') ->
  (field "status" verdict = VStr "Unverifiable"
   /\ field "confidence" verdict = VFloat 0 (-1)
   /\ valid_status verdict = true
   /\ valid_confidence verdict = true)
  \/ (exists calls key model prompt raw rest parsed,
        chat_completion W calls key model prompt 1000 = inr (Some raw :: rest)
        /\ parse_response raw = inr (VDict parsed)
        /\ verdict = VDict (Py.dict_set (Py.dict_set parsed "claim"
                                           (claim_text_of d))
                                        "category" (category_of d))
        /\ field "status" verdict = Py.dict_get parsed "status" VNone
        /\ field "confidence" verdict = Py.dict_get parsed "confidence" VNone).
Proof.
  rewrite verify_claim_dict.
  destruct (FactVerifier.search_web W (query_of d) 5 h) as [[e | sr] h1].
  - intros H; inversion H; subst. left.
    repeat split; reflexivity.
  - destruct (FactVerifier.format_search_results sr) as [e | text];
      [intros H; discriminate H |].
    destruct (FactVerifier.get_openai_client W) as [e | client];
      [intros H; discriminate H |].
    destruct (FactVerifier.judge W client (claim_text_of d) (context_of d)
                (category_of d) text h1) as [[e | v] h2] eqn:Hj;
      intros H; inversion H; subst.
    + left. repeat split; reflexivity.
    + right. destruct (judge_success _ _ _ _ _ _ _ _ _ Hj)
        as [raw [rest [parsed [Hc [Hp Hv]]]]].
      exists (network_calls h1), (api_key client),
        (FactVerifier.get_model_name W),
        (FactVerifier.VERIFICATION_PROMPT (Py.str (claim_text_of d))
           (Py.str (context_of d)) text), raw, rest, parsed.
      repeat split; try assumption; subst verdict; unfold field;
        rewrite !dict_get_set_other by discriminate; reflexivity.
Qed.

Lemma verdict_status_and_confidence_witness :
  let verdict :=
    VDict [("status", VStr "False"); ("confidence", VFloat 9 (-1));
           ("explanation", VStr "12%, not 40%");
           ("correct_information", VStr "12%"); ("sources", VList []);
           ("claim", VStr "Company X grew revenue 40% in 2023.");
           ("category", VStr "Financial")] in
  (field "status" verdict = VStr "Unverifiable"
   /\ field "confidence" verdict = VFloat 0 (-1)
   /\ valid_status verdict = true
   /\ valid_confidence verdict = true)
  \/ (exists calls key model prompt raw rest parsed,
        chat_completion Sample.healthy calls key model prompt 1000
        = inr (Some raw :: rest)
        /\ parse_response raw = inr (VDict parsed)
        /\ verdict
           = VDict (Py.dict_set (Py.dict_set parsed "claim"
                                   (claim_text_of Sample.claim_dict))
                                "category" (category_of Sample.claim_dict))
        /\ field "status" verdict = Py.dict_get parsed "status" VNone
        /\ field "confidence" verdict = Py.dict_get parsed "confidence" VNone).
Proof.
  refine (verdict_status_and_confidence Sample.healthy Sample.claim_dict
            [] (snd (FactVerifier.verify_claim Sample.healthy Sample.claim []))
            _ _).
  vm_compute. reflexivity.
Defined.

(** C9, as stated, fails: the model answers
    [{"status": "Maybe", "confidence": 7}] and the verdict carries both
    values as they are. *)
Lemma loose_verdict_escapes_enumeration :
  exists h',
    FactVerifier.verify_claim Sample.loose_model Sample.claim []
    = (inr (VDict [("status", VStr "Maybe"); ("confidence", VInt 7);
                   ("claim", VStr "Company X grew revenue 40% in 2023.");
                   ("category", VStr "Financial")]), h')
    /\ valid_status
         (VDict [("status", VStr "Maybe"); ("confidence", VInt 7);
                 ("claim", VStr "Company X grew revenue 40% in 2023.");
                 ("category", VStr "Financial")]) = false
    /\ valid_confidence
         (VDict [("status", VStr "Maybe"); ("confidence", VInt 7);
                 ("claim", VStr "Company X grew revenue 40% in 2023.");
                 ("category", VStr "Financial")]) = false.
Proof.
  eexists. split; [vm_compute; reflexivity |]. split; reflexivity.
Qed.

(* ================================================================== *)
(** ** The Verification Orchestrator: the batch *)
(* ================================================================== *)

Section Orchestrator.

Variable W : world.
Variable cb : option callback.
Variable total : Z.

(** One turn of the loop. *)
Lemma verify_from_cons (i : Z) (claim : value) (rest : list value)
    (h : list event) :
  FactVerifier.verify_from W cb total i (claim :: rest) h =
  match FactVerifier.report_progress cb i total claim h with
  | (inl e, h1) => (inl e, h1)
  | (inr _, h1) =>
      match FactVerifier.verify_claim W claim h1 with
      | (inl e, h2) => (inl e, h2)
      | (inr verdict, h2) =>
          match FactVerifier.verify_from W cb total (i + 1) rest h2 with
          | (inl e, h3) => (inl e, h3)
          | (inr verdicts, h3) => (inr (verdict :: verdicts), h3)
          end
      end
  end.
Proof.
  cbn [FactVerifier.verify_from]. unfold bind, ret.
  destruct (FactVerifier.report_progress cb i total claim h) as [[e | u] h1];
    [reflexivity |].
  destruct (FactVerifier.verify_claim W claim h1) as [[e | v] h2];
    [reflexivity |].
  destruct (FactVerifier.verify_from W cb total (i + 1) rest h2)
    as [[e | vs] h3]; reflexivity.
Qed.

(** When no step raises, the loop returns one verdict per claim, in the
    order of the claims. *)
Lemma verify_from_in_order (claims : list value) :
  (forall claim h0, In claim claims ->
     exists verdict h1,
       FactVerifier.verify_claim W claim h0 = (inr verdict, h1)) ->
  (forall claim i h0, In claim claims ->
     exists h1, FactVerifier.report_progress cb i total claim h0 = (inr tt, h1)) ->
  forall i h,
  exists verdicts h',
    FactVerifier.verify_from W cb total i claims h = (inr verdicts, h')
    /\ List.length verdicts = List.length claims
    /\ verified_in_order W cb total i claims h verdicts h'.
Proof.
  induction claims as [| claim rest IH]; intros Hv Hp i h.
  - exists [], h. repeat split. constructor.
  - destruct (Hp claim i h (or_introl eq_refl)) as [h1 Hh1].
    destruct (Hv claim h1 (or_introl eq_refl)) as [verdict [h2 Hh2]].
    destruct (IH (fun c h0 Hc => Hv c h0 (or_intror Hc))
                 (fun c j h0 Hc => Hp c j h0 (or_intror Hc)) (i + 1)%Z h2)
      as [verdicts [h3 [Hrun [Hlen Hord]]]].
    exists (verdict :: verdicts), h3.
    rewrite verify_from_cons, Hh1, Hh2, Hrun. repeat split.
    + simpl. now rewrite Hlen.
    + econstructor; eassumption.
Qed.

(** The loop over a list that starts with claims already verified in
    order goes on from where they ended. *)
Lemma verify_from_app (done rest verdicts : list value) (i : Z)
    (h h1 : list event) :
  verified_in_order W cb total i done h verdicts h1 ->
  FactVerifier.verify_from W cb total i (done ++ rest)%list h =
  match FactVerifier.verify_from W cb total
          (i + Z.of_nat (List.length done)) rest h1 with
  | (inl e, h2) => (inl e, h2)
  | (inr more, h2) => (inr (verdicts ++ more)%list, h2)
  end.
Proof.
  induction 1 as [i h | i claim claims h h1 h2 h3 v vs Hp Hc Hrest IH].
  - simpl. rewrite Z.add_0_r.
    destruct (FactVerifier.verify_from W cb total i rest h) as [[e | more] h2];
      reflexivity.
  - rewrite <- app_comm_cons, verify_from_cons, Hp, Hc, IH. clear IH.
    replace (i + 1 + Z.of_nat (List.length claims))%Z
      with (i + Z.of_nat (List.length (claim :: claims)))%Z
      by (cbn [List.length]; lia).
    destruct (FactVerifier.verify_from W cb total _ rest h3)
      as [[e | more] h4]; reflexivity.
Qed.


End Orchestrator.




(** The preview handed to the callback is a slice of the claim text: a
    claim whose text the model gave as a number ends the batch with the
    [TypeError] of [claim.get("claim", "")[:50]]. *)
Remark verify_all_claims_raises_on_numeric_text :
  FactVerifier.verify_all_claims Sample.healthy
    [VDict [("claim", VInt 42)]] (Some App.update_progress) []
  = (inl (Exn TypeError "object is not subscriptable"), []).
Proof. vm_compute. reflexivity. Qed.

(** *** A callback that returns *)

(** The providers see the requests made so far and nothing else: two
    traces with the same requests give the same search, the same
    judgment and the same verdict, and grow by the same events. *)
Lemma search_web_view (W : world) (q : value) (n : Z) (h1 h2 : list event) :
  network_calls h1 = network_calls h2 ->
  exists r evs,
    FactVerifier.search_web W q n h1 = (r, (h1 ++ evs)%list)
    /\ FactVerifier.search_web W q n h2 = (r, (h2 ++ evs)%list).
Proof.
  intros Hv. unfold FactVerifier.search_web, bind, lift. rewrite Hv.
  destruct (FactVerifier.get_tavily_client W) as [e | key].
  - exists (inl e), []. now rewrite !app_nil_r.
  - destruct (tavily_search W (network_calls h2) key q n);
      eexists; eexists; split; reflexivity.
Qed.

Lemma judge_view (W : world) (client : openai_client) (ct cx cat : value)
    (text : string) (h1 h2 : list event) :
  network_calls h1 = network_calls h2 ->
  exists r evs,
    FactVerifier.judge W client ct cx cat text h1 = (r, (h1 ++ evs)%list)
    /\ FactVerifier.judge W client ct cx cat text h2 = (r, (h2 ++ evs)%list).
Proof.
  intros Hv. unfold FactVerifier.judge. rewrite Hv.
  destruct (chat_completion W _ _ _ _ _) as [e | choices];
    [eexists; eexists; split; reflexivity |].
  destruct (message_content choices) as [e | content];
    [eexists; eexists; split; reflexivity |].
  destruct (Json.loads content) as [e | parsed];
    [eexists; eexists; split; reflexivity |].
  destruct (Py.set_item parsed "claim" ct);
    eexists; eexists; split; reflexivity.
Qed.

Lemma network_calls_app (h evs : list event) :
  network_calls (h ++ evs) = (network_calls h ++ network_calls evs)%list.
Proof. apply filter_app. Qed.

Lemma verify_claim_view (W : world) (claim : value) (h1 h2 : list event) :
  network_calls h1 = network_calls h2 ->
  exists r evs,
    FactVerifier.verify_claim W claim h1 = (r, (h1 ++ evs)%list)
    /\ FactVerifier.verify_claim W claim h2 = (r, (h2 ++ evs)%list).
Proof.
  intros Hv.
  destruct claim as [| | | | | | d];
    try (eexists; exists []; rewrite !app_nil_r; split; reflexivity).
  rewrite !verify_claim_dict.
  destruct (search_web_view W (query_of d) 5 h1 h2 Hv)
    as [[e | sr] [evs [-> ->]]];
    [eexists; eexists; split; reflexivity |].
  destruct (FactVerifier.format_search_results sr) as [e | text];
    [eexists; eexists; split; reflexivity |].
  destruct (FactVerifier.get_openai_client W) as [e | client];
    [eexists; eexists; split; reflexivity |].
  assert (Hv' : network_calls (h1 ++ evs) = network_calls (h2 ++ evs))
    by (rewrite !network_calls_app; now rewrite Hv).
  destruct (judge_view W client (claim_text_of d) (context_of d)
              (category_of d) text _ _ Hv')
    as [[e | verdict] [evs' [-> ->]]];
    rewrite <- !app_assoc; eexists; eexists; split; reflexivity.
Qed.

(** A callback that always returns, on claims whose text is a string,
    changes no verdict: the batch gives what it gives without a
    callback. *)
Lemma returning_callback_is_transparent (W : world) (f : callback)
    (total : Z) (claims : list value) :
  (forall h i t p, f h i t p = None) ->
  Forall (fun claim => exists p, FactVerifier.claim_preview claim = inr p)
         claims ->
  forall i h1 h2,
    network_calls h1 = network_calls h2 ->
    fst (FactVerifier.verify_from W (Some f) total i claims h1)
    = fst (FactVerifier.verify_from W None total i claims h2).
Proof.
  intros Hf Hprev. induction Hprev as [| claim rest [p Hp] _ IH];
    intros i h1 h2 Hv; [reflexivity |].
  rewrite !verify_from_cons.
  unfold FactVerifier.report_progress, bind, lift, ret.
  rewrite Hp, Hf.
  assert (Hv1 : network_calls (h1 ++ [EvProgress i total p])
                = network_calls h2)
    by (rewrite network_calls_app; cbn; now rewrite app_nil_r).
  destruct (verify_claim_view W claim _ _ Hv1) as [[e | v] [evs [-> ->]]];
    [reflexivity |].
  assert (Hv2 : network_calls ((h1 ++ [EvProgress i total p]) ++ evs)
                = network_calls (h2 ++ evs))
    by (rewrite (network_calls_app (h1 ++ _)), (network_calls_app h2);
        now rewrite Hv1).
  specialize (IH (i + 1)%Z _ _ Hv2).
  destruct (FactVerifier.verify_from W (Some f) total (i + 1) rest _)
    as [[e1 | vs1] k1];
    destruct (FactVerifier.verify_from W None total (i + 1) rest _)
      as [[e2 | vs2] k2]; cbn [fst] in IH |- *; congruence.
Qed.

(** C5, as the code has it.  The callback is invoked with no handler
    around it: when it raises for a claim, after the claims before it
    were verified, its exception leaves [verify_all_claims]; that claim
    and the later ones are not verified and no verdict is returned, the
    verdicts already obtained included. *)
Theorem raising_callback_aborts_batch
    (W : world) (f : callback) (done rest verdicts : list value)
    (claim : value) (h h1 : list event) (preview : string) (e : exn) :
  let claims := (done ++ claim :: rest)%list in
  let total := Z.of_nat (List.length claims) in
  let i := Z.of_nat (List.length done) in
  verified_in_order W (Some f) total 0 done h verdicts h1 ->
  FactVerifier.claim_preview claim = inr preview ->
  f h1 i total preview = Some e ->
  FactVerifier.verify_all_claims W claims (Some f) h
  = (inl e, (h1 ++ [EvProgress i total preview])%list).
Proof.
  intros claims total i Hdone Hprev Hraise.
  unfold FactVerifier.verify_all_claims. fold total.
  unfold claims.
  rewrite (verify_from_app W (Some f) total done (claim :: rest) verdicts
             0%Z h h1 Hdone).
  rewrite Z.add_0_l. fold i. rewrite verify_from_cons.
  unfold FactVerifier.report_progress, bind, lift.
  rewrite Hprev, Hraise. reflexivity.
Qed.

Lemma raising_callback_aborts_batch_witness :
  FactVerifier.verify_all_claims Sample.healthy
    ([] ++ Sample.claim :: [VDict []])%list (Some Sample.broken_callback) []
  = (inl (Exn (OtherError "RuntimeError") "widget is gone"),
     ([] ++ [EvProgress (Z.of_nat 0) (Z.of_nat 2)
               "Company X grew revenue 40% in 2023...."])%list).
Proof.
  apply (raising_callback_aborts_batch Sample.healthy Sample.broken_callback
           [] [VDict []] [] Sample.claim [] []).
  - constructor.
  - reflexivity.
  - reflexivity.
Defined.

(** C5, as stated, fails: with a callback that raises, the batch of one
    claim ends with the callback's exception, whereas without a callback
    it returns the verdict. *)
Lemma raising_callback_loses_verdicts :
  fst (FactVerifier.verify_all_claims Sample.healthy [Sample.claim]
         (Some Sample.broken_callback) [])
  = inl (Exn (OtherError "RuntimeError") "widget is gone")
  /\ fst (FactVerifier.verify_all_claims Sample.healthy [Sample.claim] None [])
     = inr [VDict [("status", VStr "False"); ("confidence", VFloat 9 (-1));
                   ("explanation", VStr "12%, not 40%");
                   ("correct_information", VStr "12%"); ("sources", VList []);
                   ("claim", VStr "Company X grew revenue 40% in 2023.");
                   ("category", VStr "Financial")]].
Proof. split; vm_compute; reflexivity. Qed.

(* ================================================================== *)
(** ** The Claim Extractor: the character budget *)
(* ================================================================== *)

(** Slices: the first [n] characters and the rest. *)
Lemma take_length (n : nat) (s : string) :
  String.length (take n s) = Nat.min n (String.length s).
Proof.
  revert s. induction n as [| n IH]; intros s; [reflexivity |].
  destruct s as [| c r]; [reflexivity |]. cbn [take String.length].
  now rewrite IH.
Qed.





(* ================================================================== *)
(** ** Credentials *)
(* ================================================================== *)

(** C4, as the code has it.  When either key is absent, the analysis
    action of [main] stops before anything is requested from a provider
    (the trace is unchanged) and shows exactly one error message,
    followed by an information message that names both keys. *)
Theorem missing_key_blocks_analysis
    (W : world) (pages : result (list (option string))) (h : list event) :
  App.get_secret W "OPENROUTER_API_KEY" "" = ""
  \/ App.get_secret W "TAVILY_API_KEY" "" = "" ->
  App.analyze W pages h = (App.Blocked [App.keys_error; App.keys_info], h)
  /\ filter App.is_error [App.keys_error; App.keys_info] = [App.keys_error]
  /\ names_both_keys (App.message_text App.keys_info) = true.
Proof.
  intros Hmissing. unfold App.analyze.
  repeat split.
  destruct Hmissing as [-> | ->]; [reflexivity |].
  now rewrite orb_true_r.
Qed.

Lemma missing_key_blocks_analysis_witness :
  App.analyze Sample.no_search_key (inr [Some "text"]) []
  = (App.Blocked [App.keys_error; App.keys_info], [])
  /\ filter App.is_error [App.keys_error; App.keys_info] = [App.keys_error]
  /\ names_both_keys (App.message_text App.keys_info) = true.
Proof.
  apply (missing_key_blocks_analysis Sample.no_search_key
           (inr [Some "text"]) []).
  right. reflexivity.
Defined.

(** C4, as stated, fails.  The error message of [main] names no key;
    each gateway names its own key only; and outside [main] a missing
    search key is noticed only after the extraction request has gone to
    the completion provider, and then ends in a verdict, not an error. *)
Lemma configuration_errors_name_one_key :
  fst (App.analyze Sample.no_keys (inr [Some "text"]) [])
  = App.Blocked [App.keys_error; App.keys_info]
  /\ names_both_keys (App.message_text App.keys_error) = false
  /\ (exists e, ClaimExtractor.get_openai_client Sample.no_keys = inl e
                /\ names_both_keys (exn_str e) = false)
  /\ (exists e, FactVerifier.get_tavily_client Sample.no_keys = inl e
                /\ names_both_keys (exn_str e) = false)
  /\ (exists r ev,
        ClaimExtractor.extract_claims Sample.no_search_key "text" []
        = (r, [ev]) /\ is_network_call ev = true)
  /\ (exists verdict,
        FactVerifier.verify_claim Sample.no_search_key Sample.claim []
        = (inr verdict, [])
        /\ field "status" verdict = VStr "Unverifiable").
Proof.
  split; [reflexivity |].
  split; [vm_compute; reflexivity |].
  split; [eexists; split; [reflexivity | vm_compute; reflexivity] |].
  split; [eexists; split; [reflexivity | vm_compute; reflexivity] |].
  split; [eexists; eexists; split; [vm_compute; reflexivity | reflexivity] |].
  eexists; split; [vm_compute; reflexivity | reflexivity].
Qed.

(* ================================================================== *)
(** ** The severity sort of the display list *)
(* ================================================================== *)

Lemma sort_key_sortable (v : value) :
  sortable v = true -> App.sort_key v = inr (priority v).
Proof.
  destruct v as [| | | | | | d]; try discriminate.
  unfold sortable, App.sort_key, priority, status_of, App.priority_get, Py.get.
  destruct (Py.dict_get d "status" (VStr "")); try discriminate; intros _;
    try reflexivity.
  cbn [Py.hashable].
  destruct (find _ App.priority_order); reflexivity.
Qed.

Lemma decorate_sortable (l : list value) :
  forallb sortable l = true ->
  App.decorate l = inr (map (fun v => (priority v, v)) l).
Proof.
  induction l as [| x r IH]; simpl; intros H; [reflexivity |].
  apply andb_prop in H as [Hx Hr].
  now rewrite (sort_key_sortable x Hx), (IH Hr).
Qed.

Lemma insert_decorated (x : value) (l : list value) :
  App.insert (priority x, x) (map (fun v => (priority v, v)) l)
  = map (fun v => (priority v, v)) (insert_by_priority x l).
Proof.
  induction l as [| y r IH]; simpl; [reflexivity |].
  destruct (Z.leb (priority x) (priority y)); simpl; [reflexivity |].
  now rewrite IH.
Qed.

Lemma stable_sort_decorated (l : list value) :
  map snd (App.stable_sort (map (fun v => (priority v, v)) l))
  = sort_by_priority l.
Proof.
  assert (H : App.stable_sort (map (fun v => (priority v, v)) l)
              = map (fun v => (priority v, v)) (sort_by_priority l)).
  { induction l as [| x r IH]; simpl; [reflexivity |].
    now rewrite IH, insert_decorated. }
  rewrite H, map_map. simpl. apply map_id.
Qed.

Lemma priority_range (v : value) :
  priority v = 0%Z \/ priority v = 1%Z \/ priority v = 2%Z
  \/ priority v = 3%Z \/ priority v = 4%Z.
Proof.
  unfold priority. destruct (status_of v); auto 6.
  unfold App.priority_order. cbn [find fst snd].
  repeat match goal with
         | |- context [String.eqb ?a ?b] => destruct (String.eqb a b); auto 6
         end.
Qed.

Lemma insert_after_smaller (x : value) (a b : list value) :
  Forall (fun y => (priority y < priority x)%Z) a ->
  insert_by_priority x (a ++ b)%list = (a ++ insert_by_priority x b)%list.
Proof.
  induction 1 as [| y r Hy Hr IH]; simpl; [reflexivity |].
  destruct (Z.leb_spec (priority x) (priority y)); [lia |].
  now rewrite IH.
Qed.

Lemma insert_before_larger (x : value) (b : list value) :
  Forall (fun y => (priority x <= priority y)%Z) b ->
  insert_by_priority x b = x :: b.
Proof.
  destruct 1 as [| y r Hy Hr]; simpl; [reflexivity |].
  destruct (Z.leb_spec (priority x) (priority y)); [reflexivity | lia].
Qed.

Lemma of_priority_all (k : Z) (l : list value) :
  Forall (fun y => priority y = k) (of_priority k l).
Proof.
  apply Forall_forall. intros y Hy.
  apply filter_In in Hy as [_ Hy]. now apply Z.eqb_eq.
Qed.

Lemma of_priority_cons (k : Z) (x : value) (l : list value) :
  of_priority k (x :: l)
  = if Z.eqb (priority x) k then x :: of_priority k l else of_priority k l.
Proof. reflexivity. Qed.

Ltac priority_bound :=
  repeat (apply Forall_app; split);
  match goal with
  | |- Forall _ (of_priority ?k ?l) =>
      eapply Forall_impl; [| apply (of_priority_all k l)];
      cbn beta; intros; lia
  end.

(** A stable sort on five priorities lists the five classes one after
    the other, each in its order. *)
Lemma sort_by_priority_classes (l : list value) :
  sort_by_priority l
  = (of_priority 0 l ++ of_priority 1 l ++ of_priority 2 l
     ++ of_priority 3 l ++ of_priority 4 l)%list.
Proof.
  induction l as [| x r IH]; [reflexivity |].
  cbn [sort_by_priority]. rewrite IH, !of_priority_cons.
  destruct (priority_range x) as [E | [E | [E | [E | E]]]];
    rewrite E; cbn [Z.eqb Pos.eqb].
  - apply insert_before_larger. rewrite E. priority_bound.
  - rewrite insert_after_smaller by (rewrite E; priority_bound).
    f_equal. apply insert_before_larger. rewrite E. priority_bound.
  - rewrite insert_after_smaller by (rewrite E; priority_bound).
    f_equal.
    rewrite insert_after_smaller by (rewrite E; priority_bound).
    f_equal. apply insert_before_larger. rewrite E. priority_bound.
  - do 3 (rewrite insert_after_smaller by (rewrite E; priority_bound);
          f_equal).
    apply insert_before_larger. rewrite E. priority_bound.
  - do 4 (rewrite insert_after_smaller by (rewrite E; priority_bound);
          f_equal).
    apply insert_before_larger. rewrite E. priority_bound.
Qed.

(** The classes by priority are the classes by status. *)
Lemma priority_is_status (v : value) :
  Z.eqb (priority v) 0 = has_status "False" v
  /\ Z.eqb (priority v) 1 = has_status "Inaccurate" v
  /\ Z.eqb (priority v) 2 = has_status "Unverifiable" v
  /\ Z.eqb (priority v) 3 = has_status "Verified" v
  /\ Z.eqb (priority v) 4 = other_status v.
Proof.
  unfold other_status, has_status, priority.
  destruct (status_of v) as [| | | | s | |]; try (repeat split; reflexivity).
  unfold App.priority_order. cbn [find fst snd].
  destruct (String.eqb_spec s "False") as [-> | H0];
    [repeat split; reflexivity |].
  destruct (String.eqb_spec s "Inaccurate") as [-> | H1];
    [repeat split; reflexivity |].
  destruct (String.eqb_spec s "Unverifiable") as [-> | H2];
    [repeat split; reflexivity |].
  destruct (String.eqb_spec s "Verified") as [-> | H3];
    repeat split; reflexivity.
Qed.

Lemma of_priority_status (l : list value) :
  of_priority 0 l = filter (has_status "False") l
  /\ of_priority 1 l = filter (has_status "Inaccurate") l
  /\ of_priority 2 l = filter (has_status "Unverifiable") l
  /\ of_priority 3 l = filter (has_status "Verified") l
  /\ of_priority 4 l = filter other_status l.
Proof.
  unfold of_priority.
  repeat split; apply filter_ext; intros v;
    destruct (priority_is_status v) as [H0 [H1 [H2 [H3 H4]]]]; assumption.
Qed.

(** Items that share a priority keep their order through the sort. *)
Lemma filter_insert_by_priority (P : value -> bool) (k : Z) (x : value)
    (l : list value) :
  (forall v, P v = true -> priority v = k) ->
  filter P (insert_by_priority x l)
  = if P x then x :: filter P l else filter P l.
Proof.
  intros HP. induction l as [| y r IH]; [reflexivity |].
  cbn [insert_by_priority].
  destruct (Z.leb_spec (priority x) (priority y)) as [Hle | Hlt];
    [reflexivity |].
  cbn [filter]. rewrite IH.
  destruct (P x) eqn:Ex; [| reflexivity].
  destruct (P y) eqn:Ey; [| reflexivity].
  apply HP in Ex. apply HP in Ey. lia.
Qed.

Lemma sort_by_priority_stable (P : value -> bool) (k : Z) (l : list value) :
  (forall v, P v = true -> priority v = k) ->
  filter P (sort_by_priority l) = filter P l.
Proof.
  intros HP. induction l as [| x r IH]; [reflexivity |].
  cbn [sort_by_priority filter].
  rewrite (filter_insert_by_priority P k x _ HP), IH. reflexivity.
Qed.

Lemma has_status_priority (s : string) :
  exists k, forall v, has_status s v = true -> priority v = k.
Proof.
  exists (match find (fun kv => String.eqb s (fst kv)) App.priority_order with
          | Some kv => snd kv
          | None => 4%Z
          end).
  intros v. unfold has_status, priority.
  destruct (status_of v) as [| | | | s' | |]; try discriminate.
  intros H. apply String.eqb_eq in H. now subst s'.
Qed.

(** C10, as the code has it.  On verdicts whose status can be hashed
    (any status but a JSON array or object), the display list is the
    verdicts with status "False", then those with "Inaccurate", then
    "Unverifiable", then "Verified", then all the others, each group in
    the order it has in the Verifier's list; in particular the verdicts
    of any one status keep their relative order. *)
Theorem severity_sort_groups_in_order (results : list value) :
  forallb sortable results = true ->
  exists display,
    App.sorted_results results = inr display
    /\ display
       = (filter (has_status "False") results
          ++ filter (has_status "Inaccurate") results
          ++ filter (has_status "Unverifiable") results
          ++ filter (has_status "Verified") results
          ++ filter other_status results)%list
    /\ forall s, filter (has_status s) display
                 = filter (has_status s) results.
Proof.
  intros H. exists (sort_by_priority results).
  split; [| split].
  - unfold App.sorted_results.
    now rewrite (decorate_sortable results H), stable_sort_decorated.
  - rewrite sort_by_priority_classes.
    destruct (of_priority_status results) as [-> [-> [-> [-> ->]]]].
    reflexivity.
  - intros s. destruct (has_status_priority s) as [k Hk].
    exact (sort_by_priority_stable (has_status s) k results Hk).
Qed.

Lemma severity_sort_groups_in_order_witness :
  let results :=
    [VDict [("status", VStr "Verified"); ("claim", VStr "a")];
     VDict [("status", VStr "Maybe"); ("claim", VStr "b")];
     VDict [("status", VStr "False"); ("claim", VStr "c")];
     VDict [("claim", VStr "d")];
     VDict [("status", VStr "Verified"); ("claim", VStr "e")];
     VDict [("status", VStr "Inaccurate"); ("claim", VStr "f")];
     VDict [("status", VStr "False"); ("claim", VStr "g")]] in
  exists display,
    App.sorted_results results = inr display
    /\ display
       = (filter (has_status "False") results
          ++ filter (has_status "Inaccurate") results
          ++ filter (has_status "Unverifiable") results
          ++ filter (has_status "Verified") results
          ++ filter other_status results)%list
    /\ forall s, filter (has_status s) display
                 = filter (has_status s) results.
Proof.
  intros results. apply (severity_sort_groups_in_order results).
  reflexivity.
Defined.

(** The display list of seven verdicts. *)
Example severity_sort_example :
  App.sorted_results
    [VDict [("status", VStr "Verified"); ("claim", VStr "a")];
     VDict [("status", VStr "Maybe"); ("claim", VStr "b")];
     VDict [("status", VStr "False"); ("claim", VStr "c")];
     VDict [("claim", VStr "d")];
     VDict [("status", VStr "Verified"); ("claim", VStr "e")];
     VDict [("status", VStr "Inaccurate"); ("claim", VStr "f")];
     VDict [("status", VStr "False"); ("claim", VStr "g")]]
  = inr [VDict [("status", VStr "False"); ("claim", VStr "c")];
         VDict [("status", VStr "False"); ("claim", VStr "g")];
         VDict [("status", VStr "Inaccurate"); ("claim", VStr "f")];
         VDict [("status", VStr "Verified"); ("claim", VStr "a")];
         VDict [("status", VStr "Verified"); ("claim", VStr "e")];
         VDict [("status", VStr "Maybe"); ("claim", VStr "b")];
         VDict [("claim", VStr "d")]].
Proof. vm_compute. reflexivity. Qed.

(** C10, as stated, fails: when the model gives the status as a JSON
    array, the verdict has no sort key, [priority_order.get] raising
    [TypeError] on the unhashable list, and the analysis ends there with
    no display list. *)
Lemma severity_sort_raises_on_list_status :
  App.sorted_results
    [VDict [("status", VList []); ("claim", VStr "a");
            ("category", VStr "Unknown")]]
  = inl (Exn TypeError "unhashable type")
  /\ fst (App.analyze
            (Sample.scripted Sample.one_claim
               ("{" ++ quoted "status" ++ ": []}"))
            (inr [Some "Company X grew revenue 40% in 2023."]) [])
     = App.Crashed (Exn TypeError "unhashable type").
Proof. split; vm_compute; reflexivity. Qed.

(* ================================================================== *)
(** ** The download payload *)
(* ================================================================== *)

(** The decoder rejects a text that opens an array, then an object, then
    a single quote: an object key must be in double quotes. *)
Lemma loads_rejects_single_quoted_key (tail : string) :
  Json.loads (String "[" (String "{" (String "'" tail)))
  = raise JSONDecodeError "Expecting property name enclosed in double quotes".
Proof. reflexivity. Qed.

(** C6: the payload [str(results)] of a batch that starts with a
    fallback verdict is Python's rendering of the list, with
    single-quoted keys, and [json.loads] rejects it; nothing is parsed
    back. *)
Theorem download_payload_is_not_json
    (claim_text category : value) (explanation : string)
    (more : list value) :
  Json.loads
    (App.download_data
       (FactVerifier.unverifiable claim_text category explanation :: more))
  = raise JSONDecodeError "Expecting property name enclosed in double quotes".
Proof.
  assert (H : exists tail,
             App.download_data
               (FactVerifier.unverifiable claim_text category explanation
                :: more)
             = String "[" (String "{" (String "'" tail))).
  { destruct more; eexists; reflexivity. }
  destruct H as [tail ->]. apply loads_rejects_single_quoted_key.
Qed.

(** The payload of the batch of one claim whose search failed. *)
Example download_payload_example :
  App.download_data
    [FactVerifier.unverifiable (VStr "Company X grew revenue 40% in 2023.")
       (VStr "Financial") "Could not search web: Web search failed: timed out"]
  = "[{'claim': 'Company X grew revenue 40% in 2023.', 'category': 'Financial', 'status': 'Unverifiable', 'confidence': 0.0, 'explanation': 'Could not search web: Web search failed: timed out', 'correct_information': '', 'sources': []}]".
Proof. vm_compute. reflexivity. Qed.

(* ================================================================== *)
(** ** Completions and the extraction request *)
(* ================================================================== *)

(** [split] always gives at least one piece, and at least two for a
    text that starts with the separator. *)
Lemma split_from_nonempty (sep : string) (s : string) :
  forall k, split_from sep k s <> [].
Proof.
  induction s as [| c r IH]; intros k; cbn [split_from]; [discriminate |].
  destruct k as [| k]; [| apply IH].
  destruct (String.prefix sep (String c r)); [discriminate |].
  destruct (split_from sep 0 r); discriminate.
Qed.

Lemma split_fence_second (s : string) :
  String.prefix "```" s = true ->
  exists p rest, split "```" s = "" :: p :: rest.
Proof.
  intros H. rewrite (prefix_drop _ _ H).
  set (r := drop (String.length "```") s).
  unfold split. cbn [append split_from].
  change (String "`" (String "`" (String "`" r))) with ("```" ++ r).
  rewrite prefix_app_self. cbn [String.length Nat.sub split_from].
  destruct (split_from "```" 0 r) as [| p rest] eqn:E.
  - now apply split_from_nonempty in E.
  - now exists p, rest.
Qed.

(** X1.  The normalisation of a completion never raises: when the
    stripped content starts with a code fence, [content.split("```")]
    has at least two pieces, so the index [1] is in range.  The text it
    yields is free of surrounding white space, and it is the stripped
    content itself when that does not start with a fence. *)
Theorem strip_code_fence_never_raises (raw : string) :
  exists content,
    strip_code_fence raw = inr content
    /\ strip content = content
    /\ (startswith (strip raw) "```" = false -> content = strip raw).
Proof.
  unfold strip_code_fence, startswith.
  destruct (String.prefix "```" (strip raw)) eqn:E.
  - destruct (split_fence_second _ E) as [p [rest ->]]. cbn [nth_error].
    eexists. split; [reflexivity |]. split; [apply strip_idempotent |].
    discriminate.
  - exists (strip (strip raw)). rewrite strip_idempotent.
    split; [reflexivity |]. split; [apply strip_idempotent | reflexivity].
Qed.

(** Cutting a text that was cut already. *)
Lemma take_take_app (n : nat) (s t : string) :
  n <= String.length s -> take n (take n s ++ t) = take n s.
Proof.
  revert s. induction n as [| n IH]; intros s H; [reflexivity |].
  destruct s as [| c r]; [cbn in H; lia |].
  cbn [take append]. f_equal. apply IH. cbn in H. lia.
Qed.

(** X2.  The text [extract_claims] puts into the prompt has at most
    50,015 characters; its first 50,000 characters are those of the
    document; and truncating it a second time changes nothing. *)
Theorem truncate_document_bounded (document_text : string) :
  let kept := ClaimExtractor.truncate_document document_text in
  (Z.of_nat (String.length kept) <= 50015)%Z
  /\ take (Z.to_nat 50000) kept = take (Z.to_nat 50000) document_text
  /\ ClaimExtractor.truncate_document kept = kept.
Proof.
  unfold ClaimExtractor.truncate_document, ClaimExtractor.max_chars.
  remember (Z.to_nat 50000) as n eqn:En.
  assert (Hn : Z.of_nat n = 50000%Z) by (subst n; apply Z2Nat.id; lia).
  clear En. cbv zeta.
  destruct (Z.ltb_spec 50000 (Z.of_nat (String.length document_text)))
    as [Hlong | Hshort].
  - assert (Hlen : String.length (take n document_text ++ nl ++ "...[truncated]")
                   = n + 15).
    { rewrite str_length_app, take_length. cbn [String.length append nl chr].
      lia. }
    rewrite Hlen.
    destruct (Z.ltb_spec 50000 (Z.of_nat (n + 15))) as [_ | Hno]; [| lia].
    rewrite take_take_app by lia. split; [lia |]. split; reflexivity.
  - destruct (Z.ltb_spec 50000 (Z.of_nat (String.length document_text)));
      [lia |].
    split; [lia |]. split; reflexivity.
Qed.

(** X3.  Every exception that leaves [extract_claims] is a
    [ValueError]: that of the missing key, raised before anything is
    sent, or, after the one completion request, the wrapping of the
    exception the [try] block raised (the completion call's, that of
    reading the first choice, or the decoder's).  The message is
    "Failed to parse LLM response as JSON: " followed by the message of
    that exception when it is a [JSONDecodeError], and "Claim extraction
    failed: " followed by it for any other class. *)
Theorem extract_claims_raises_value_error
    (W : world) (document_text : string) (h h' : list event) (e : exn) :
  ClaimExtractor.extract_claims W document_text h = (inl e, h') ->
  exn_cls e = ValueError
  /\ ((ClaimExtractor.get_openai_client W = inl e /\ h' = h)
      \/ (exists client prompt cause,
            ClaimExtractor.get_openai_client W = inr client
            /\ prompt = ClaimExtractor.CLAIM_EXTRACTION_PROMPT
                          (ClaimExtractor.truncate_document document_text)
            /\ h' = (h ++ [EvCompletion (api_key client) (base_url client)
                             (ClaimExtractor.get_model_name W) prompt
                             (1, -1)%Z 4000])%list
            /\ (chat_completion W (network_calls h) (api_key client)
                  (ClaimExtractor.get_model_name W) prompt 4000 = inl cause
                \/ (exists choices,
                      chat_completion W (network_calls h) (api_key client)
                        (ClaimExtractor.get_model_name W) prompt 4000
                      = inr choices
                      /\ (message_content choices = inl cause
                          \/ exists content,
                               message_content choices = inr content
                               /\ Json.loads content = inl cause)))
            /\ ((exn_cls cause = JSONDecodeError
                 /\ exn_str e
                    = "Failed to parse LLM response as JSON: "
                      ++ exn_str cause)
                \/ (exn_cls cause <> JSONDecodeError
                    /\ exn_str e
                       = "Claim extraction failed: " ++ exn_str cause)))).
Proof.
  unfold ClaimExtractor.extract_claims, bind, lift, try_except.
  destruct (ClaimExtractor.get_openai_client W) as [e0 | client] eqn:Hc.
  - intros H. inversion H; subst. split; [| now left].
    revert Hc. unfold ClaimExtractor.get_openai_client.
    destruct (String.eqb _ ""); [| discriminate].
    intros Hc. now inversion Hc.
  - unfold ClaimExtractor.request_claims.
    set (prompt := ClaimExtractor.CLAIM_EXTRACTION_PROMPT _).
    assert (Hwrap : forall cause h1,
               (if is_json_decode_error cause
                then @lift (list value) (raise ValueError
                             ("Failed to parse LLM response as JSON: "
                              ++ exn_str cause))
                else @lift (list value) (raise ValueError
                             ("Claim extraction failed: " ++ exn_str cause)))
                 h1 = (inl e, h') ->
               exn_cls e = ValueError /\ h' = h1
               /\ ((exn_cls cause = JSONDecodeError
                    /\ exn_str e
                       = "Failed to parse LLM response as JSON: "
                         ++ exn_str cause)
                   \/ (exn_cls cause <> JSONDecodeError
                       /\ exn_str e
                          = "Claim extraction failed: " ++ exn_str cause))).
    { intros cause h1. unfold is_json_decode_error, lift.
      destruct (exn_cls cause) eqn:Hcls; intros H; inversion H; subst;
        (split; [reflexivity |]); (split; [reflexivity |]);
        solve [ left; split; [reflexivity | reflexivity]
              | right; split; [discriminate | reflexivity] ]. }
    destruct (chat_completion W (network_calls h) (api_key client)
                (ClaimExtractor.get_model_name W) prompt 4000)
      as [cause | choices] eqn:Hchat.
    { intros H. destruct (Hwrap _ _ H) as [Hcls [-> Hmsg]].
      split; [exact Hcls |]. right. exists client, prompt, cause.
      do 3 (split; [reflexivity |]). split; [now left | exact Hmsg]. }
    destruct (message_content choices) as [cause | content] eqn:Hm.
    { intros H. destruct (Hwrap _ _ H) as [Hcls [-> Hmsg]].
      split; [exact Hcls |]. right. exists client, prompt, cause.
      do 3 (split; [reflexivity |]). split; [| exact Hmsg].
      right. exists choices. split; [exact Hchat |]. now left. }
    destruct (Json.loads content) as [cause | claims] eqn:Hl.
    { intros H. destruct (Hwrap _ _ H) as [Hcls [-> Hmsg]].
      split; [exact Hcls |]. right. exists client, prompt, cause.
      do 3 (split; [reflexivity |]). split; [| exact Hmsg].
      right. exists choices. split; [exact Hchat |]. right.
      exists content. split; [exact Hm | exact Hl]. }
    destruct claims; discriminate.
Qed.

Lemma extract_claims_raises_value_error_witness :
  let W := Sample.garbled in
  let e :=
    Exn ValueError "Failed to parse LLM response as JSON: Expecting value" in
  let h' := snd (ClaimExtractor.extract_claims W "Some text." []) in
  exn_cls e = ValueError
  /\ ((ClaimExtractor.get_openai_client W = inl e /\ h' = [])
      \/ (exists client prompt cause,
            ClaimExtractor.get_openai_client W = inr client
            /\ prompt = ClaimExtractor.CLAIM_EXTRACTION_PROMPT
                          (ClaimExtractor.truncate_document "Some text.")
            /\ h' = ([] ++ [EvCompletion (api_key client) (base_url client)
                              (ClaimExtractor.get_model_name W) prompt
                              (1, -1)%Z 4000])%list
            /\ (chat_completion W (network_calls []) (api_key client)
                  (ClaimExtractor.get_model_name W) prompt 4000 = inl cause
                \/ (exists choices,
                      chat_completion W (network_calls []) (api_key client)
                        (ClaimExtractor.get_model_name W) prompt 4000
                      = inr choices
                      /\ (message_content choices = inl cause
                          \/ exists content,
                               message_content choices = inr content
                               /\ Json.loads content = inl cause)))
            /\ ((exn_cls cause = JSONDecodeError
                 /\ exn_str e
                    = "Failed to parse LLM response as JSON: "
                      ++ exn_str cause)
                \/ (exn_cls cause <> JSONDecodeError
                    /\ exn_str e
                       = "Claim extraction failed: " ++ exn_str cause)))).
Proof.
  intros W e h'.
  apply (extract_claims_raises_value_error W "Some text." [] h' e).
  vm_compute. reflexivity.
Defined.

(** X4.  What [extract_claims] returns is what the first choice of the
    completion decodes to after the parse step: the list itself for a
    JSON array, the one-element list around the value for anything else.
    It returns the empty list only when the model answered the empty
    array. *)
Theorem extract_claims_returns_decoded_list
    (W : world) (document_text : string) (h h' : list event)
    (claims : list value) :
  ClaimExtractor.extract_claims W document_text h = (inr claims, h') ->
  exists calls key model prompt raw rest decoded,
    chat_completion W calls key model prompt 4000 = inr (Some raw :: rest)
    /\ parse_response raw = inr decoded
    /\ claims = match decoded with VList l => l | _ => [decoded] end
    /\ (claims = [] <-> decoded = VList []).
Proof.
  unfold ClaimExtractor.extract_claims, bind, lift, try_except.
  destruct (ClaimExtractor.get_openai_client W) as [e0 | client];
    [discriminate |].
  destruct (ClaimExtractor.request_claims W client _ h)
    as [[cause | cl] h1] eqn:Hr;
    [destruct (is_json_decode_error cause); discriminate |].
  intros H. inversion H; subst. revert Hr.
  unfold ClaimExtractor.request_claims, parse_response.
  destruct (chat_completion W (network_calls h) (api_key client)
              (ClaimExtractor.get_model_name W) _ 4000)
    as [e | [| [raw |] rest]] eqn:Hc; try discriminate.
  unfold message_content.
  destruct (strip_code_fence raw) as [e | content] eqn:Hs; [discriminate |].
  destruct (Json.loads content) as [e | decoded] eqn:Hl; [discriminate |].
  intros Hr.
  exists (network_calls h), (api_key client), (ClaimExtractor.get_model_name W).
  eexists. exists raw, rest, decoded.
  split; [exact Hc |]. split; [now rewrite Hs |].
  destruct decoded; inversion Hr; subst;
    (split; [reflexivity |]); split; intros E;
    try discriminate E; try reflexivity; try congruence.
Qed.

Lemma extract_claims_returns_decoded_list_witness :
  exists calls key model prompt raw rest decoded,
    chat_completion (Sample.scripted "{}" Sample.judgment) calls key model
      prompt 4000 = inr (Some raw :: rest)
    /\ parse_response raw = inr decoded
    /\ [VDict []] = match decoded with VList l => l | _ => [decoded] end
    /\ ([VDict []] = [] <-> decoded = VList []).
Proof.
  apply (extract_claims_returns_decoded_list
           (Sample.scripted "{}" Sample.judgment) "Some text." []
           (snd (ClaimExtractor.extract_claims
                   (Sample.scripted "{}" Sample.judgment) "Some text." []))).
  vm_compute. reflexivity.
Defined.

(* ================================================================== *)
(** ** One claim: requests and verdicts *)
(* ================================================================== *)

(** X5.  Every exception that leaves [search_web] is a [ValueError]:
    that of the missing key, raised before any request, or the wrapping
    of the provider's failure, whose message is "Web search failed: "
    followed by the provider's, after exactly one request. *)
Theorem search_web_raises_value_error
    (W : world) (query : value) (num_results : Z) (h h' : list event)
    (e : exn) :
  FactVerifier.search_web W query num_results h = (inl e, h') ->
  exn_cls e = ValueError
  /\ ((FactVerifier.get_tavily_client W = inl e /\ h' = h)
      \/ (exists key cause,
            FactVerifier.get_tavily_client W = inr key
            /\ tavily_search W (network_calls h) key query num_results
               = inl cause
            /\ exn_str e = "Web search failed: " ++ exn_str cause
            /\ h' = (h ++ [EvSearch key query "advanced" num_results true])%list)).
Proof.
  unfold FactVerifier.search_web, bind, lift.
  destruct (FactVerifier.get_tavily_client W) as [e0 | key] eqn:Hk.
  - intros H. inversion H; subst. split; [| now left].
    revert Hk. unfold FactVerifier.get_tavily_client.
    destruct (String.eqb _ ""); [| discriminate].
    intros Hk. now inversion Hk.
  - destruct (tavily_search W (network_calls h) key query num_results)
      as [cause | response] eqn:Hs; [| discriminate].
    intros H. inversion H; subst. split; [reflexivity |]. right.
    exists key, cause. repeat split; try reflexivity; assumption.
Qed.

Lemma search_web_raises_value_error_witness :
  let e := Exn ValueError "Web search failed: timed out" in
  let h' := [EvSearch "tvly" (VStr "revenue") "advanced" 5 true] in
  exn_cls e = ValueError
  /\ ((FactVerifier.get_tavily_client Sample.search_down = inl e /\ h' = [])
      \/ (exists key cause,
            FactVerifier.get_tavily_client Sample.search_down = inr key
            /\ tavily_search Sample.search_down (network_calls []) key
                 (VStr "revenue") 5 = inl cause
            /\ exn_str e = "Web search failed: " ++ exn_str cause
            /\ h' = ([] ++ [EvSearch key (VStr "revenue") "advanced" 5 true])%list)).
Proof.
  intros e h'.
  apply (search_web_raises_value_error Sample.search_down (VStr "revenue") 5
           [] h' e).
  reflexivity.
Defined.

(** What one verification adds to the trace: at most a search request
    followed by a completion request. *)
Lemma verify_claim_grows (W : world) (claim : value) (h : list event) :
  exists r evs,
    FactVerifier.verify_claim W claim h = (r, (h ++ evs)%list)
    /\ forallb is_network_call evs = true
    /\ List.length evs <= 2.
Proof.
  destruct claim as [| | | | | | d];
    try (eexists; exists []; rewrite app_nil_r;
         split; [reflexivity | split; [reflexivity | cbn; lia]]).
  rewrite verify_claim_dict.
  destruct (FactVerifier.search_web W (query_of d) 5 h) as [[e | sr] h1] eqn:Hs;
    destruct (search_web_trace W _ _ _ _ _ Hs) as [-> | [key ->]].
  - eexists; exists []; rewrite app_nil_r.
    split; [reflexivity | split; [reflexivity | cbn; lia]].
  - eexists; eexists. split; [reflexivity | split; [reflexivity | cbn; lia]].
  - destruct (FactVerifier.format_search_results sr) as [e | text];
      [eexists; exists []; rewrite app_nil_r;
       split; [reflexivity | split; [reflexivity | cbn; lia]] |].
    destruct (FactVerifier.get_openai_client W) as [e | client];
      [eexists; exists []; rewrite app_nil_r;
       split; [reflexivity | split; [reflexivity | cbn; lia]] |].
    destruct (FactVerifier.judge W client (claim_text_of d) (context_of d)
                (category_of d) text h) as [r h2] eqn:Hj.
    destruct (judge_trace W _ _ _ _ _ _ _ _ Hj) as [ev [Hev ->]].
    assert (Hn : is_network_call ev = true) by (now destruct ev).
    destruct r; eexists; exists [ev];
      (split; [reflexivity | split; [cbn; now rewrite Hn | cbn; lia]]).
  - destruct (FactVerifier.format_search_results sr) as [e | text];
      [eexists; eexists;
       split; [reflexivity | split; [reflexivity | cbn; lia]] |].
    destruct (FactVerifier.get_openai_client W) as [e | client];
      [eexists; eexists;
       split; [reflexivity | split; [reflexivity | cbn; lia]] |].
    destruct (FactVerifier.judge W client (claim_text_of d) (context_of d)
                (category_of d) text _) as [r h2] eqn:Hj.
    destruct (judge_trace W _ _ _ _ _ _ _ _ Hj) as [ev [Hev ->]].
    assert (Hn : is_network_call ev = true) by (now destruct ev).
    rewrite <- app_assoc.
    destruct r; eexists; eexists;
      (split; [reflexivity | split; [cbn; now rewrite Hn | cbn; lia]]).
Qed.

(** The events one verification of a claim dictionary adds to the
    trace. *)
Lemma verify_claim_dict_requests (W : world) (d : dict) (h : list event) :
  exists r evs,
    FactVerifier.verify_claim W (VDict d) h = (r, (h ++ evs)%list)
    /\ ((evs = [] /\ exists e, FactVerifier.get_tavily_client W = inl e)
        \/ (exists key,
              FactVerifier.get_tavily_client W = inr key
              /\ evs = [EvSearch key (query_of d) "advanced" 5 true])
        \/ (exists key client prompt,
              FactVerifier.get_tavily_client W = inr key
              /\ FactVerifier.get_openai_client W = inr client
              /\ evs = [EvSearch key (query_of d) "advanced" 5 true;
                        EvCompletion (api_key client)
                          "https://openrouter.ai/api/v1"
                          (FactVerifier.get_model_name W) prompt (1, -1)%Z
                          1000])).
Proof.
  rewrite verify_claim_dict.
  unfold FactVerifier.search_web, bind, lift.
  destruct (FactVerifier.get_tavily_client W) as [e | key] eqn:Hk.
  - eexists; exists []; rewrite app_nil_r. split; [reflexivity |].
    left. split; [reflexivity | now exists e].
  - destruct (tavily_search W (network_calls h) key (query_of d) 5)
      as [e | sr].
    + eexists; eexists. split; [reflexivity |]. right; left. now exists key.
    + destruct (FactVerifier.format_search_results sr) as [e | text];
        [eexists; eexists; split; [reflexivity |]; right; left;
         now exists key |].
      destruct (FactVerifier.get_openai_client W) as [e | client] eqn:Hc;
        [eexists; eexists; split; [reflexivity |]; right; left;
         now exists key |].
      assert (Hurl : base_url client = "https://openrouter.ai/api/v1").
      { revert Hc. unfold FactVerifier.get_openai_client.
        destruct (String.eqb _ ""); [discriminate |].
        intros Hc. now inversion Hc. }
      unfold FactVerifier.judge. rewrite Hurl.
      set (ev := EvCompletion _ _ _ _ _ _).
      assert (Hshape :
                exists prompt,
                  ev = EvCompletion (api_key client)
                         "https://openrouter.ai/api/v1"
                         (FactVerifier.get_model_name W) prompt (1, -1)%Z 1000)
        by (eexists; reflexivity).
      destruct Hshape as [prompt Hev]. clearbody ev.
      rewrite <- app_assoc. cbn [app].
      assert (Hthird :
                exists key0 client0 prompt0,
                  inr key = inr key0 :> result string
                  /\ inr client = inr client0 :> result openai_client
                  /\ [EvSearch key (query_of d) "advanced" 5 true; ev]
                     = [EvSearch key0 (query_of d) "advanced" 5 true;
                        EvCompletion (api_key client0)
                          "https://openrouter.ai/api/v1"
                          (FactVerifier.get_model_name W) prompt0 (1, -1)%Z
                          1000])
        by (exists key, client, prompt; now rewrite Hev).
      destruct (chat_completion W _ _ _ _ _) as [e | choices];
        [eexists; eexists; split; [reflexivity |]; right; right;
         exact Hthird |].
      destruct (message_content choices) as [e | content];
        [eexists; eexists; split; [reflexivity |]; right; right;
         exact Hthird |].
      destruct (Json.loads content) as [e | parsed];
        [eexists; eexists; split; [reflexivity |]; right; right;
         exact Hthird |].
      destruct (Py.set_item parsed "claim" (claim_text_of d)) as [e | r1];
        [eexists; eexists; split; [reflexivity |]; right; right;
         exact Hthird |].
      destruct (Py.set_item r1 "category" (category_of d));
        eexists; eexists; (split; [reflexivity |]); right; right;
        exact Hthird.
Qed.

(** X6.  The requests of one verification.  On a claim dictionary,
    [verify_claim] sends nothing when the search key is missing;
    otherwise one search request, for the claim's query, with depth
    "advanced", five results and the answer included; and after it at
    most one completion request, to OpenRouter, with [max_tokens=1000].
    Nothing else is added to the trace. *)
Theorem verify_claim_requests (W : world) (d : dict) (h : list event) :
  exists r evs,
    FactVerifier.verify_claim W (VDict d) h = (r, (h ++ evs)%list)
    /\ ((evs = [] /\ exists e, FactVerifier.get_tavily_client W = inl e)
        \/ (exists key,
              FactVerifier.get_tavily_client W = inr key
              /\ evs = [EvSearch key (query_of d) "advanced" 5 true])
        \/ (exists key client prompt,
              FactVerifier.get_tavily_client W = inr key
              /\ FactVerifier.get_openai_client W = inr client
              /\ evs = [EvSearch key (query_of d) "advanced" 5 true;
                        EvCompletion (api_key client)
                          "https://openrouter.ai/api/v1"
                          (FactVerifier.get_model_name W) prompt (1, -1)%Z
                          1000])).
Proof. exact (verify_claim_dict_requests W d h). Qed.

(** Setting a key makes it the value read back. *)
Lemma lookup_dict_set_same (d : dict) (k : string) (v : value) :
  Py.lookup k (Py.dict_set d k v) = Some v.
Proof.
  induction d as [| [k0 v0] d IH]; simpl.
  - now rewrite String.eqb_refl.
  - destruct (String.eqb_spec k k0) as [-> | Hk]; simpl.
    + now rewrite String.eqb_refl.
    + destruct (String.eqb_spec k k0); [contradiction | exact IH].
Qed.

Lemma dict_get_set_same (d : dict) (k : string) (v dflt : value) :
  Py.dict_get (Py.dict_set d k v) k dflt = v.
Proof. unfold Py.dict_get. now rewrite lookup_dict_set_same. Qed.

(** X7.  Every verdict [verify_claim] returns is a dictionary whose
    [claim] and [category] are those of the claim it was asked about,
    whatever the model put under these keys. *)
Theorem verdict_names_its_claim
    (W : world) (d : dict) (h h' : list event) (verdict : value) :
  FactVerifier.verify_claim W (VDict d) h = (inr verdict, h') ->
  is_dict verdict = true
  /\ field "claim" verdict = claim_text_of d
  /\ field "category" verdict = category_of d.
Proof.
  rewrite verify_claim_dict.
  destruct (FactVerifier.search_web W (query_of d) 5 h) as [[e | sr] h1].
  - intros H; inversion H; subst. repeat split; reflexivity.
  - destruct (FactVerifier.format_search_results sr) as [e | text];
      [discriminate |].
    destruct (FactVerifier.get_openai_client W) as [e | client];
      [discriminate |].
    destruct (FactVerifier.judge W client (claim_text_of d) (context_of d)
                (category_of d) text h1) as [[e | v] h2] eqn:Hj;
      intros H; inversion H; subst.
    + repeat split; reflexivity.
    + destruct (judge_success _ _ _ _ _ _ _ _ _ Hj)
        as [raw [rest [parsed [_ [_ ->]]]]].
      split; [reflexivity |]. unfold field. split.
      * rewrite dict_get_set_other by discriminate.
        apply dict_get_set_same.
      * apply dict_get_set_same.
Qed.

Lemma verdict_names_its_claim_witness :
  let W :=
    Sample.constant_world Sample.both_keys (inr Sample.evidence)
      (inr [Some ("{" ++ quoted "claim" ++ ": " ++ quoted "Another claim."
                  ++ ", " ++ quoted "status" ++ ": " ++ quoted "Verified"
                  ++ "}")]) in
  let verdict :=
    VDict [("claim", VStr "Company X grew revenue 40% in 2023.");
           ("status", VStr "Verified"); ("category", VStr "Financial")] in
  is_dict verdict = true
  /\ field "claim" verdict = claim_text_of Sample.claim_dict
  /\ field "category" verdict = category_of Sample.claim_dict.
Proof.
  intros W verdict.
  apply (verdict_names_its_claim W Sample.claim_dict []
           (snd (FactVerifier.verify_claim W Sample.claim [])) verdict).
  vm_compute. reflexivity.
Defined.

(** X8.  The evidence block depends on the search response through its
    [answer] and the first five entries of [results] only: two responses
    that agree on these give the same block, and an entry beyond the
    fifth is not even looked at. *)
Theorem evidence_reads_five_results (d d' : dict) (l l' : list value) :
  Py.dict_get d "answer" VNone = Py.dict_get d' "answer" VNone ->
  Py.dict_get d "results" (VList []) = VList l ->
  Py.dict_get d' "results" (VList []) = VList l' ->
  firstn 5 l = firstn 5 l' ->
  FactVerifier.format_search_results (VDict d)
  = FactVerifier.format_search_results (VDict d').
Proof.
  intros Ha Hl Hl' H5. unfold FactVerifier.format_search_results.
  rewrite Ha, Hl, Hl'. cbn [Py.slice_to Py.iter]. now rewrite H5.
Qed.

Lemma evidence_reads_five_results_witness :
  let five := repeat (VDict [("url", VStr "https://example.org")]) 5 in
  FactVerifier.format_search_results
    (VDict [("results", VList (five ++ [VNone; VInt 7])%list)])
  = FactVerifier.format_search_results
      (VDict [("results", VList five); ("query", VStr "revenue")]).
Proof.
  intros five.
  apply (evidence_reads_five_results _ _ (five ++ [VNone; VInt 7])%list five);
    reflexivity.
Defined.

(** X9.  A judgment that is valid JSON but no object (an array, a
    string, a number, [null]) does not reach the caller: the assignment
    [result["claim"] = ...] raises [TypeError] inside the [try] block,
    and [verify_claim] returns the fallback verdict with that reason. *)
Theorem non_object_judgment_is_converted
    (W : world) (d : dict) (h h1 : list event) (search_results : value)
    (search_text raw : string) (rest : list (option string))
    (client : openai_client) (decoded : value) :
  FactVerifier.search_web W (query_of d) 5 h = (inr search_results, h1) ->
  FactVerifier.format_search_results search_results = inr search_text ->
  FactVerifier.get_openai_client W = inr client ->
  chat_completion W (network_calls h1) (api_key client)
    (FactVerifier.get_model_name W)
    (FactVerifier.VERIFICATION_PROMPT (Py.str (claim_text_of d))
       (Py.str (context_of d)) search_text) 1000
  = inr (Some raw :: rest) ->
  parse_response raw = inr decoded ->
  is_dict decoded = false ->
  exists reason,
    fst (FactVerifier.verify_claim W (VDict d) h)
    = inr (FactVerifier.unverifiable (claim_text_of d) (category_of d)
             ("Verification analysis failed: " ++ reason))
    /\ Py.set_item decoded "claim" (claim_text_of d)
       = raise TypeError reason.
Proof.
  intros Hs Hf Hc Hchat Hp Hd.
  rewrite verify_claim_dict, Hs, Hf, Hc.
  pose proof (judge_runs_parse_response W client (claim_text_of d)
                (context_of d) (category_of d) search_text raw rest h1 Hchat)
    as Hj.
  rewrite Hp in Hj.
  destruct (FactVerifier.judge W client (claim_text_of d) (context_of d)
              (category_of d) search_text h1) as [r h2].
  cbn [fst] in Hj. subst r.
  destruct decoded; try discriminate Hd; cbn [Py.set_item raise];
    eexists; split; reflexivity.
Qed.

Lemma non_object_judgment_is_converted_witness :
  let W :=
    Sample.constant_world Sample.both_keys (inr Sample.evidence)
      (inr [Some "[]"]) in
  exists reason,
    fst (FactVerifier.verify_claim W Sample.claim [])
    = inr (FactVerifier.unverifiable (claim_text_of Sample.claim_dict)
             (category_of Sample.claim_dict)
             ("Verification analysis failed: " ++ reason))
    /\ Py.set_item (VList []) "claim" (claim_text_of Sample.claim_dict)
       = raise TypeError reason.
Proof.
  intros W.
  apply (non_object_judgment_is_converted W Sample.claim_dict []
           [EvSearch "tvly" (VStr "Company X revenue growth 2023") "advanced"
                     5 true]
           Sample.evidence
           (match FactVerifier.format_search_results Sample.evidence with
            | inr t => t
            | inl _ => ""
            end)
           "[]" [] (OpenAI "sk-or" "https://openrouter.ai/api/v1")
           (VList []));
    vm_compute; reflexivity.
Defined.

(** Whatever [verify_claim] returns is a dictionary. *)
Lemma verify_claim_returns_dict (W : world) (claim verdict : value)
    (h h' : list event) :
  FactVerifier.verify_claim W claim h = (inr verdict, h') ->
  is_dict verdict = true.
Proof.
  destruct claim as [| | | | | | d]; try discriminate.
  rewrite verify_claim_dict.
  destruct (FactVerifier.search_web W (query_of d) 5 h) as [[e | sr] h1].
  - intros H; now inversion H.
  - destruct (FactVerifier.format_search_results sr) as [e | text];
      [discriminate |].
    destruct (FactVerifier.get_openai_client W) as [e | client];
      [discriminate |].
    destruct (FactVerifier.judge W client (claim_text_of d) (context_of d)
                (category_of d) text h1) as [[e | v] h2] eqn:Hj;
      intros H; inversion H; subst; [reflexivity |].
    destruct (judge_success _ _ _ _ _ _ _ _ _ Hj)
      as [raw [rest [parsed [_ [_ ->]]]]].
    reflexivity.
Qed.

(** With the judgment client built and search responses of the documented
    shape, the verification of a claim dictionary returns. *)
Lemma verify_claim_returns (W : world) (client : openai_client) (d : dict)
    (h : list event) :
  FactVerifier.get_openai_client W = inr client ->
  (forall calls key query r,
      tavily_search W calls key query 5 = inr r ->
      well_formed_response r = true) ->
  exists verdict h', FactVerifier.verify_claim W (VDict d) h = (inr verdict, h').
Proof.
  intros Hclient Hshape. rewrite verify_claim_dict, Hclient.
  destruct (FactVerifier.search_web W (query_of d) 5 h) as [[e | sr] h1] eqn:Hs;
    [eexists; eexists; reflexivity |].
  assert (Hwf : well_formed_response sr = true).
  { revert Hs. unfold FactVerifier.search_web, bind, lift.
    destruct (FactVerifier.get_tavily_client W) as [e | key];
      [discriminate |].
    destruct (tavily_search W (network_calls h) key (query_of d) 5)
      as [e | r] eqn:Hr; intros H; inversion H; subst.
    exact (Hshape _ _ _ _ Hr). }
  destruct (well_formed_response_formats sr Hwf) as [text ->].
  destruct (FactVerifier.judge W client (claim_text_of d) (context_of d)
              (category_of d) text h1) as [[e | verdict] h2];
    eexists; eexists; reflexivity.
Qed.

(* ================================================================== *)
(** ** The batch: requests, progress and failures *)
(* ================================================================== *)

Section Budget.

Variable W : world.
Variable cb : option callback.
Variable total : Z.

(** Reporting progress sends nothing to a provider. *)
Lemma report_progress_grows (i : Z) (claim : value) (h : list event) :
  exists r evs,
    FactVerifier.report_progress cb i total claim h = (r, (h ++ evs)%list)
    /\ network_calls evs = [].
Proof.
  unfold FactVerifier.report_progress, bind, lift, ret.
  destruct cb as [f |];
    [| eexists; exists []; rewrite app_nil_r; split; reflexivity].
  destruct (FactVerifier.claim_preview claim) as [e | p];
    [eexists; exists []; rewrite app_nil_r; split; reflexivity |].
  destruct (f h i total p); eexists; eexists; split; reflexivity.
Qed.

Lemma verify_from_budget (claims : list value) :
  forall i h,
  exists r evs,
    FactVerifier.verify_from W cb total i claims h = (r, (h ++ evs)%list)
    /\ List.length (network_calls evs) <= 2 * List.length claims.
Proof.
  induction claims as [| claim rest IH]; intros i h.
  - eexists; exists []; rewrite app_nil_r. split; [reflexivity | cbn; lia].
  - rewrite verify_from_cons.
    destruct (report_progress_grows i claim h) as [r0 [evs0 [-> H0]]].
    destruct r0 as [e | u];
      [eexists; eexists; split; [reflexivity |]; rewrite H0; cbn; lia |].
    destruct (verify_claim_grows W claim (h ++ evs0))
      as [r1 [evs1 [-> [Hn Hl]]]].
    assert (H1 : List.length (network_calls evs1) <= 2).
    { unfold network_calls.
      pose proof (filter_length_le is_network_call evs1). lia. }
    destruct r1 as [e | v].
    + rewrite <- app_assoc. eexists; eexists; split; [reflexivity |].
      rewrite network_calls_app, H0. cbn [app List.length]. lia.
    + destruct (IH (i + 1)%Z ((h ++ evs0) ++ evs1)%list)
        as [r2 [evs2 [-> H2]]].
      rewrite <- !app_assoc.
      destruct r2; eexists; eexists; (split; [reflexivity |]);
        rewrite !network_calls_app, H0, !length_app;
        cbn [app List.length]; lia.
Qed.

End Budget.

(** X10.  A batch of [n] claims sends at most [2 * n] requests to the
    providers, whether it returns or raises. *)
Theorem verify_all_claims_budget
    (W : world) (claims : list value) (cb : option callback)
    (h : list event) :
  exists r evs,
    FactVerifier.verify_all_claims W claims cb h = (r, (h ++ evs)%list)
    /\ List.length (network_calls evs) <= 2 * List.length claims.
Proof. apply verify_from_budget. Qed.

Lemma progress_calls_app (h evs : list event) :
  progress_calls (h ++ evs) = (progress_calls h ++ progress_calls evs)%list.
Proof. apply filter_app. Qed.

Lemma progress_calls_network (evs : list event) :
  forallb is_network_call evs = true -> progress_calls evs = [].
Proof.
  induction evs as [| ev evs IH]; [reflexivity |].
  cbn [forallb progress_calls filter]. intros H.
  apply andb_prop in H as [-> H]. exact (IH H).
Qed.

(** The loop invokes the callback once per claim, with the running
    index. *)
Lemma verify_from_progress (W : world) (f : callback) (total : Z)
    (claims : list value) :
  forall k h verdicts h',
    FactVerifier.verify_from W (Some f) total (Z.of_nat k) claims h
    = (inr verdicts, h') ->
    exists evs,
      h' = (h ++ evs)%list
      /\ progress_calls evs = expected_progress total k claims.
Proof.
  induction claims as [| claim rest IH]; intros k h verdicts h'.
  - intros H. inversion H; subst. exists []. now rewrite app_nil_r.
  - rewrite verify_from_cons.
    unfold FactVerifier.report_progress, bind, lift.
    destruct (FactVerifier.claim_preview claim) as [e | p] eqn:Hp;
      [discriminate |].
    destruct (f h (Z.of_nat k) total p); [discriminate |].
    destruct (verify_claim_grows W claim (h ++ [EvProgress (Z.of_nat k) total p]))
      as [r1 [evs1 [-> [Hn _]]]].
    destruct r1 as [e | v]; [discriminate |].
    replace (Z.of_nat k + 1)%Z with (Z.of_nat (S k)) by lia.
    destruct (FactVerifier.verify_from W (Some f) total (Z.of_nat (S k)) rest _)
      as [[e | vs] h3] eqn:Hrest; [discriminate |].
    intros H. inversion H; subst.
    destruct (IH _ _ _ _ Hrest) as [evs2 [-> H2]].
    exists ([EvProgress (Z.of_nat k) total p] ++ evs1 ++ evs2)%list.
    split; [now rewrite <- !app_assoc |].
    rewrite !progress_calls_app, (progress_calls_network _ Hn), H2.
    assert (Hpre : preview_of claim = p)
      by (unfold preview_of; now rewrite Hp).
    unfold expected_progress. cbn [List.length seq combine map fst snd app].
    rewrite Hpre. reflexivity.
Qed.

(** X11.  When a batch with a callback returns, the callback was
    invoked exactly once per claim, in the order of the claims: for the
    claim at position [i] (from 0) with the arguments [i], the number of
    claims and the preview of that claim. *)
Theorem progress_reports_every_claim
    (W : world) (f : callback) (claims verdicts : list value)
    (h h' : list event) :
  FactVerifier.verify_all_claims W claims (Some f) h = (inr verdicts, h') ->
  exists evs,
    h' = (h ++ evs)%list
    /\ progress_calls evs
       = expected_progress (Z.of_nat (List.length claims)) 0 claims
    /\ List.length (progress_calls evs) = List.length claims.
Proof.
  intros H.
  destruct (verify_from_progress W f _ claims 0 h verdicts h' H)
    as [evs [-> Hp]].
  exists evs. split; [reflexivity |]. split; [exact Hp |].
  rewrite Hp. unfold expected_progress.
  now rewrite length_map, length_combine, length_seq, Nat.min_id.
Qed.

Lemma progress_reports_every_claim_witness :
  exists evs,
    snd (FactVerifier.verify_all_claims Sample.healthy
           [Sample.claim; VDict []] (Some App.update_progress) [])
    = ([] ++ evs)%list
    /\ progress_calls evs
       = expected_progress (Z.of_nat (List.length [Sample.claim; VDict []])) 0
           [Sample.claim; VDict []]
    /\ List.length (progress_calls evs)
       = List.length [Sample.claim; VDict []].
Proof.
  apply (progress_reports_every_claim Sample.healthy App.update_progress
           [Sample.claim; VDict []]
           (match fst (FactVerifier.verify_all_claims Sample.healthy
                         [Sample.claim; VDict []]
                         (Some App.update_progress) []) with
            | inr verdicts => verdicts
            | inl _ => []
            end)).
  vm_compute. reflexivity.
Defined.

(** X12.  The preview handed to the callback exists only for a claim
    whose text is a string (or absent); it is the first 50 characters of
    the text followed by "...", hence never longer than 53 characters. *)
Theorem claim_preview_is_short (claim : value) (preview : string) :
  FactVerifier.claim_preview claim = inr preview ->
  exists text,
    Py.get claim "claim" (VStr "") = inr (VStr text)
    /\ preview = take 50 text ++ "..."
    /\ String.length preview = Nat.min 50 (String.length text) + 3
    /\ String.length preview <= 53.
Proof.
  unfold FactVerifier.claim_preview.
  destruct (Py.get claim "claim" (VStr "")) as [e | v]; [discriminate |].
  destruct v as [| | | | text | |]; try discriminate.
  intros H. inversion H; subst. exists text.
  assert (Hlen : String.length (take 50 text ++ "...")
                 = Nat.min 50 (String.length text) + 3)
    by (rewrite str_length_app, take_length; reflexivity).
  split; [reflexivity |]. split; [reflexivity |].
  split; [exact Hlen |].
  change (String.length (take 50 text ++ "...") <= 53). rewrite Hlen. lia.
Qed.

Lemma claim_preview_is_short_witness :
  exists text,
    Py.get Sample.claim "claim" (VStr "") = inr (VStr text)
    /\ "Company X grew revenue 40% in 2023...." = take 50 text ++ "..."
    /\ String.length "Company X grew revenue 40% in 2023...."
       = Nat.min 50 (String.length text) + 3
    /\ String.length "Company X grew revenue 40% in 2023...." <= 53.
Proof.
  apply (claim_preview_is_short Sample.claim). reflexivity.
Defined.

(** X13.  A claim that is no JSON object (a string, say, when the model
    answered an array of sentences) ends the batch: after the claims
    before it were verified, [claim.get] raises [AttributeError], with or
    without a callback, before anything is reported or requested for it,
    and no verdict is returned. *)
Theorem non_object_claim_aborts_batch
    (W : world) (cb : option callback) (done rest verdicts : list value)
    (claim : value) (h h1 : list event) :
  let claims := (done ++ claim :: rest)%list in
  verified_in_order W cb (Z.of_nat (List.length claims)) 0 done h verdicts h1 ->
  is_dict claim = false ->
  FactVerifier.verify_all_claims W claims cb h
  = (raise AttributeError "object has no attribute 'get'", h1).
Proof.
  intros claims Hdone Hclaim. subst claims.
  unfold FactVerifier.verify_all_claims.
  rewrite (verify_from_app W cb _ done (claim :: rest) verdicts 0%Z h h1 Hdone).
  rewrite verify_from_cons.
  destruct claim; try discriminate Hclaim; destruct cb; reflexivity.
Qed.

Lemma non_object_claim_aborts_batch_witness :
  FactVerifier.verify_all_claims Sample.healthy
    ([] ++ VStr "Company X grew revenue 40% in 2023." :: [Sample.claim])%list
    (Some App.update_progress) []
  = (raise AttributeError "object has no attribute 'get'", []).
Proof.
  apply (non_object_claim_aborts_batch Sample.healthy
           (Some App.update_progress) [] [Sample.claim] []
           (VStr "Company X grew revenue 40% in 2023.") [] []).
  - constructor.
  - reflexivity.
Defined.

(** X14.  A callback that always returns, on claims that have a
    preview, changes nothing in what [verify_all_claims] gives: the same
    verdicts, or the same exception, as without a callback. *)
Theorem returning_callback_changes_no_verdict
    (W : world) (f : callback) (claims : list value) (h : list event) :
  (forall h0 i total preview, f h0 i total preview = None) ->
  Forall (fun claim => exists p, FactVerifier.claim_preview claim = inr p)
         claims ->
  fst (FactVerifier.verify_all_claims W claims (Some f) h)
  = fst (FactVerifier.verify_all_claims W claims None h).
Proof.
  intros Hf Hp. unfold FactVerifier.verify_all_claims.
  now apply returning_callback_is_transparent.
Qed.

Lemma returning_callback_changes_no_verdict_witness :
  fst (FactVerifier.verify_all_claims Sample.healthy [Sample.claim; VDict []]
         (Some App.update_progress) [])
  = fst (FactVerifier.verify_all_claims Sample.healthy [Sample.claim; VDict []]
           None []).
Proof.
  apply (returning_callback_changes_no_verdict Sample.healthy
           App.update_progress [Sample.claim; VDict []] []).
  - reflexivity.
  - repeat constructor; eexists; reflexivity.
Defined.

(** A batch that returns has one verdict per claim, each a dictionary. *)
Lemma verify_from_length (W : world) (cb : option callback) (total : Z)
    (claims : list value) :
  forall i h verdicts h',
    FactVerifier.verify_from W cb total i claims h = (inr verdicts, h') ->
    List.length verdicts = List.length claims.
Proof.
  induction claims as [| claim rest IH]; intros i h verdicts h'.
  - intros H. now inversion H.
  - rewrite verify_from_cons.
    destruct (FactVerifier.report_progress cb i total claim h)
      as [[e | u] h1]; [discriminate |].
    destruct (FactVerifier.verify_claim W claim h1) as [[e | v] h2];
      [discriminate |].
    destruct (FactVerifier.verify_from W cb total (i + 1) rest h2)
      as [[e | vs] h3] eqn:Hrest; [discriminate |].
    intros H. inversion H; subst. cbn [List.length].
    now rewrite (IH _ _ _ _ Hrest).
Qed.

Lemma verify_from_returns_dicts (W : world) (cb : option callback)
    (total : Z) (claims : list value) :
  forall i h verdicts h',
    FactVerifier.verify_from W cb total i claims h = (inr verdicts, h') ->
    forallb is_dict verdicts = true.
Proof.
  induction claims as [| claim rest IH]; intros i h verdicts h'.
  - intros H. now inversion H.
  - rewrite verify_from_cons.
    destruct (FactVerifier.report_progress cb i total claim h)
      as [[e | u] h1]; [discriminate |].
    destruct (FactVerifier.verify_claim W claim h1) as [[e | v] h2] eqn:Hv;
      [discriminate |].
    destruct (FactVerifier.verify_from W cb total (i + 1) rest h2)
      as [[e | vs] h3] eqn:Hrest; [discriminate |].
    intros H. inversion H; subst. cbn [forallb].
    now rewrite (verify_claim_returns_dict _ _ _ _ _ Hv), (IH _ _ _ _ Hrest).
Qed.

(** [get_secret] of app.py and the gateways read a key the same way. *)
Lemma get_secret_read_api_key (W : world) (key : string) :
  App.get_secret W key "" = read_api_key W key.
Proof. reflexivity. Qed.

(** X15.  With the key OPENROUTER_API_KEY configured, search responses
    of the documented shape and a callback that returns, the batch over
    claims that have a preview raises nothing: it returns one verdict
    per claim, each a dictionary. *)
Theorem configured_batch_returns
    (W : world) (f : callback) (claims : list value) (h : list event) :
  App.get_secret W "OPENROUTER_API_KEY" "" <> "" ->
  (forall calls key query r,
      tavily_search W calls key query 5 = inr r ->
      well_formed_response r = true) ->
  (forall h0 i total preview, f h0 i total preview = None) ->
  Forall (fun claim => exists p, FactVerifier.claim_preview claim = inr p)
         claims ->
  exists verdicts h',
    FactVerifier.verify_all_claims W claims (Some f) h = (inr verdicts, h')
    /\ List.length verdicts = List.length claims
    /\ forallb is_dict verdicts = true.
Proof.
  intros Hkey Hshape Hf Hclaims.
  assert (Hclient : exists client, FactVerifier.get_openai_client W = inr client).
  { unfold FactVerifier.get_openai_client.
    rewrite <- get_secret_read_api_key.
    destruct (String.eqb_spec (App.get_secret W "OPENROUTER_API_KEY" "") "");
      [contradiction | eexists; reflexivity]. }
  destruct Hclient as [client Hclient].
  rewrite Forall_forall in Hclaims.
  assert (Hrun : exists verdicts h',
             FactVerifier.verify_from W (Some f)
               (Z.of_nat (List.length claims)) 0 claims h = (inr verdicts, h')
             /\ List.length verdicts = List.length claims).
  { destruct (verify_from_in_order W (Some f) (Z.of_nat (List.length claims))
                claims) with (i := 0%Z) (h := h)
      as [verdicts [h' [Hrun [Hlen _]]]].
    - intros claim h0 Hin. destruct (Hclaims claim Hin) as [p Hp].
      destruct claim as [| | | | | | d]; try discriminate Hp.
      exact (verify_claim_returns W client d h0 Hclient Hshape).
    - intros claim i h0 Hin. destruct (Hclaims claim Hin) as [p Hp].
      unfold FactVerifier.report_progress, bind, lift.
      rewrite Hp, Hf. eexists; reflexivity.
    - now exists verdicts, h'. }
  destruct Hrun as [verdicts [h' [Hrun Hlen]]].
  exists verdicts, h'. unfold FactVerifier.verify_all_claims.
  split; [exact Hrun |]. split; [exact Hlen |].
  exact (verify_from_returns_dicts _ _ _ _ _ _ _ _ Hrun).
Qed.

Lemma configured_batch_returns_witness :
  exists verdicts h',
    FactVerifier.verify_all_claims Sample.garbled [Sample.claim; VDict []]
      (Some App.update_progress) [] = (inr verdicts, h')
    /\ List.length verdicts = List.length [Sample.claim; VDict []]
    /\ forallb is_dict verdicts = true.
Proof.
  apply (configured_batch_returns Sample.garbled App.update_progress
           [Sample.claim; VDict []] []).
  - vm_compute. discriminate.
  - intros calls key query r H. injection H as <-. reflexivity.
  - reflexivity.
  - repeat constructor; eexists; reflexivity.
Defined.

(* ================================================================== *)
(** ** The PDF reader *)
(* ================================================================== *)

Lemma page_blocks_none (pages : list (option string)) :
  forall page_num,
    PdfProcessor.page_blocks page_num pages = []
    <-> existsb page_has_text pages = false.
Proof.
  induction pages as [| p rest IH]; intros page_num; [now split |].
  destruct p as [t |];
    cbn [PdfProcessor.page_blocks existsb page_has_text];
    [destruct (String.eqb t "") |]; cbn [negb orb]; try apply IH.
  split; intros H; discriminate H.
Qed.

(** X16.  [extract_text_from_pdf] returns a text exactly when some page
    of the readable document has a non-empty text; and whatever it
    raises is a [ValueError]. *)
Theorem extraction_needs_one_page_with_text :
  (forall pages : list (option string),
      (exists text, PdfProcessor.extract_text_from_pdf (inr pages) = inr text)
      <-> existsb page_has_text pages = true)
  /\ (forall pages e,
        PdfProcessor.extract_text_from_pdf pages = inl e ->
        exn_cls e = ValueError).
Proof.
  split.
  - intros pages. unfold PdfProcessor.extract_text_from_pdf.
    pose proof (page_blocks_none pages 1%Z) as Hnone.
    destruct (PdfProcessor.page_blocks 1 pages) as [| b bs].
    + split; [intros [text H]; discriminate H |].
      intros H. destruct Hnone as [Hnone _].
      rewrite (Hnone eq_refl) in H. discriminate H.
    + split; [| intros _; eexists; reflexivity].
      intros _. destruct (existsb page_has_text pages); [reflexivity |].
      destruct Hnone as [_ Hnone]. discriminate (Hnone eq_refl).
  - intros pages e. unfold PdfProcessor.extract_text_from_pdf.
    destruct pages as [e0 | ps].
    + intros H. now inversion H.
    + destruct (PdfProcessor.page_blocks 1 ps); [| discriminate].
      intros H. now inversion H.
Qed.

(** X17.  The blocks of the extracted text are those of the pages with
    text, and each carries the position of its page in the document,
    counted from 1: pages without text are skipped but still counted. *)
Theorem page_labels_are_positions (pages : list (option string))
    (block : string) :
  In block (PdfProcessor.page_blocks 1 pages)
  <-> exists i t,
        nth_error pages i = Some (Some t)
        /\ t <> ""
        /\ block = "--- Page " ++ str_of_Z (Z.of_nat i + 1) ++ " ---" ++ nl ++ t.
Proof.
  assert (H : forall page_num,
             In block (PdfProcessor.page_blocks page_num pages)
             <-> exists i t,
                   nth_error pages i = Some (Some t)
                   /\ t <> ""
                   /\ block = "--- Page " ++ str_of_Z (Z.of_nat i + page_num)
                              ++ " ---" ++ nl ++ t).
  { induction pages as [| p rest IH]; intros page_num.
    - split; [intros [] |]. intros [[| i] [t [Hn _]]]; discriminate Hn.
    - assert (Hrest :
                In block (PdfProcessor.page_blocks (page_num + 1) rest)
                <-> exists i t,
                      nth_error (p :: rest) (S i) = Some (Some t)
                      /\ t <> ""
                      /\ block = "--- Page "
                                 ++ str_of_Z (Z.of_nat (S i) + page_num)
                                 ++ " ---" ++ nl ++ t).
      { rewrite IH. split; intros [i [t [Hn [Ht Hb]]]]; exists i, t;
          (split; [exact Hn | split; [exact Ht |]]);
          rewrite Hb; do 2 f_equal; f_equal; lia. }
      cbn [PdfProcessor.page_blocks].
      destruct p as [t0 |]; [destruct (String.eqb_spec t0 "") as [-> | Hne] |].
      + rewrite Hrest. split.
        * intros [i [t H]]. now exists (S i), t.
        * intros [[| i] [t [Hn [Ht Hb]]]];
            [injection Hn as <-; contradiction | now exists i, t].
      + cbn [In]. rewrite Hrest. split.
        * intros [<- | [i [t H]]]; [| now exists (S i), t].
          exists 0, t0.
          split; [reflexivity | split; [exact Hne | reflexivity]].
        * intros [[| i] [t [Hn [Ht Hb]]]].
          -- left. injection Hn as <-. rewrite Hb. reflexivity.
          -- right. now exists i, t.
      + rewrite Hrest. split.
        * intros [i [t H]]. now exists (S i), t.
        * intros [[| i] [t [Hn [Ht Hb]]]];
            [discriminate Hn | now exists i, t]. }
  exact (H 1%Z).
Qed.

(** X18.  [get_pdf_info] reports the number of pages of the document;
    and when it reports [has_text], [extract_text_from_pdf] on the same
    document returns a text that starts with the block of page 1, unless
    a later page raises on extraction. *)
Theorem info_with_text_means_extractable
    (doc : PdfProcessor.document) (info : value) :
  PdfProcessor.get_pdf_info doc = inr info ->
  (exists pages,
     doc = inr pages
     /\ field "num_pages" info = VInt (Z.of_nat (List.length pages)))
  /\ (field "has_text" info = VBool true ->
      (exists e, PdfProcessor.page_texts doc = inl e)
      \/ (exists text,
            PdfProcessor.extract_text_from_pdf (PdfProcessor.page_texts doc)
            = inr text
            /\ startswith text ("--- Page 1 ---" ++ nl) = true)).
Proof.
  unfold PdfProcessor.get_pdf_info.
  destruct doc as [e | pages]; [discriminate |].
  destruct pages as [| [e | first] rest]; [| discriminate |];
    intros H; inversion H; subst; clear H;
    (split; [eexists; split; reflexivity |]);
    cbn [field Py.dict_get Py.lookup String.eqb Ascii.eqb Bool.eqb];
    [discriminate |].
  destruct first as [t |]; [| discriminate].
  destruct (String.eqb_spec t "") as [-> | Hne]; [discriminate |].
  intros _. cbn [PdfProcessor.page_texts PdfProcessor.read_pages].
  destruct (PdfProcessor.read_pages rest) as [e | texts];
    [left; now exists e | right].
  unfold PdfProcessor.extract_text_from_pdf.
  cbn [PdfProcessor.page_blocks].
  destruct (String.eqb_spec t ""); [contradiction |].
  eexists. split; [reflexivity |].
  unfold startswith, join. cbn [String.concat].
  destruct (PdfProcessor.page_blocks (1 + 1) texts); [| apply prefix_app];
    change (String.prefix ("--- Page 1 ---" ++ nl)
              (("--- Page 1 ---" ++ nl) ++ t) = true);
    apply prefix_app_self.
Qed.

Lemma info_with_text_means_extractable_witness :
  let doc : PdfProcessor.document :=
    inr [inr (Some "Revenue grew."); inr None; inr (Some "Costs fell.")] in
  let info := VDict [("num_pages", VInt 3); ("has_text", VBool true)] in
  (exists pages,
     doc = inr pages
     /\ field "num_pages" info = VInt (Z.of_nat (List.length pages)))
  /\ (field "has_text" info = VBool true ->
      (exists e, PdfProcessor.page_texts doc = inl e)
      \/ (exists text,
            PdfProcessor.extract_text_from_pdf (PdfProcessor.page_texts doc)
            = inr text
            /\ startswith text ("--- Page 1 ---" ++ nl) = true)).
Proof.
  intros doc info.
  apply (info_with_text_means_extractable doc info). reflexivity.
Defined.

(* ================================================================== *)
(** ** The results page *)
(* ================================================================== *)

(** X19.  A status outside the enumeration is shown as "Unverifiable":
    for every hashable status other than "Verified", "Inaccurate" and
    "False", the emoji and the colour are those of "Unverifiable", and
    the badge has the class [status-unverifiable], the question mark and
    the status as it is. *)
Theorem unknown_status_looks_unverifiable (status : value) :
  Py.hashable status = true ->
  Py.eq_str status "Verified" = false ->
  Py.eq_str status "Inaccurate" = false ->
  Py.eq_str status "False" = false ->
  FactVerifier.get_status_emoji status
  = FactVerifier.get_status_emoji (VStr "Unverifiable")
  /\ FactVerifier.get_status_color status
     = FactVerifier.get_status_color (VStr "Unverifiable")
  /\ App.get_status_badge status
     = inr ("<span class=" ++ quoted "status-unverifiable" ++ ">"
            ++ FactVerifier.question_mark ++ " " ++ Py.str status
            ++ "</span>").
Proof.
  intros Hh Hv Hi Hf.
  unfold App.get_status_badge, FactVerifier.get_status_emoji,
    FactVerifier.get_status_color, Py.literal_get.
  rewrite Hh.
  destruct status as [| | | | s | |]; try (repeat split; reflexivity).
  cbn [Py.eq_str] in Hv, Hi, Hf. cbn [find fst snd].
  rewrite Hv, Hi, Hf.
  destruct (String.eqb s "Unverifiable"); repeat split; reflexivity.
Qed.

Lemma unknown_status_looks_unverifiable_witness :
  FactVerifier.get_status_emoji (VStr "Maybe")
  = FactVerifier.get_status_emoji (VStr "Unverifiable")
  /\ FactVerifier.get_status_color (VStr "Maybe")
     = FactVerifier.get_status_color (VStr "Unverifiable")
  /\ App.get_status_badge (VStr "Maybe")
     = inr ("<span class=" ++ quoted "status-unverifiable" ++ ">"
            ++ FactVerifier.question_mark ++ " " ++ Py.str (VStr "Maybe")
            ++ "</span>").
Proof.
  apply (unknown_status_looks_unverifiable (VStr "Maybe")); reflexivity.
Defined.

(** On dictionaries, a counter of [display_stats] gives the size of its
    status group. *)
Lemma count_status_dicts (name : string) (results : list value) :
  name <> "" ->
  forallb is_dict results = true ->
  App.count_status name results
  = inr (Z.of_nat (List.length (filter (has_status name) results))).
Proof.
  intros Hname. induction results as [| r rest IH]; [reflexivity |].
  cbn [forallb]. intros H. apply andb_prop in H as [Hr Hrest].
  destruct r as [| | | | | | d]; try discriminate Hr.
  cbn [App.count_status Py.get filter]. rewrite (IH Hrest).
  assert (E : Py.eq_str (Py.dict_get d "status" VNone) name
              = has_status name (VDict d)).
  { unfold has_status, status_of, Py.dict_get.
    destruct (Py.lookup "status" d) as [v |]; [reflexivity |].
    cbn [Py.eq_str]. symmetry. apply String.eqb_neq. congruence. }
  rewrite E. destruct (has_status name (VDict d)); cbn [List.length];
    f_equal; lia.
Qed.

(** The five priorities partition a list. *)
Lemma of_priority_lengths (l : list value) :
  List.length l
  = List.length (of_priority 0 l) + List.length (of_priority 1 l)
    + List.length (of_priority 2 l) + List.length (of_priority 3 l)
    + List.length (of_priority 4 l).
Proof.
  induction l as [| x r IH]; [reflexivity |].
  rewrite !of_priority_cons.
  destruct (priority_range x) as [E | [E | [E | [E | E]]]];
    rewrite E; cbn [Z.eqb Pos.eqb List.length]; lia.
Qed.

(** X20.  On dictionaries, the four numbers of [display_stats] are the
    sizes of the groups of verdicts with status "Verified",
    "Inaccurate", "False" and "Unverifiable"; a verdict with any other
    status is counted nowhere, so that the four numbers and the number
    of such verdicts add up to the number of results. *)
Theorem display_stats_counts_groups (results : list value) :
  forallb is_dict results = true ->
  exists verified inaccurate false' unverifiable,
    App.display_stats results
    = inr (verified, inaccurate, false', unverifiable)
    /\ verified
       = Z.of_nat (List.length (filter (has_status "Verified") results))
    /\ inaccurate
       = Z.of_nat (List.length (filter (has_status "Inaccurate") results))
    /\ false'
       = Z.of_nat (List.length (filter (has_status "False") results))
    /\ unverifiable
       = Z.of_nat (List.length (filter (has_status "Unverifiable") results))
    /\ (verified + inaccurate + false' + unverifiable
        + Z.of_nat (List.length (filter other_status results))
        = Z.of_nat (List.length results))%Z.
Proof.
  intros H. unfold App.display_stats.
  rewrite !(count_status_dicts _ results) by (assumption || discriminate).
  do 4 eexists. split; [reflexivity |]. do 4 (split; [reflexivity |]).
  pose proof (of_priority_lengths results) as Hlen.
  destruct (of_priority_status results) as [E0 [E1 [E2 [E3 E4]]]].
  rewrite E0, E1, E2, E3, E4 in Hlen. lia.
Qed.

Lemma display_stats_counts_groups_witness :
  let results :=
    [VDict [("status", VStr "Verified"); ("claim", VStr "a")];
     VDict [("status", VStr "Maybe"); ("claim", VStr "b")];
     VDict [("status", VStr "False"); ("claim", VStr "c")];
     VDict [("claim", VStr "d")];
     VDict [("status", VStr "Verified"); ("claim", VStr "e")]] in
  exists verified inaccurate false' unverifiable,
    App.display_stats results
    = inr (verified, inaccurate, false', unverifiable)
    /\ verified
       = Z.of_nat (List.length (filter (has_status "Verified") results))
    /\ inaccurate
       = Z.of_nat (List.length (filter (has_status "Inaccurate") results))
    /\ false'
       = Z.of_nat (List.length (filter (has_status "False") results))
    /\ unverifiable
       = Z.of_nat (List.length (filter (has_status "Unverifiable") results))
    /\ (verified + inaccurate + false' + unverifiable
        + Z.of_nat (List.length (filter other_status results))
        = Z.of_nat (List.length results))%Z.
Proof.
  intros results. apply (display_stats_counts_groups results). reflexivity.
Defined.

(** X21.  Whatever [verify_all_claims] returns, every verdict in it is
    a dictionary, and [display_stats] computes its four numbers on it
    without raising, even for a status that cannot be hashed. *)
Theorem statistics_accept_every_batch
    (W : world) (claims verdicts : list value) (cb : option callback)
    (h h' : list event) :
  FactVerifier.verify_all_claims W claims cb h = (inr verdicts, h') ->
  forallb is_dict verdicts = true
  /\ exists counts, App.display_stats verdicts = inr counts.
Proof.
  intros H. apply verify_from_returns_dicts in H. split; [exact H |].
  unfold App.display_stats.
  rewrite !(count_status_dicts _ verdicts) by (assumption || discriminate).
  eexists; reflexivity.
Qed.

Lemma statistics_accept_every_batch_witness :
  let verdicts :=
    [VDict [("status", VList []); ("claim", VStr "Company X grew revenue 40% in 2023.");
            ("category", VStr "Financial")]] in
  forallb is_dict verdicts = true
  /\ exists counts, App.display_stats verdicts = inr counts.
Proof.
  intros verdicts.
  pose (W := Sample.constant_world Sample.both_keys (inr Sample.evidence)
               (inr [Some ("{" ++ quoted "status" ++ ": []}")])).
  apply (statistics_accept_every_batch W [Sample.claim] verdicts None []
           (snd (FactVerifier.verify_all_claims W [Sample.claim] None []))).
  vm_compute. reflexivity.
Defined.

(** The sort key is defined on the sortable verdicts only, and the sort
    rearranges its input. *)
Lemma sort_key_inv (v : value) (k : Z) :
  App.sort_key v = inr k -> sortable v = true.
Proof.
  destruct v as [| | | | | | d]; try discriminate.
  unfold App.sort_key, App.priority_get, sortable, Py.get.
  destruct (Py.hashable (Py.dict_get d "status" (VStr ""))); [| discriminate].
  reflexivity.
Qed.

Lemma decorate_inv (xs : list value) :
  forall kxs,
    App.decorate xs = inr kxs ->
    map snd kxs = xs /\ forallb sortable xs = true.
Proof.
  induction xs as [| x rest IH]; intros kxs.
  - intros H. inversion H. now split.
  - cbn [App.decorate forallb].
    destruct (App.sort_key x) as [e | k] eqn:Hk; [discriminate |].
    destruct (App.decorate rest) as [e | kxs'] eqn:Hd; [discriminate |].
    intros H. inversion H; subst. destruct (IH kxs' eq_refl) as [Hm Hs].
    cbn [map snd]. rewrite Hm, Hs, (sort_key_inv x k Hk). now split.
Qed.

Lemma insert_permutation (kx : Z * value) (l : list (Z * value)) :
  Permutation (kx :: l) (App.insert kx l).
Proof.
  induction l as [| ky r IH]; [apply Permutation_refl |].
  cbn [App.insert]. destruct (Z.leb (fst kx) (fst ky));
    [apply Permutation_refl |].
  eapply perm_trans; [apply perm_swap | now apply perm_skip].
Qed.

Lemma stable_sort_permutation (l : list (Z * value)) :
  Permutation l (App.stable_sort l).
Proof.
  induction l as [| kx r IH]; [apply perm_nil |].
  cbn [App.stable_sort].
  eapply perm_trans; [apply perm_skip, IH | apply insert_permutation].
Qed.

Lemma sorted_results_permutation (results display : list value) :
  App.sorted_results results = inr display -> Permutation results display.
Proof.
  unfold App.sorted_results.
  destruct (App.decorate results) as [e | kxs] eqn:Hd; [discriminate |].
  intros H. inversion H; subst.
  destruct (decorate_inv results kxs Hd) as [Hm _].
  rewrite <- Hm at 1. apply Permutation_map, stable_sort_permutation.
Qed.

(** X22.  The severity sort returns exactly when every result is a
    dictionary with a hashable status, and then the display list is a
    rearrangement of the results: no verdict is dropped or shown
    twice. *)
Theorem display_list_permutes_results (results : list value) :
  ((exists display, App.sorted_results results = inr display)
   <-> forallb sortable results = true)
  /\ (forall display,
        App.sorted_results results = inr display ->
        Permutation results display
        /\ List.length display = List.length results).
Proof.
  split; [split |].
  - unfold App.sorted_results. intros [display H].
    destruct (App.decorate results) as [e | kxs] eqn:Hd; [discriminate |].
    exact (proj2 (decorate_inv results kxs Hd)).
  - unfold App.sorted_results. intros H.
    rewrite (decorate_sortable results H). eexists; reflexivity.
  - intros display H.
    pose proof (sorted_results_permutation results display H) as Hp.
    split; [exact Hp |]. symmetry. now apply Permutation_length.
Qed.

(* ================================================================== *)
(** ** The analysis action, end to end *)
(* ================================================================== *)

(** X23.  Once the key check of [main] has passed, the three
    constructors the pipeline calls later succeed: the Tavily client and
    both OpenRouter clients, the two of them with the same key and base
    URL. *)
Theorem key_check_guarantees_clients
    (W : world) (pages : result (list (option string))) (h : list event) :
  fst (App.analyze W pages h) <> App.Blocked [App.keys_error; App.keys_info] ->
  exists key client,
    FactVerifier.get_tavily_client W = inr key
    /\ ClaimExtractor.get_openai_client W = inr client
    /\ FactVerifier.get_openai_client W = inr client.
Proof.
  unfold App.analyze, FactVerifier.get_tavily_client,
    ClaimExtractor.get_openai_client, FactVerifier.get_openai_client.
  rewrite !get_secret_read_api_key.
  destruct (String.eqb (read_api_key W "OPENROUTER_API_KEY") "");
    [intros H; now contradiction H |].
  destruct (String.eqb (read_api_key W "TAVILY_API_KEY") "");
    [intros H; now contradiction H |].
  intros _. eexists; eexists. repeat split; reflexivity.
Qed.

Lemma key_check_guarantees_clients_witness :
  exists key client,
    FactVerifier.get_tavily_client Sample.healthy = inr key
    /\ ClaimExtractor.get_openai_client Sample.healthy = inr client
    /\ FactVerifier.get_openai_client Sample.healthy = inr client.
Proof.
  apply (key_check_guarantees_clients Sample.healthy (inr [None]) []).
  vm_compute. discriminate.
Defined.

(** X24.  When no text can be extracted from the upload, the analysis
    ends before any request: the trace is unchanged, and the page shows
    either the key messages or "An error occurred: " followed by the
    message of the extraction. *)
Theorem unreadable_pdf_sends_nothing
    (W : world) (pages : result (list (option string))) (h : list event)
    (e : exn) :
  PdfProcessor.extract_text_from_pdf pages = inl e ->
  snd (App.analyze W pages h) = h
  /\ (fst (App.analyze W pages h) = App.Blocked [App.keys_error; App.keys_info]
      \/ fst (App.analyze W pages h)
         = App.Failed (App.StError ("An error occurred: " ++ exn_str e))).
Proof.
  intros He. unfold App.analyze, App.pipeline, bind, lift. rewrite He.
  destruct (_ || _)%bool; split; try reflexivity; [now left | now right].
Qed.

Lemma unreadable_pdf_sends_nothing_witness :
  let e :=
    Exn ValueError
      "No text could be extracted from the PDF. The document may be scanned or image-based." in
  snd (App.analyze Sample.healthy (inr [None; Some ""]) []) = []
  /\ (fst (App.analyze Sample.healthy (inr [None; Some ""]) [])
      = App.Blocked [App.keys_error; App.keys_info]
      \/ fst (App.analyze Sample.healthy (inr [None; Some ""]) [])
         = App.Failed (App.StError ("An error occurred: " ++ exn_str e))).
Proof.
  intros e.
  apply (unreadable_pdf_sends_nothing Sample.healthy (inr [None; Some ""]) [] e).
  reflexivity.
Defined.

(** X25.  An analysis that reaches its end went through the three
    stages in order, each in the trace the one before left; there is one
    verdict per extracted claim; the display list is a rearrangement of
    the verdicts; and the download payload is [str] of the verdicts in
    the order of verification, not of display. *)
Theorem analysis_shows_every_verdict
    (W : world) (pages : result (list (option string))) (h h' : list event)
    (display : list value) (download : string) :
  App.analyze W pages h = (App.Done display download, h') ->
  exists text claims results h1,
    PdfProcessor.extract_text_from_pdf pages = inr text
    /\ ClaimExtractor.extract_claims W text h = (inr claims, h1)
    /\ FactVerifier.verify_all_claims W claims (Some App.update_progress) h1
       = (inr results, h')
    /\ List.length results = List.length claims
    /\ Permutation results display
    /\ download = Py.str (VList results).
Proof.
  unfold App.analyze.
  destruct (_ || _)%bool; [discriminate |].
  destruct (App.pipeline W pages h) as [[e | results] h2] eqn:Hp;
    [discriminate |].
  destruct (App.sorted_results results) as [e | shown] eqn:Hs;
    [discriminate |].
  intros H. inversion H; subst. revert Hp.
  unfold App.pipeline, bind, lift.
  destruct (PdfProcessor.extract_text_from_pdf pages) as [e | text];
    [discriminate |].
  destruct (ClaimExtractor.extract_claims W text h) as [[e | claims] h1] eqn:He;
    [discriminate |].
  intros Hv. exists text, claims, results, h1.
  split; [reflexivity |]. split; [exact He |]. split; [exact Hv |].
  split; [exact (verify_from_length _ _ _ _ _ _ _ _ Hv) |].
  split; [| reflexivity].
  exact (sorted_results_permutation results display Hs).
Qed.

Lemma analysis_shows_every_verdict_witness :
  let W := Sample.scripted Sample.one_claim Sample.judgment in
  let pages := inr [Some "Company X grew revenue 40% in 2023."] in
  let verdict :=
    VDict [("status", VStr "False"); ("confidence", VFloat 9 (-1));
           ("explanation", VStr "12%, not 40%");
           ("correct_information", VStr "12%"); ("sources", VList []);
           ("claim", VStr "Company X grew revenue 40% in 2023.");
           ("category", VStr "Financial")] in
  exists text claims results h1,
    PdfProcessor.extract_text_from_pdf pages = inr text
    /\ ClaimExtractor.extract_claims W text [] = (inr claims, h1)
    /\ FactVerifier.verify_all_claims W claims (Some App.update_progress) h1
       = (inr results, snd (App.analyze W pages []))
    /\ List.length results = List.length claims
    /\ Permutation results [verdict]
    /\ Py.str (VList [verdict]) = Py.str (VList results).
Proof.
  intros W pages verdict.
  apply (analysis_shows_every_verdict W pages [] (snd (App.analyze W pages []))
           [verdict] (Py.str (VList [verdict]))).
  vm_compute. reflexivity.
Defined.

(** On dictionaries, the sort key fails only by hashing the status. *)
Lemma sort_key_dict_error (d : dict) (e : exn) :
  App.sort_key (VDict d) = inl e -> e = Exn TypeError "unhashable type".
Proof.
  unfold App.sort_key, App.priority_get. cbn [Py.get].
  destruct (Py.hashable (Py.dict_get d "status" (VStr "")));
    [| intros H; now inversion H].
  destruct (Py.dict_get d "status" (VStr "")); try discriminate.
  destruct (find _ App.priority_order); discriminate.
Qed.

Lemma decorate_dicts_error (xs : list value) (e : exn) :
  forallb is_dict xs = true ->
  App.decorate xs = inl e ->
  e = Exn TypeError "unhashable type".
Proof.
  induction xs as [| x rest IH]; [discriminate |].
  cbn [forallb App.decorate]. intros H. apply andb_prop in H as [Hx Hrest].
  destruct x as [| | | | | | d]; try discriminate Hx.
  destruct (App.sort_key (VDict d)) as [e0 | k] eqn:Hk.
  - intros H. inversion H; subst. exact (sort_key_dict_error d e Hk).
  - destruct (App.decorate rest) as [e' | kxs]; [| discriminate].
    intros H. inversion H; subst. now apply IH.
Qed.

Lemma unsortable_dict (results : list value) :
  forallb is_dict results = true ->
  forallb sortable results = false ->
  exists verdict,
    In verdict results
    /\ is_dict verdict = true
    /\ Py.hashable (status_of verdict) = false.
Proof.
  induction results as [| x rest IH]; [discriminate |].
  cbn [forallb]. intros Hd Hs. apply andb_prop in Hd as [Hx Hrest].
  destruct (sortable x) eqn:Ex.
  - destruct (IH Hrest Hs) as [v [Hin Hv]]. exists v. split; [now right | exact Hv].
  - exists x. split; [now left |]. split; [exact Hx |].
    destruct x as [| | | | | | d]; try discriminate Hx. exact Ex.
Qed.

(** X26.  When the severity sort raises on the list
    [verify_all_claims] returned, the exception is the [TypeError] of
    hashing a status: every verdict of the list is a dictionary, and one
    of them has a status that cannot be hashed. *)
Theorem severity_sort_fails_only_on_unhashable_status
    (W : world) (claims results : list value) (cb : option callback)
    (h h' : list event) (e : exn) :
  FactVerifier.verify_all_claims W claims cb h = (inr results, h') ->
  App.sorted_results results = inl e ->
  exn_cls e = TypeError
  /\ forallb is_dict results = true
  /\ exists verdict,
       In verdict results
       /\ is_dict verdict = true
       /\ Py.hashable (status_of verdict) = false.
Proof.
  intros Hrun Hsort.
  assert (Hd : forallb is_dict results = true)
    by exact (verify_from_returns_dicts _ _ _ _ _ _ _ _ Hrun).
  revert Hsort. unfold App.sorted_results.
  destruct (App.decorate results) as [e0 | kxs] eqn:Hdec; [| discriminate].
  intros H. inversion H; subst.
  rewrite (decorate_dicts_error results e Hd Hdec).
  split; [reflexivity |]. split; [exact Hd |].
  apply unsortable_dict; [exact Hd |].
  destruct (forallb sortable results) eqn:Hs; [| reflexivity].
  rewrite (decorate_sortable results Hs) in Hdec. discriminate Hdec.
Qed.

Lemma severity_sort_fails_only_on_unhashable_status_witness :
  let results :=
    [VDict [("status", VDict []);
            ("claim", VStr "Company X grew revenue 40% in 2023.");
            ("category", VStr "Financial")]] in
  exn_cls (Exn TypeError "unhashable type") = TypeError
  /\ forallb is_dict results = true
  /\ exists verdict,
       In verdict results
       /\ is_dict verdict = true
       /\ Py.hashable (status_of verdict) = false.
Proof.
  intros results.
  pose (W := Sample.constant_world Sample.both_keys (inr Sample.evidence)
               (inr [Some ("{" ++ quoted "status" ++ ": {}}")])).
  apply (severity_sort_fails_only_on_unhashable_status W [Sample.claim]
           results None []
           (snd (FactVerifier.verify_all_claims W [Sample.claim] None []))
           (Exn TypeError "unhashable type")).
  - vm_compute. reflexivity.
  - reflexivity.
Defined.

(** The gateways hand out the configured keys. *)
Lemma get_tavily_client_key (W : world) (key : string) :
  FactVerifier.get_tavily_client W = inr key ->
  key = read_api_key W "TAVILY_API_KEY".
Proof.
  unfold FactVerifier.get_tavily_client.
  destruct (String.eqb _ ""); [discriminate |].
  intros H. now inversion H.
Qed.

Lemma get_openai_client_key (W : world) (client : openai_client) :
  FactVerifier.get_openai_client W = inr client ->
  api_key client = read_api_key W "OPENROUTER_API_KEY"
  /\ base_url client = "https://openrouter.ai/api/v1".
Proof.
  unfold FactVerifier.get_openai_client.
  destruct (String.eqb _ ""); [discriminate |].
  intros H. inversion H. now split.
Qed.

(** Each stage sends configured requests only. *)
Lemma extract_claims_configured (W : world) (document_text : string)
    (h : list event) :
  exists r evs,
    ClaimExtractor.extract_claims W document_text h = (r, (h ++ evs)%list)
    /\ Forall (configured_request W) evs.
Proof.
  unfold ClaimExtractor.extract_claims, bind, lift, try_except.
  destruct (ClaimExtractor.get_openai_client W) as [e | client] eqn:Hc;
    [eexists; exists []; rewrite app_nil_r; split; [reflexivity | constructor] |].
  destruct (get_openai_client_key W client Hc) as [Hk Hu].
  unfold ClaimExtractor.request_claims.
  set (ev := EvCompletion _ _ _ _ _ _).
  assert (Hev : Forall (configured_request W) [ev]).
  { constructor; [| constructor]. unfold ev. cbn [configured_request].
    repeat split; try assumption; try reflexivity. now left. }
  clearbody ev.
  destruct (chat_completion W _ _ _ _ _) as [e | choices];
    [destruct (is_json_decode_error e); eexists; eexists;
     split; [reflexivity | exact Hev | reflexivity | exact Hev] |].
  destruct (message_content choices) as [e | content];
    [destruct (is_json_decode_error e); eexists; eexists;
     split; [reflexivity | exact Hev | reflexivity | exact Hev] |].
  destruct (Json.loads content) as [e | claims];
    [destruct (is_json_decode_error e); eexists; eexists;
     split; [reflexivity | exact Hev | reflexivity | exact Hev] |].
  destruct claims; eexists; eexists; (split; [reflexivity | exact Hev]).
Qed.

Lemma verify_claim_configured (W : world) (claim : value) (h : list event) :
  exists r evs,
    FactVerifier.verify_claim W claim h = (r, (h ++ evs)%list)
    /\ Forall (configured_request W) evs.
Proof.
  destruct claim as [| | | | | | d];
    try (eexists; exists []; rewrite app_nil_r;
         split; [reflexivity | constructor]).
  destruct (verify_claim_dict_requests W d h) as [r [evs [Hrun Hshape]]].
  exists r, evs. split; [exact Hrun |].
  destruct Hshape as [[-> _] | [[key [Hk ->]] | [key [client [prompt [Hk [Hc ->]]]]]]].
  - constructor.
  - constructor; [| constructor]. cbn [configured_request].
    now rewrite (get_tavily_client_key W key Hk).
  - destruct (get_openai_client_key W client Hc) as [Ha _].
    constructor; [| constructor; [| constructor]]; cbn [configured_request].
    + now rewrite (get_tavily_client_key W key Hk).
    + repeat split; try assumption; try reflexivity. now right.
Qed.

Lemma report_progress_configured (W : world) (cb : option callback)
    (i total : Z) (claim : value) (h : list event) :
  exists r evs,
    FactVerifier.report_progress cb i total claim h = (r, (h ++ evs)%list)
    /\ Forall (configured_request W) evs.
Proof.
  unfold FactVerifier.report_progress, bind, lift, ret.
  destruct cb as [f |];
    [| eexists; exists []; rewrite app_nil_r; split; [reflexivity | constructor]].
  destruct (FactVerifier.claim_preview claim) as [e | p];
    [eexists; exists []; rewrite app_nil_r; split; [reflexivity | constructor] |].
  destruct (f h i total p); eexists; eexists;
    (split; [reflexivity | constructor; [exact I | constructor]]).
Qed.

Lemma verify_from_configured (W : world) (cb : option callback) (total : Z)
    (claims : list value) :
  forall i h,
  exists r evs,
    FactVerifier.verify_from W cb total i claims h = (r, (h ++ evs)%list)
    /\ Forall (configured_request W) evs.
Proof.
  induction claims as [| claim rest IH]; intros i h.
  - eexists; exists []; rewrite app_nil_r. split; [reflexivity | constructor].
  - rewrite verify_from_cons.
    destruct (report_progress_configured W cb i total claim h)
      as [r0 [evs0 [-> H0]]].
    destruct r0 as [e | u]; [eexists; eexists; split; [reflexivity | exact H0] |].
    destruct (verify_claim_configured W claim (h ++ evs0))
      as [r1 [evs1 [-> H1]]].
    destruct r1 as [e | v].
    + rewrite <- app_assoc. eexists; eexists; split; [reflexivity |].
      apply Forall_app. now split.
    + destruct (IH (i + 1)%Z ((h ++ evs0) ++ evs1)%list)
        as [r2 [evs2 [-> H2]]].
      rewrite <- !app_assoc.
      destruct r2; eexists; eexists; (split; [reflexivity |]);
        repeat (apply Forall_app; split); assumption.
Qed.

(** X27.  Whatever the analysis action adds to the trace, every request
    in it is sent as configured: a search with the Tavily key, depth
    "advanced", five results and the answer included; a completion
    through OpenRouter with the OpenRouter key, the configured model,
    temperature 0.1 and 4000 or 1000 tokens.  No other key, address or
    model is ever used. *)
Theorem analysis_requests_are_configured
    (W : world) (pages : result (list (option string))) (h : list event) :
  exists evs,
    snd (App.analyze W pages h) = (h ++ evs)%list
    /\ Forall (configured_request W) evs.
Proof.
  unfold App.analyze.
  destruct (_ || _)%bool;
    [exists []; rewrite app_nil_r; split; [reflexivity | constructor] |].
  assert (Hp : exists r evs,
             App.pipeline W pages h = (r, (h ++ evs)%list)
             /\ Forall (configured_request W) evs).
  { unfold App.pipeline, bind, lift.
    destruct (PdfProcessor.extract_text_from_pdf pages) as [e | text];
      [eexists; exists []; rewrite app_nil_r; split; [reflexivity | constructor] |].
    destruct (extract_claims_configured W text h) as [r0 [evs0 [-> H0]]].
    destruct r0 as [e | claims];
      [eexists; eexists; split; [reflexivity | exact H0] |].
    destruct (verify_from_configured W (Some App.update_progress)
                (Z.of_nat (List.length claims)) claims 0%Z (h ++ evs0))
      as [r1 [evs1 [Hrun H1]]].
    unfold FactVerifier.verify_all_claims. rewrite Hrun, <- app_assoc.
    eexists; eexists; split; [reflexivity |]. apply Forall_app. now split. }
  destruct Hp as [r [evs [-> Hevs]]]. exists evs.
  destruct r as [e | results]; [now split |].
  destruct (App.sorted_results results); now split.
Qed.

(* ================================================================== *)
(** ** Worked examples *)
(* ================================================================== *)

Example strip_example :
  strip ("  " ++ nl ++ "abc d " ++ nl) = "abc d".
Proof. reflexivity. Qed.

Example split_example :
  split "```" "a```b``c```" = ["a"; "b``c"; ""].
Proof. reflexivity. Qed.

Example strip_code_fence_example :
  strip_code_fence (" ```json" ++ nl ++ "[1, 2]" ++ nl ++ "``` " ++ nl)
  = inr "[1, 2]".
Proof. reflexivity. Qed.

(** [{"b": [1, 2.50, -3e2, true, null, "x\n"], "a": {}, "b": false}] *)
Example loads_example :
  Json.loads ("{" ++ quoted "b" ++ ": [1, 2.50, -3e2, true, null, "
              ++ quoted ("x" ++ String backslash "n") ++ "], "
              ++ quoted "a" ++ " : {}, " ++ quoted "b" ++ ":false} ")
  = inr (VDict [("b", VBool false); ("a", VDict [])])
  /\ Json.loads "[1, 2.50, -3e2, true, null]"
     = inr (VList [VInt 1; VFloat 250 (-2); VFloat (-3) 2; VBool true; VNone])
  /\ Json.loads "[1,]" = raise JSONDecodeError "Expecting value"
  /\ Json.loads "01" = raise JSONDecodeError "Extra data".
Proof. repeat split; vm_compute; reflexivity. Qed.

Example repr_example :
  Py.repr (VList [VStr "it's"; VFloat 95 (-2); VFloat 1 (-5); VBool true;
                  VNone; VDict [("k", VInt (-3))]])
  = "[" ++ quoted "it's" ++ ", 0.95, 1e-05, True, None, {'k': -3}]".
Proof. vm_compute. reflexivity. Qed.

Example extract_text_example :
  PdfProcessor.extract_text_from_pdf (inr [Some "one"; None; Some "three"])
  = inr ("--- Page 1 ---" ++ nl ++ "one" ++ nl ++ nl
         ++ "--- Page 3 ---" ++ nl ++ "three")
  /\ PdfProcessor.extract_text_from_pdf (inr [None; Some ""])
     = raise ValueError
         "No text could be extracted from the PDF. The document may be scanned or image-based.".
Proof. split; reflexivity. Qed.

(** The end-to-end scenario of the specification: the extractor finds
    one claim, the evidence contradicts it, and the verdict is "False"
    with a confidence above one half and a correction. *)
Example end_to_end_example :
  fst (App.analyze (Sample.scripted Sample.one_claim Sample.judgment)
         (inr [Some "Company X grew revenue 40% in 2023."]) [])
  = App.Done
      [VDict [("status", VStr "False"); ("confidence", VFloat 9 (-1));
              ("explanation", VStr "12%, not 40%");
              ("correct_information", VStr "12%"); ("sources", VList []);
              ("claim", VStr "Company X grew revenue 40% in 2023.");
              ("category", VStr "Financial")]]
      "[{'status': 'False', 'confidence': 0.9, 'explanation': '12%, not 40%', 'correct_information': '12%', 'sources': [], 'claim': 'Company X grew revenue 40% in 2023.', 'category': 'Financial'}]".
Proof. vm_compute. reflexivity. Qed.

(** A first page of white space: [get_pdf_info] reports no text, and the
    extraction returns the pages all the same. *)
Example get_pdf_info_example :
  PdfProcessor.get_pdf_info (inr [inr (Some "  "); inr (Some "Revenue grew.")])
  = inr (VDict [("num_pages", VInt 2); ("has_text", VBool false)])
  /\ PdfProcessor.extract_text_from_pdf
       (PdfProcessor.page_texts
          (inr [inr (Some "  "); inr (Some "Revenue grew.")]))
     = inr ("--- Page 1 ---" ++ nl ++ "  " ++ nl ++ nl
            ++ "--- Page 2 ---" ++ nl ++ "Revenue grew.").
Proof. split; reflexivity. Qed.

Example get_status_badge_example :
  App.get_status_badge (VStr "False")
  = inr ("<span class=" ++ quoted "status-false" ++ ">"
         ++ FactVerifier.cross_mark ++ " False</span>")
  /\ App.get_status_badge (VList [])
     = raise TypeError "unhashable type".
Proof. split; reflexivity. Qed.
